(** * gumloop: the iteration engine, embedded and verified

    A shallow embedding of the loop engine of gumloop (a Go program that
    drives a coding agent in a loop): the command builder
    ([internal/agent]), the three output adapters ([internal/adapter]),
    the change detector ([internal/git]), one supervised iteration
    ([internal/runner/iteration.go]) and the loop controller
    ([internal/runner/runner.go]); then the agent registry with its
    search for a close name ([internal/agent]), the configuration
    cascade ([internal/config], [internal/cli]) and the commit log of
    the session memory ([internal/memory]).

    Conventions.
    - A Go [string] is a byte sequence: Rocq's [string] (a list of
      [ascii], one per byte).
    - A Go [int] is a 64-bit two's-complement integer: a [Z] kept in
      range by [int.wrap] at every addition and subtraction.
    - A Go [error] value is a term of [error]; [nil] is [None].
    - A channel the code only sends on is the list of values sent so
      far, oldest first.
    - What the operating system, git and the agent subprocess answer is
      an explicit input of the function that asks. *)

From Stdlib Require Import String Ascii List ZArith NArith Bool Lia.
From Stdlib Require Import Permutation Sorted OrderedTypeEx DecimalString.
Import ListNotations.
Local Open Scope string_scope.
Local Open Scope list_scope.

Set Implicit Arguments.

(* ===================================================================== *)
(** * Go base types *)
(* ===================================================================== *)

Module int.
(** Go's [int], taken at its width on 64-bit platforms. *)
Definition min : Z := - 2 ^ 63.
Definition max : Z := 2 ^ 63 - 1.

Definition inRange (x : Z) : Prop := (min <= x <= max)%Z.

(** Two's-complement wrap-around of an exact result. *)
Definition wrap (x : Z) : Z := ((x + 2 ^ 63) mod 2 ^ 64 - 2 ^ 63)%Z.

Definition add (x y : Z) : Z := wrap (x + y).
Definition sub (x y : Z) : Z := wrap (x - y).
End int.

(** Go [error] values, as far as the engine builds or forwards them. *)
Inductive error : Type :=
| ErrTooLong                           (* bufio.ErrTooLong *)
| ExternalError (what : string)        (* an error of the OS, a reader or a child process *)
| Errorf (msg : string)                (* fmt.Errorf(msg) *)
| Wrapf (prefix : string) (cause : error).  (* fmt.Errorf(prefix + ": %w", cause) *)

(** The bytes the code compares against. *)
Definition LF : ascii := "010"%char.
Definition CR : ascii := "013"%char.
Definition SP : ascii := " "%char.
Definition DQUOTE : ascii := "034"%char.

(** The string of one newline. *)
Definition nl : string := String LF EmptyString.

Definition isEmpty (s : string) : bool :=
  match s with EmptyString => true | String _ _ => false end.

Definition byte (c : ascii) : N := N_of_ascii c.

(** Literals of JSON text are written with ['] where the text has a
    double quote; [sq] puts the double quotes back. *)
Fixpoint sq (s : string) : string :=
  match s with
  | EmptyString => EmptyString
  | String c r => String (if Ascii.eqb c "'"%char then DQUOTE else c) (sq r)
  end.

(* ===================================================================== *)
(** * unicode/utf8 and unicode *)
(* ===================================================================== *)

Module utf8.
Definition RuneError : N := 65533%N.   (* U+FFFD *)

Definition isCont (c : ascii) : bool :=
  ((128 <=? byte c) && (byte c <=? 191))%N.

Definition between (lo hi : N) (c : ascii) : bool :=
  ((lo <=? byte c) && (byte c <=? hi))%N.

Definition low6 (c : ascii) : N := (byte c mod 64)%N.

(** [utf8.DecodeRuneInString]: the first rune of [s] and its width in
    bytes; an invalid or truncated encoding is [RuneError] of width 1,
    the empty string is [RuneError] of width 0. *)
Definition DecodeRune (s : string) : N * nat :=
  match s with
  | EmptyString => (RuneError, 0)
  | String b0 r =>
    let x := byte b0 in
    if (x <? 128)%N then (x, 1)
    else if (x <? 194)%N then (RuneError, 1)
    else if (x <? 224)%N then
      match r with
      | String b1 _ =>
        if isCont b1 then (((x mod 32) * 64 + low6 b1)%N, 2) else (RuneError, 1)
      | _ => (RuneError, 1)
      end
    else if (x <? 240)%N then
      match r with
      | String b1 (String b2 _) =>
        let lo := if (x =? 224)%N then 160%N else 128%N in
        let hi := if (x =? 237)%N then 159%N else 191%N in
        if between lo hi b1 && isCont b2
        then ((((x mod 16) * 64 + low6 b1) * 64 + low6 b2)%N, 3)
        else (RuneError, 1)
      | _ => (RuneError, 1)
      end
    else if (x <? 245)%N then
      match r with
      | String b1 (String b2 (String b3 _)) =>
        let lo := if (x =? 240)%N then 144%N else 128%N in
        let hi := if (x =? 244)%N then 143%N else 191%N in
        if between lo hi b1 && isCont b2 && isCont b3
        then (((((x mod 8) * 64 + low6 b1) * 64 + low6 b2) * 64 + low6 b3)%N, 4)
        else (RuneError, 1)
      | _ => (RuneError, 1)
      end
    else (RuneError, 1)
  end.

Definition chr (n : N) : ascii := ascii_of_N n.

(** [utf8.EncodeRune]; surrogates and values above U+10FFFF are
    written as [RuneError]. *)
Definition EncodeRune (r : N) : string :=
  let r := if ((55296 <=? r) && (r <=? 57343) || (1114111 <? r))%N
           then RuneError else r in
  if (r <? 128)%N then String (chr r) EmptyString
  else if (r <? 2048)%N then
    String (chr (192 + r / 64)) (String (chr (128 + r mod 64)) EmptyString)
  else if (r <? 65536)%N then
    String (chr (224 + r / 4096))
      (String (chr (128 + (r / 64) mod 64))
         (String (chr (128 + r mod 64)) EmptyString))
  else
    String (chr (240 + r / 262144))
      (String (chr (128 + (r / 4096) mod 64))
         (String (chr (128 + (r / 64) mod 64))
            (String (chr (128 + r mod 64)) EmptyString))).
End utf8.

Module unicode.
(** [unicode.IsSpace]: the Latin-1 spaces and the White_Space table. *)
Definition IsSpace (r : N) : bool :=
  ((9 <=? r) && (r <=? 13) || (r =? 32) || (r =? 133) || (r =? 160)
   || (r =? 5760) || (8192 <=? r) && (r <=? 8202)
   || (r =? 8232) || (r =? 8233) || (r =? 8239) || (r =? 8287)
   || (r =? 12288))%N.
End unicode.

(* ===================================================================== *)
(** * strings *)
(* ===================================================================== *)

Module strings.
Definition flush (cur : string) : list string :=
  if isEmpty cur then [] else [cur].

Definition snoc (s : string) (c : ascii) : string := s ++ String c EmptyString.

(** The scan of [strings.FieldsFunc(s, unicode.IsSpace)], which is
    what [strings.Fields] computes (its ASCII fast path agrees with
    it). [skip] counts the bytes still to pass of the rune decoded
    last, [inSpace] tells whether that rune was white space, [cur] is
    the field being collected. *)
Fixpoint fieldsFrom (s : string) (skip : nat) (inSpace : bool) (cur : string)
  : list string :=
  match s with
  | EmptyString => flush cur
  | String c rest =>
    match skip with
    | S k =>
      if inSpace then fieldsFrom rest k true cur
      else fieldsFrom rest k false (snoc cur c)
    | O =>
      let '(r, size) := utf8.DecodeRune s in
      if unicode.IsSpace r
      then flush cur ++ fieldsFrom rest (size - 1) true EmptyString
      else fieldsFrom rest (size - 1) false (snoc cur c)
    end
  end.

Definition Fields (s : string) : list string := fieldsFrom s 0 false EmptyString.

(** [strings.Split(s, sep)] for a separator of one byte. *)
Fixpoint Split (s : string) (sep : ascii) : list string :=
  match s with
  | EmptyString => [EmptyString]
  | String c r =>
    if Ascii.eqb c sep then EmptyString :: Split r sep
    else match Split r sep with
         | x :: xs => String c x :: xs
         | [] => [String c EmptyString]
         end
  end.

(** [strings.TrimSuffix(s, suffix)]: [s] without its ending [suffix],
    when it ends so. *)
Fixpoint TrimSuffix (s suffix : string) : string :=
  match s with
  | EmptyString => EmptyString
  | String c r => if String.eqb s suffix then EmptyString else String c (TrimSuffix r suffix)
  end.
End strings.


(* ===================================================================== *)
(** * io.Reader and bufio.Scanner *)
(* ===================================================================== *)

Module bufio.
(** What a reader delivers before it stops: the bytes of all reads
    that succeed, then end of file ([readErr = None]) or a failure. *)
Record Reader : Type := mkReader { data : string; readErr : option error }.

Definition MaxScanTokenSize : N := 65536%N.

(** [dropCR]: one trailing carriage return is not part of the line. *)
Fixpoint dropCR (line : string) : string :=
  match line with
  | EmptyString => EmptyString
  | String c EmptyString => if Ascii.eqb c CR then EmptyString else line
  | String c r => String c (dropCR r)
  end.

(** The pieces [ScanLines] cuts the data into: one per newline, and
    the bytes after the last newline when there are any. *)
Definition rawLines (data : string) : list string :=
  let pieces := strings.Split data LF in
  if isEmpty (last pieces EmptyString) then removelast pieces else pieces.

(** The tokens of successive [Scan] calls. A piece that fills the
    buffer (MaxScanTokenSize bytes with no newline among them) stops
    the scanner with [ErrTooLong]; the flag tells whether it did. *)
Fixpoint tokens (pieces : list string) : list string * bool :=
  match pieces with
  | [] => ([], false)
  | p :: rest =>
    if (MaxScanTokenSize <=? N.of_nat (String.length p))%N then ([], true)
    else let '(ts, tooLong) := tokens rest in (dropCR p :: ts, tooLong)
  end.

(** A scanner with the default split function [ScanLines]: the lines
    [Scan]/[Text] still have to hand out, and what [Err] reports once
    [Scan] has returned false. *)
Record Scanner : Type := mkScanner { pending : list string; Err : option error }.

Definition NewScanner (r : Reader) : Scanner :=
  let '(ts, tooLong) := tokens (rawLines (data r)) in
  mkScanner ts (if tooLong then Some ErrTooLong else readErr r).

(** [for scanner.Scan() { line := scanner.Text(); body }]: the state
    [st] of the loop after the body has run on each line in turn. *)
Definition forScan {St : Type} (s : Scanner) (body : string -> St -> St) (st : St) : St :=
  fold_left (fun acc line => body line acc) (pending s) st.
End bufio.

(* ===================================================================== *)
(** * encoding/json *)
(* ===================================================================== *)

(** [json.Unmarshal] is library code the adapters call on every line.
    It is modelled in two steps, as the library runs them: [parse] is
    the syntax check of the whole input ([checkValid]) together with
    the reading of literals ([unquote]); [setString], [setStruct] and
    [setSlice] then store a parsed value into a Go value of that kind,
    as the decoder does by reflection on the type. *)
Module json.
#[warnings="-register-all"]
Inductive value : Type :=
| Null
| Bool (b : bool)
| Number (literal : string)
| Str (s : string)
| Array (elems : list value)
| Object (members : list (string * value)).

Definition eqc (c : ascii) (d : ascii) : bool := Ascii.eqb c d.

Definition isSpace (c : ascii) : bool :=
  eqc c SP || eqc c "009"%char || eqc c CR || eqc c LF.

Fixpoint skipSpace (s : string) : string :=
  match s with
  | String c r => if isSpace c then skipSpace r else s
  | EmptyString => s
  end.

Fixpoint drop (n : nat) (s : string) : string :=
  match n, s with
  | S k, String _ r => drop k r
  | _, _ => s
  end.

Definition isDigit (c : ascii) : bool := ((48 <=? byte c) && (byte c <=? 57))%N.

Definition hexVal (c : ascii) : option N :=
  let x := byte c in
  if ((48 <=? x) && (x <=? 57))%N then Some (x - 48)%N
  else if ((97 <=? x) && (x <=? 102))%N then Some (x - 87)%N
  else if ((65 <=? x) && (x <=? 70))%N then Some (x - 55)%N
  else None.

(** [getu4]: the code unit of a [\uXXXX] escape at the head of [s],
    and what follows the escape. *)
Definition getu4 (s : string) : option (N * string) :=
  match s with
  | String b (String u (String h1 (String h2 (String h3 (String h4 r))))) =>
    if eqc b "\"%char && eqc u "u"%char then
      match hexVal h1, hexVal h2, hexVal h3, hexVal h4 with
      | Some a, Some b, Some c, Some d =>
        Some ((((a * 16 + b) * 16 + c) * 16 + d)%N, r)
      | _, _, _, _ => None
      end
    else None
  | _ => None
  end.

Definition IsSurrogate (r : N) : bool := ((55296 <=? r) && (r <? 57344))%N.

(** [utf16.DecodeRune]. *)
Definition DecodeSurrogates (r1 r2 : N) : N :=
  if ((55296 <=? r1) && (r1 <? 56320) && (56320 <=? r2) && (r2 <? 57344))%N
  then ((r1 - 55296) * 1024 + (r2 - 56320) + 65536)%N
  else utf8.RuneError.

(** The body of a string literal: [s] starts after the opening quote;
    the result is the text the literal denotes and what follows its
    closing quote. Control bytes and unknown escapes are syntax
    errors; bytes that are not UTF-8 become U+FFFD. *)
Fixpoint unquoteFrom (fuel : nat) (s : string) (acc : string)
  : option (string * string) :=
  match fuel with
  | O => None
  | S fuel =>
    match s with
    | EmptyString => None
    | String c r =>
      if eqc c DQUOTE then Some (acc, r)
      else if eqc c "\"%char then
        match r with
        | EmptyString => None
        | String e r' =>
          if eqc e DQUOTE || eqc e "\"%char || eqc e "/"%char
          then unquoteFrom fuel r' (strings.snoc acc e)
          else if eqc e "b"%char then unquoteFrom fuel r' (strings.snoc acc "008"%char)
          else if eqc e "f"%char then unquoteFrom fuel r' (strings.snoc acc "012"%char)
          else if eqc e "n"%char then unquoteFrom fuel r' (strings.snoc acc LF)
          else if eqc e "r"%char then unquoteFrom fuel r' (strings.snoc acc CR)
          else if eqc e "t"%char then unquoteFrom fuel r' (strings.snoc acc "009"%char)
          else if eqc e "u"%char then
            match getu4 s with
            | None => None
            | Some (rr, r2) =>
              if IsSurrogate rr then
                match getu4 r2 with
                | Some (rr1, r3) =>
                  let dec := DecodeSurrogates rr rr1 in
                  if (dec =? utf8.RuneError)%N
                  then unquoteFrom fuel r2 (acc ++ utf8.EncodeRune utf8.RuneError)
                  else unquoteFrom fuel r3 (acc ++ utf8.EncodeRune dec)
                | None => unquoteFrom fuel r2 (acc ++ utf8.EncodeRune utf8.RuneError)
                end
              else unquoteFrom fuel r2 (acc ++ utf8.EncodeRune rr)
            end
          else None
        end
      else if (byte c <? 32)%N then None
      else if (byte c <? 128)%N then unquoteFrom fuel r (strings.snoc acc c)
      else
        let '(rr, size) := utf8.DecodeRune s in
        unquoteFrom fuel (drop size s) (acc ++ utf8.EncodeRune rr)
    end
  end.

Definition unquote (s : string) : option (string * string) :=
  unquoteFrom (String.length s) s EmptyString.

Fixpoint digits (s : string) : string :=
  match s with
  | String c r => if isDigit c then digits r else s
  | EmptyString => s
  end.

(** What follows the digits of [s], when there is at least one. *)
Definition digits1 (s : string) : option string :=
  match s with
  | String c r => if isDigit c then Some (digits r) else None
  | EmptyString => None
  end.

(** A number literal at the head of [s]: what follows it. *)
Definition number (s : string) : option string :=
  let s := match s with
           | String c r => if eqc c "-"%char then r else s
           | EmptyString => s
           end in
  let afterInt :=
    match s with
    | String c r =>
      if eqc c "0"%char then Some r
      else if isDigit c then Some (digits r)
      else None
    | EmptyString => None
    end in
  match afterInt with
  | None => None
  | Some s =>
    let afterFrac :=
      match s with
      | String c r => if eqc c "."%char then digits1 r else Some s
      | EmptyString => Some s
      end in
    match afterFrac with
    | None => None
    | Some s =>
      match s with
      | String c r =>
        if eqc c "e"%char || eqc c "E"%char then
          match r with
          | String sg r' =>
            if eqc sg "+"%char || eqc sg "-"%char then digits1 r' else digits1 r
          | EmptyString => None
          end
        else Some s
      | EmptyString => Some s
      end
    end
  end.

Definition literal (word : string) (v : value) (s : string)
  : option (value * string) :=
  if String.prefix word s then Some (v, drop (String.length word) s) else None.

(** The scanner gives up below this many open arrays and objects. *)
Definition maxNestingDepth : N := 10000%N.

(** One value at the head of [s] (after white space), with [depth]
    arrays and objects open around it. *)
Fixpoint parseValue (fuel : nat) (depth : N) (s : string)
  : option (value * string) :=
  match fuel with
  | O => None
  | S fuel =>
    let s := skipSpace s in
    match s with
    | EmptyString => None
    | String c r =>
      if eqc c "{"%char then
        if (maxNestingDepth <? depth + 1)%N then None
        else match skipSpace r with
             | String c' r' =>
               if eqc c' "}"%char then Some (Object [], r')
               else match parseMembers fuel (depth + 1)%N r with
                    | Some (ms, r'') => Some (Object ms, r'')
                    | None => None
                    end
             | EmptyString => None
             end
      else if eqc c "["%char then
        if (maxNestingDepth <? depth + 1)%N then None
        else match skipSpace r with
             | String c' r' =>
               if eqc c' "]"%char then Some (Array [], r')
               else match parseElems fuel (depth + 1)%N r with
                    | Some (vs, r'') => Some (Array vs, r'')
                    | None => None
                    end
             | EmptyString => None
             end
      else if eqc c DQUOTE then
        match unquote r with
        | Some (str, r') => Some (Str str, r')
        | None => None
        end
      else if eqc c "-"%char || isDigit c then
        match number s with
        | Some r' =>
          Some (Number (substring 0 (String.length s - String.length r') s), r')
        | None => None
        end
      else if eqc c "t"%char then literal "true" (Bool true) s
      else if eqc c "f"%char then literal "false" (Bool false) s
      else if eqc c "n"%char then literal "null" Null s
      else None
    end
  end

(** The members of an object from its next key on, up to its [}]. *)
with parseMembers (fuel : nat) (depth : N) (s : string)
  : option (list (string * value) * string) :=
  match fuel with
  | O => None
  | S fuel =>
    match skipSpace s with
    | String c r =>
      if eqc c DQUOTE then
        match unquote r with
        | Some (key, r1) =>
          match skipSpace r1 with
          | String colon r2 =>
            if eqc colon ":"%char then
              match parseValue fuel depth r2 with
              | Some (v, r3) =>
                match skipSpace r3 with
                | String d r4 =>
                  if eqc d "}"%char then Some ([(key, v)], r4)
                  else if eqc d ","%char then
                    match parseMembers fuel depth r4 with
                    | Some (ms, r5) => Some ((key, v) :: ms, r5)
                    | None => None
                    end
                  else None
                | EmptyString => None
                end
              | None => None
              end
            else None
          | EmptyString => None
          end
        | None => None
        end
      else None
    | EmptyString => None
    end
  end

(** The elements of an array from its next value on, up to its []]. *)
with parseElems (fuel : nat) (depth : N) (s : string)
  : option (list value * string) :=
  match fuel with
  | O => None
  | S fuel =>
    match parseValue fuel depth s with
    | Some (v, r1) =>
      match skipSpace r1 with
      | String d r2 =>
        if eqc d "]"%char then Some ([v], r2)
        else if eqc d ","%char then
          match parseElems fuel depth r2 with
          | Some (vs, r3) => Some (v :: vs, r3)
          | None => None
          end
        else None
      | EmptyString => None
      end
    | None => None
    end
  end.

(** The whole input is one value between optional white space. Every
    call of the three functions above is made after at least one more
    byte has been read, so the length of the input bounds their
    nesting. *)
Definition parse (s : string) : option value :=
  match parseValue (S (String.length s)) 0 s with
  | Some (v, rest) => if isEmpty (skipSpace rest) then Some v else None
  | None => None
  end.

(** [foldName], on what can equal a field name of ASCII letters: the
    letters in upper case, and the two other characters whose case
    folding is an ASCII letter (U+017F and U+212A). *)
Fixpoint foldName (key : string) : string :=
  match key with
  | EmptyString => EmptyString
  | String c r =>
    let x := byte c in
    if ((97 <=? x) && (x <=? 122))%N
    then String (ascii_of_N (x - 32)) (foldName r)
    else
      match r with
      | String c1 r1 =>
        if ((x =? 197) && (byte c1 =? 191))%N then String "S"%char (foldName r1)
        else
          match r1 with
          | String c2 r2 =>
            if ((x =? 226) && (byte c1 =? 132) && (byte c2 =? 170))%N
            then String "K"%char (foldName r2)
            else String c (foldName r)
          | EmptyString => String c (foldName r)
          end
      | EmptyString => String c (foldName r)
      end
  end.

(** A key names the field it equals exactly or up to case. *)
Definition names (key field : string) : bool :=
  String.eqb (foldName key) (foldName field).

(** Storing a value into a field of type [string]: [null] leaves the
    field as it is, anything but a string is an [UnmarshalTypeError]
    ([None]). *)
Definition setString (v : value) (old : string) : option string :=
  match v with
  | Str s => Some s
  | Null => Some old
  | _ => None
  end.

(** Storing a value into a struct: each member of an object goes, in
    the order of the text, to the field its key names ([setField]; a
    key that names no field is passed over); [null] leaves the struct
    as it is. *)
Fixpoint object {A : Type} (setField : string -> value -> A -> option A)
  (members : list (string * value)) (x : A) : option A :=
  match members with
  | [] => Some x
  | (key, v) :: rest =>
    match setField key v x with
    | Some x' => object setField rest x'
    | None => None
    end
  end.

Definition setStruct {A : Type} (setField : string -> value -> A -> option A)
  (v : value) (old : A) : option A :=
  match v with
  | Object members => object setField members old
  | Null => Some old
  | _ => None
  end.

(** A Go slice in the course of one [Unmarshal]: its elements, and the
    elements its backing array still holds past its length. *)
Record slice (A : Type) : Type := mkSlice { elems : list A; spare : list A }.

Definition nilSlice {A : Type} : slice A := mkSlice [] [].

(** The elements of a JSON array are stored one by one into the slots
    of the backing array, a slot past its end being a zero value. *)
Fixpoint array {A : Type} (setElem : value -> A -> option A) (zero : A)
  (vs : list value) (slots : list A) : option (list A) :=
  match vs with
  | [] => Some []
  | v :: vs' =>
    match setElem v (hd zero slots) with
    | Some x =>
      match array setElem zero vs' (tl slots) with
      | Some xs => Some (x :: xs)
      | None => None
      end
    | None => None
    end
  end.

(** Storing a value into a field of slice type: an array sets the
    length to its number of elements (an empty array gives a new empty
    slice), [null] gives the nil slice. *)
Definition setSlice {A : Type} (setElem : value -> A -> option A) (zero : A)
  (v : value) (old : slice A) : option (slice A) :=
  match v with
  | Array [] => Some nilSlice
  | Array vs =>
    let slots := elems old ++ spare old in
    match array setElem zero vs slots with
    | Some xs => Some (mkSlice xs (skipn (List.length vs) slots))
    | None => None
    end
  | Null => Some nilSlice
  | _ => None
  end.

(** [json.Unmarshal(data, &x)] for a struct [x]: the stored struct, or
    [None] when the call returns an error. *)
Definition Unmarshal {A : Type} (set : value -> A -> option A)
  (data : string) (x : A) : option A :=
  match parse data with
  | Some v => set v x
  | None => None
  end.
End json.

(* ===================================================================== *)
(** * internal/adapter *)
(* ===================================================================== *)

Module adapter.
(** [Event]: the three structs that implement the interface. *)
Inductive Event : Type :=
| ToolUse (Name Input : string)
| AssistantMessage (Text : string)
| Error (Message : string).

(** The sending end of [chan<- Event]. *)
Definition chan : Type := list Event.
Definition send (events : chan) (e : Event) : chan := events ++ [e].

(** ** The Claude adapter *)

Module ClaudeContent.
Record t : Type := mk { Type' : string; Text : string }.
Definition zero : t := mk EmptyString EmptyString.
Definition setField (key : string) (v : json.value) (x : t) : option t :=
  if json.names key "type"
  then option_map (fun s => mk s (Text x)) (json.setString v (Type' x))
  else if json.names key "text"
  then option_map (fun s => mk (Type' x) s) (json.setString v (Text x))
  else Some x.
Definition set : json.value -> t -> option t := json.setStruct setField.
End ClaudeContent.

Module ClaudeMessage.
Record t : Type := mk { Content : json.slice ClaudeContent.t }.
Definition zero : t := mk json.nilSlice.
Definition setField (key : string) (v : json.value) (x : t) : option t :=
  if json.names key "content"
  then option_map mk
         (json.setSlice ClaudeContent.set ClaudeContent.zero v (Content x))
  else Some x.
Definition set : json.value -> t -> option t := json.setStruct setField.
End ClaudeMessage.

Module ClaudeDelta.
Record t : Type := mk { Type' : string; Text : string }.
Definition zero : t := mk EmptyString EmptyString.
Definition setField (key : string) (v : json.value) (x : t) : option t :=
  if json.names key "type"
  then option_map (fun s => mk s (Text x)) (json.setString v (Type' x))
  else if json.names key "text"
  then option_map (fun s => mk (Type' x) s) (json.setString v (Text x))
  else Some x.
Definition set : json.value -> t -> option t := json.setStruct setField.
End ClaudeDelta.

Module ClaudeEventData.
Record t : Type := mk { Delta : ClaudeDelta.t }.
Definition zero : t := mk ClaudeDelta.zero.
Definition setField (key : string) (v : json.value) (x : t) : option t :=
  if json.names key "delta"
  then option_map mk (ClaudeDelta.set v (Delta x))
  else Some x.
Definition set : json.value -> t -> option t := json.setStruct setField.
End ClaudeEventData.

Module ClaudeStreamEvent.
Record t : Type := mk {
  Type' : string;
  Name : string;
  Message : ClaudeMessage.t;
  Event : ClaudeEventData.t }.
Definition zero : t :=
  mk EmptyString EmptyString ClaudeMessage.zero ClaudeEventData.zero.
Definition setField (key : string) (v : json.value) (x : t) : option t :=
  if json.names key "type"
  then option_map (fun s => mk s (Name x) (Message x) (Event x))
         (json.setString v (Type' x))
  else if json.names key "name"
  then option_map (fun s => mk (Type' x) s (Message x) (Event x))
         (json.setString v (Name x))
  else if json.names key "message"
  then option_map (fun m => mk (Type' x) (Name x) m (Event x))
         (ClaudeMessage.set v (Message x))
  else if json.names key "event"
  then option_map (fun e => mk (Type' x) (Name x) (Message x) e)
         (ClaudeEventData.set v (Event x))
  else Some x.
Definition set : json.value -> t -> option t := json.setStruct setField.
End ClaudeStreamEvent.

(** The body of the loop of [ClaudeAdapter.Process] on one line. *)
Definition ClaudeAdapter_line (line : string) (events : chan) : chan :=
  if isEmpty line then events
  else
    match json.Unmarshal ClaudeStreamEvent.set line ClaudeStreamEvent.zero with
    | None => events
    | Some event =>
      let type := ClaudeStreamEvent.Type' event in
      if String.eqb type "assistant" then
        fold_left
          (fun events content =>
             if String.eqb (ClaudeContent.Type' content) "text"
                && negb (isEmpty (ClaudeContent.Text content))
             then send events (AssistantMessage (ClaudeContent.Text content))
             else events)
          (json.elems (ClaudeMessage.Content (ClaudeStreamEvent.Message event)))
          events
      else if String.eqb type "tool_use" then
        if negb (isEmpty (ClaudeStreamEvent.Name event))
        then send events (ToolUse (ClaudeStreamEvent.Name event) EmptyString)
        else events
      else if String.eqb type "result" then events
      else if String.eqb type "stream_event" then
        let delta := ClaudeEventData.Delta (ClaudeStreamEvent.Event event) in
        if String.eqb (ClaudeDelta.Type' delta) "text_delta"
           && negb (isEmpty (ClaudeDelta.Text delta))
        then send events (AssistantMessage (ClaudeDelta.Text delta))
        else events
      else events
    end.

(** [ClaudeAdapter.Process]. *)
Definition ClaudeAdapter_Process (reader : bufio.Reader) (events : chan)
  : chan * option error :=
  let scanner := bufio.NewScanner reader in
  let events := bufio.forScan scanner ClaudeAdapter_line events in
  match bufio.Err scanner with
  | Some err => (events, Some (Wrapf "error reading Claude output" err))
  | None => (events, None)
  end.

(** ** The Codex adapter *)

Module CodexEvent.
Record t : Type := mk {
  Type' : string;
  Content : string;
  Tool : string;
  Text : string;
  Message : string;
  Error : string }.
Definition zero : t :=
  mk EmptyString EmptyString EmptyString EmptyString EmptyString EmptyString.
Definition setField (key : string) (v : json.value) (x : t) : option t :=
  if json.names key "type"
  then option_map (fun s => mk s (Content x) (Tool x) (Text x) (Message x) (Error x))
         (json.setString v (Type' x))
  else if json.names key "content"
  then option_map (fun s => mk (Type' x) s (Tool x) (Text x) (Message x) (Error x))
         (json.setString v (Content x))
  else if json.names key "tool"
  then option_map (fun s => mk (Type' x) (Content x) s (Text x) (Message x) (Error x))
         (json.setString v (Tool x))
  else if json.names key "text"
  then option_map (fun s => mk (Type' x) (Content x) (Tool x) s (Message x) (Error x))
         (json.setString v (Text x))
  else if json.names key "message"
  then option_map (fun s => mk (Type' x) (Content x) (Tool x) (Text x) s (Error x))
         (json.setString v (Message x))
  else if json.names key "error"
  then option_map (fun s => mk (Type' x) (Content x) (Tool x) (Text x) (Message x) s)
         (json.setString v (Error x))
  else Some x.
Definition set : json.value -> t -> option t := json.setStruct setField.
End CodexEvent.

(** The body of the loop of [CodexAdapter.Process] on one line. *)
Definition CodexAdapter_line (line : string) (events : chan) : chan :=
  if isEmpty line then events
  else
    match json.Unmarshal CodexEvent.set line CodexEvent.zero with
    | None => send events (AssistantMessage line)
    | Some event =>
      if negb (isEmpty (CodexEvent.Error event))
      then send events (Error (CodexEvent.Error event))
      else
        let events :=
          if negb (isEmpty (CodexEvent.Tool event))
          then send events (ToolUse (CodexEvent.Tool event) EmptyString)
          else events in
        let text :=
          if negb (isEmpty (CodexEvent.Content event)) then CodexEvent.Content event
          else if negb (isEmpty (CodexEvent.Text event)) then CodexEvent.Text event
          else if negb (isEmpty (CodexEvent.Message event)) then CodexEvent.Message event
          else EmptyString in
        if negb (isEmpty text) then send events (AssistantMessage text) else events
    end.

(** [CodexAdapter.Process]. *)
Definition CodexAdapter_Process (reader : bufio.Reader) (events : chan)
  : chan * option error :=
  let scanner := bufio.NewScanner reader in
  let events := bufio.forScan scanner CodexAdapter_line events in
  match bufio.Err scanner with
  | Some err => (events, Some (Wrapf "error reading Codex output" err))
  | None => (events, None)
  end.

(** ** The pass-through adapter *)

(** [PassThroughAdapter.Process]. *)
Definition PassThroughAdapter_Process (reader : bufio.Reader) (events : chan)
  : chan * option error :=
  let scanner := bufio.NewScanner reader in
  let events :=
    bufio.forScan scanner
      (fun line events => send events (AssistantMessage line)) events in
  (events, bufio.Err scanner).
End adapter.




(** What a call that returns [(value, error)] gave. *)
Inductive result (A : Type) : Type :=
| Ok (a : A)
| Err (err : error).
Arguments Ok {A} a.
Arguments Err {A} err.

(* ===================================================================== *)
(** * internal/agent *)
(* ===================================================================== *)

Module agent.
(** [type PromptStyle string], and its four constants. *)
Definition PromptStyle : Type := string.
Definition PromptStyleArg : PromptStyle := "arg".
Definition PromptStylePipe : PromptStyle := "pipe".
Definition PromptStyleStream : PromptStyle := "stream".
Definition PromptStyleOllama : PromptStyle := "ollama".

Record Agent : Type := mkAgent {
  ID : string;
  Name : string;
  Command : string;
  CheckCommand : string;
  AutonomousFlags : list string;
  InteractiveFlags : list string;
  ModelFlag : string;
  PromptStyle' : PromptStyle }.

(** [Agent.BuildCommand]. *)
Definition BuildCommand (a : Agent) (prompt model : string) (autonomous : bool)
  : list string :=
  let cmdParts := strings.Fields (Command a) in
  let args := [] ++ cmdParts in
  let flags := if autonomous then AutonomousFlags a else InteractiveFlags a in
  let args := args ++ flags in
  let args :=
    if negb (isEmpty model) && negb (isEmpty (ModelFlag a))
    then args ++ [ModelFlag a; model]
    else args in
  if String.eqb (PromptStyle' a) PromptStyleOllama then
    let args := if negb (isEmpty model) then args ++ [model] else args in
    args ++ [prompt]
  else if String.eqb (PromptStyle' a) PromptStyleArg
          || String.eqb (PromptStyle' a) PromptStyleStream then
    args ++ [prompt]
  else if String.eqb (PromptStyle' a) PromptStylePipe then args
  else args.

(** The profiles the package registers. *)
Definition claude : Agent :=
  mkAgent "claude" "Claude Code" "claude" "claude"
    ["-p"; "--dangerously-skip-permissions"; "--verbose"; "--output-format"; "stream-json"]
    ["-p"; "--verbose"; "--output-format"; "stream-json"]
    "--model" PromptStyleStream.

Definition codex : Agent :=
  mkAgent "codex" "OpenAI Codex" "codex exec" "codex"
    ["--full-auto"; "--json"] ["--json"] "--model" PromptStyleArg.

Definition cursor : Agent :=
  mkAgent "cursor" "Cursor Agent" "cursor-agent" "cursor-agent"
    ["-p"; "--force"; "--output-format"; "text"] [] "--model" PromptStyleArg.

Definition gemini : Agent :=
  mkAgent "gemini" "Google Gemini" "gemini" "gemini"
    ["-p"; "--yolo"; "--output-format"; "text"] ["-p"; "--output-format"; "text"]
    "--model" PromptStyleArg.

Definition opencode : Agent :=
  mkAgent "opencode" "OpenCode" "opencode" "opencode"
    ["-p"; "-q"; "-f"; "text"] ["-p"; "-f"; "text"] EmptyString PromptStyleArg.

Definition ollama : Agent :=
  mkAgent "ollama" "Ollama" "ollama run" "ollama" [] [] EmptyString PromptStyleOllama.

(** ** The registry and the search for a close name *)

(** [min]: the least of three integers. *)
Definition min (a b c : Z) : Z :=
  if (a <? b)%Z then (if (a <? c)%Z then a else c)
  else if (b <? c)%Z then b else c.

(** [s[i]], for an index the code keeps in range. *)
Definition byteAt (s : string) (i : nat) : ascii :=
  match String.get i s with
  | Some c => c
  | None => "000"%char
  end.

(** A slice written at an index in range (out of range Go panics; the
    code below never is). *)
Fixpoint update {A : Type} (l : list A) (i : nat) (x : A) : list A :=
  match l, i with
  | [], _ => []
  | _ :: t, O => x :: t
  | h :: t, S k => h :: update t k x
  end.

(** [[][]int]: [matrix[i][j]] read and written. *)
Definition matrix : Type := list (list Z).

Definition get (m : matrix) (i j : nat) : Z := nth j (nth i m []) 0%Z.

Definition set (m : matrix) (i j : nat) (v : Z) : matrix :=
  update m i (update (nth i m []) j v).

(** The matrix of [levenshteinDistance] after its two first loops:
    [la + 1] rows of [lb + 1] zeros with [matrix[i][0] = i], then
    [matrix[0][j] = j]. *)
Definition newMatrix (la lb : nat) : matrix :=
  let rows :=
    map (fun i => update (repeat 0%Z (S lb)) 0 (Z.of_nat i)) (seq 0 (S la)) in
  fold_left (fun m j => set m 0 j (Z.of_nat j)) (seq 0 (S lb)) rows.

(** The inner loop, [for j := ...; j <= len(b); j++], with [todo] turns
    left to run. *)
Fixpoint fillRow (a b : string) (i : nat) (todo j : nat) (m : matrix) : matrix :=
  match todo with
  | O => m
  | S todo' =>
    let cost :=
      if negb (Ascii.eqb (byteAt a (i - 1)) (byteAt b (j - 1))) then 1%Z else 0%Z in
    let m := set m i j (min (int.add (get m (i - 1) j) 1)
                          (int.add (get m i (j - 1)) 1)
                          (int.add (get m (i - 1) (j - 1)) cost)) in
    fillRow a b i todo' (S j) m
  end.

(** The outer loop, [for i := ...; i <= len(a); i++]. *)
Fixpoint fillRows (a b : string) (todo i : nat) (m : matrix) : matrix :=
  match todo with
  | O => m
  | S todo' => fillRows a b todo' (S i) (fillRow a b i (String.length b) 1 m)
  end.

(** [levenshteinDistance]. *)
Definition levenshteinDistance (a b : string) : Z :=
  if (String.length a =? 0)%nat then Z.of_nat (String.length b)
  else if (String.length b =? 0)%nat then Z.of_nat (String.length a)
  else
    let m := newMatrix (String.length a) (String.length b) in
    let m := fillRows a b (String.length a) 1 m in
    get m (String.length a) (String.length b).

(** [findClosestMatch]. *)
Fixpoint firstWithin (typo : string) (options : list string) : string :=
  match options with
  | [] => EmptyString
  | option :: rest =>
    if (levenshteinDistance typo option <=? 2)%Z then option
    else firstWithin typo rest
  end.

Definition findClosestMatch (typo : string) (options : list string) : string :=
  if (String.length typo =? 0)%nat then EmptyString else firstWithin typo options.

(** [Registry]: the map from ID to agent, as the list of its bindings
    with one binding for a key. The order of the bindings is the order
    in which a [range] over the map happens to meet them: no statement
    depends on it. *)
Definition RegistryMap : Type := list (string * Agent).

Fixpoint lookup (registry : RegistryMap) (id : string) : option Agent :=
  match registry with
  | [] => None
  | (key, a) :: rest => if String.eqb key id then Some a else lookup rest id
  end.

(** [Registry[key] = a]. *)
Fixpoint store (registry : RegistryMap) (key : string) (a : Agent) : RegistryMap :=
  match registry with
  | [] => [(key, a)]
  | (k, b) :: rest =>
    if String.eqb k key then (key, a) :: rest else (k, b) :: store rest key a
  end.

(** [RegisterAgent]. *)
Definition RegisterAgent (registry : RegistryMap) (a : Agent) : RegistryMap :=
  store registry (ID a) a.

(** [agents[i], agents[j] = agents[j], agents[i]]. *)
Definition swap (agents : list string) (i j : nat) : list string :=
  update (update agents i (nth j agents EmptyString)) j (nth i agents EmptyString).

(** The loops of [ListAgents] that sort the IDs. *)
Fixpoint sortInner (todo i j : nat) (agents : list string) : list string :=
  match todo with
  | O => agents
  | S todo' =>
    let agents :=
      if String.ltb (nth j agents EmptyString) (nth i agents EmptyString)
      then swap agents i j else agents in
    sortInner todo' i (S j) agents
  end.

Fixpoint sortOuter (todo i : nat) (agents : list string) : list string :=
  match todo with
  | O => agents
  | S todo' =>
    sortOuter todo' (S i) (sortInner (List.length agents - (i + 1)) i (i + 1) agents)
  end.

(** [ListAgents]. *)
Definition ListAgents (registry : RegistryMap) : list string :=
  let agents := [] ++ map fst registry in
  sortOuter (List.length agents) 0 agents.

(** [%v] of a slice of strings. *)
Definition formatList (l : list string) : string :=
  "[" ++ String.concat " " l ++ "]".

(** [GetAgent]. *)
Definition GetAgent (registry : RegistryMap) (id : string) : result Agent :=
  match lookup registry id with
  | None =>
    let available := ListAgents registry in
    let suggestion := findClosestMatch id available in
    if negb (isEmpty suggestion) then
      Err (Errorf ("unknown agent '" ++ id ++ "' (available: " ++ formatList available
                     ++ "). Did you mean '" ++ suggestion ++ "'?"))
    else
      Err (Errorf ("unknown agent '" ++ id ++ "' (available: " ++ formatList available
                     ++ ")"))
  | Some a => Ok a
  end.

(** The registry after the [init] functions of the package, whatever
    their order. *)
Definition Registry : RegistryMap :=
  fold_left RegisterAgent [claude; codex; cursor; gemini; ollama; opencode] [].
End agent.

(* ===================================================================== *)
(** * internal/git *)
(* ===================================================================== *)

Module git.
(** [line[i]], for an index the code has checked to be in range. *)
Definition at' (line : string) (i : nat) : ascii :=
  match String.get i line with
  | Some c => c
  | None => "000"%char
  end.

(** The three counters of [GetChangedFiles]. *)
Record Counts : Type := mkCounts { modified : Z; staged : Z; untracked : Z }.

(** The body of the loop of [GetChangedFiles] on one line of the
    listing. *)
Definition classify (line : string) (c : Counts) : Counts :=
  if isEmpty line then c
  else if (String.length line <? 3)%nat then c
  else
    let statusCode := substring 0 2 line in
    if String.eqb statusCode "??"
    then mkCounts (modified c) (staged c) (int.add (untracked c) 1)
    else
      let staged' :=
        if negb (Ascii.eqb (at' statusCode 0) SP)
           && negb (Ascii.eqb (at' statusCode 0) "?"%char)
        then int.add (staged c) 1 else staged c in
      let modified' :=
        if negb (Ascii.eqb (at' statusCode 1) SP)
           && negb (Ascii.eqb (at' statusCode 1) "?"%char)
        then int.add (modified c) 1 else modified c in
      mkCounts modified' staged' (untracked c).

(** [GetChangedFiles], given what [git status --porcelain] printed or
    how it failed. *)
Definition GetChangedFiles (status : result string) : Counts * option error :=
  match status with
  | Err err => (mkCounts 0 0 0, Some (Wrapf "failed to get changed files" err))
  | Ok outputStr =>
    if isEmpty outputStr then (mkCounts 0 0 0, None)
    else
      let lines := strings.Split (strings.TrimSuffix outputStr nl) LF in
      (fold_left (fun c line => classify line c) lines (mkCounts 0 0 0), None)
  end.
End git.

(* ===================================================================== *)
(** * internal/config and internal/cli *)
(* ===================================================================== *)

Module fmt.
(** The verbs [%d] of an int and [%t] of a bool. *)
Definition d (n : Z) : string := NilZero.string_of_int (Z.to_int n).

Definition t (b : bool) : string := if b then "true" else "false".
End fmt.

Module config.
Record Config : Type := mkConfig {
  CLI : string;
  Model : string;
  PromptFile : string;
  AutoPush : bool;
  StuckThreshold : Z;
  Verify : string;
  Memory : bool }.

(** Assignments to fields of a config. *)
Definition withCLI (c : Config) (v : string) : Config :=
  mkConfig v (Model c) (PromptFile c) (AutoPush c) (StuckThreshold c) (Verify c) (Memory c).

Definition withModel (c : Config) (v : string) : Config :=
  mkConfig (CLI c) v (PromptFile c) (AutoPush c) (StuckThreshold c) (Verify c) (Memory c).

Definition withPromptFile (c : Config) (v : string) : Config :=
  mkConfig (CLI c) (Model c) v (AutoPush c) (StuckThreshold c) (Verify c) (Memory c).

Definition withAutoPush (c : Config) (v : bool) : Config :=
  mkConfig (CLI c) (Model c) (PromptFile c) v (StuckThreshold c) (Verify c) (Memory c).

Definition withStuckThreshold (c : Config) (v : Z) : Config :=
  mkConfig (CLI c) (Model c) (PromptFile c) (AutoPush c) v (Verify c) (Memory c).

Definition withVerify (c : Config) (v : string) : Config :=
  mkConfig (CLI c) (Model c) (PromptFile c) (AutoPush c) (StuckThreshold c) v (Memory c).

Definition withMemory (c : Config) (v : bool) : Config :=
  mkConfig (CLI c) (Model c) (PromptFile c) (AutoPush c) (StuckThreshold c) (Verify c) v.

(** [Config{}]: what [loadFromFile] returns for a file that does not
    exist. *)
Definition zero : Config :=
  mkConfig EmptyString EmptyString EmptyString false 0 EmptyString false.

(** [Defaults]. *)
Definition Defaults : Config :=
  mkConfig "claude" EmptyString "PROMPT.md" true 3 EmptyString false.

(** The body of the loop of [Merge]. *)
Definition mergeOne (result cfg : Config) : Config :=
  let result := if negb (isEmpty (CLI cfg)) then withCLI result (CLI cfg) else result in
  let result := if negb (isEmpty (Model cfg)) then withModel result (Model cfg) else result in
  let result :=
    if negb (isEmpty (PromptFile cfg)) then withPromptFile result (PromptFile cfg)
    else result in
  let result := withAutoPush result (AutoPush cfg) in
  let result :=
    if negb (StuckThreshold cfg =? 0)%Z then withStuckThreshold result (StuckThreshold cfg)
    else result in
  let result := if negb (isEmpty (Verify cfg)) then withVerify result (Verify cfg) else result in
  withMemory result (Memory cfg).

(** [Merge]. *)
Definition Merge (configs : list Config) : Config :=
  fold_left mergeOne configs Defaults.

(** [validate]. The package has its own copies of [findClosestMatch],
    [levenshteinDistance] and [min], the same line for line as those of
    the agent package. *)
Definition validAgents : list string :=
  ["claude"; "codex"; "gemini"; "opencode"; "cursor"; "ollama"].

Definition validate (cfg : Config) : option error :=
  let unknown : option error :=
    if negb (isEmpty (CLI cfg)) then
      let valid := existsb (fun agent => String.eqb (CLI cfg) agent) validAgents in
      if negb valid then
        let suggestion := agent.findClosestMatch (CLI cfg) validAgents in
        if negb (isEmpty suggestion) then
          Some (Errorf ("unknown agent '" ++ CLI cfg ++ "' (available: "
                          ++ agent.formatList validAgents
                          ++ "). Did you mean '" ++ suggestion ++ "'?"))
        else
          Some (Errorf ("unknown agent '" ++ CLI cfg ++ "' (available: "
                          ++ agent.formatList validAgents ++ ")"))
      else None
    else None in
  match unknown with
  | Some err => Some err
  | None =>
    if (StuckThreshold cfg <? 0)%Z then
      Some (Errorf ("stuck_threshold must be a positive integer, got '"
                      ++ fmt.d (StuckThreshold cfg) ++ "'"))
    else None
  end.
End config.

Module cli.
Record RunConfig : Type := mkRunConfig {
  Config : config.Config;
  Prompt : string;
  ChooChoo : bool;
  MaxIterations : Z }.

(** The error messages of [validateRunConfig] print a number; only
    their being errors matters here, the number is kept apart. *)
Inductive invalid : Type :=
| PromptRequired
| BadStuckThreshold (n : Z)
| BadMaxIterations (n : Z).

(** [validateRunConfig], up to its checks of the configuration values;
    the checks that follow ask the agent registry, git and the working
    directory. *)
Definition validateRunConfig (cfg : RunConfig) : option invalid :=
  if isEmpty (Prompt cfg) then Some PromptRequired
  else if (config.StuckThreshold (Config cfg) <? 0)%Z
  then Some (BadStuckThreshold (config.StuckThreshold (Config cfg)))
  else if (MaxIterations cfg <? 0)%Z then Some (BadMaxIterations (MaxIterations cfg))
  else None.

(** The flags of the run command as cobra leaves them, what viper
    answers for a key, and what the file system answers for the prompt
    file. *)
Record Flags : Type := mkFlags {
  runPrompt : string;
  runPromptFile : string;
  runCLI : string;
  runModel : string;
  runChooChoo : Z;
  runNoPush : bool;
  runStuck : Z;
  runVerify : string;
  runMemory : bool }.

Record Viper : Type := mkViper {
  GetString : string -> string;
  GetBool : string -> bool;
  GetInt : string -> Z }.

Record Files : Type := mkFiles {
  Stat : string -> option error;       (* the error of os.Stat(path) *)
  ReadFile : string -> result string }. (* os.ReadFile(path) *)

(** [loadRunConfig]. *)
Definition loadRunConfig (viper : Viper) (flags : Flags) (os : Files) : result RunConfig :=
  let defaults := config.Defaults in
  let cfg :=
    config.mkConfig (GetString viper "cli") (GetString viper "model")
      (GetString viper "prompt_file") (GetBool viper "auto_push")
      (GetInt viper "stuck_threshold") (GetString viper "verify") false in
  let cfg := if negb (isEmpty (runCLI flags)) then config.withCLI cfg (runCLI flags) else cfg in
  let cfg :=
    if negb (isEmpty (runModel flags)) then config.withModel cfg (runModel flags) else cfg in
  let cfg :=
    if negb (isEmpty (runPromptFile flags))
    then config.withPromptFile cfg (runPromptFile flags) else cfg in
  let cfg := if runNoPush flags then config.withAutoPush cfg false else cfg in
  let cfg :=
    if (runStuck flags >? 0)%Z then config.withStuckThreshold cfg (runStuck flags) else cfg in
  let cfg :=
    if negb (isEmpty (runVerify flags)) then config.withVerify cfg (runVerify flags) else cfg in
  let cfg := if runMemory flags then config.withMemory cfg true else cfg in
  let '(chooChoo, maxIterations) :=
    if (runChooChoo flags =? -1)%Z then (true, 0%Z)
    else if (runChooChoo flags >? 0)%Z then (true, runChooChoo flags)
    else (false, 0%Z) in
  if negb (isEmpty (runPrompt flags)) then
    Ok (mkRunConfig cfg (runPrompt flags) chooChoo maxIterations)
  else
    let promptFile := config.PromptFile cfg in
    let promptFile :=
      if isEmpty promptFile then config.PromptFile defaults else promptFile in
    match Stat os promptFile with
    | None =>
      match ReadFile os promptFile with
      | Err err => Err (Wrapf ("failed to read prompt file " ++ promptFile) err)
      | Ok content => Ok (mkRunConfig cfg content chooChoo maxIterations)
      end
    | Some _ => Ok (mkRunConfig cfg EmptyString chooChoo maxIterations)
    end.

(** [contains]. *)
Fixpoint contains (slice : list string) (item : string) : bool :=
  match slice with
  | [] => false
  | s :: rest => if String.eqb s item then true else contains rest item
  end.

Section ConfigValues.
(** What [fmt.Sscanf(value, "%d", &threshold)] stores in [threshold],
    or nothing when it returns an error. *)
Variable Sscanf_d : string -> option Z.

(** [setConfigValue]. *)
Definition setConfigValue (cfg : config.Config) (key value : string) : result config.Config :=
  if String.eqb key "cli" then
    let validAgents := ["claude"; "codex"; "gemini"; "opencode"; "cursor"; "ollama"] in
    if negb (contains validAgents value) then
      Err (Errorf ("invalid agent '" ++ value ++ "' (valid: "
                     ++ String.concat ", " validAgents ++ ")"))
    else Ok (config.withCLI cfg value)
  else if String.eqb key "model" then Ok (config.withModel cfg value)
  else if String.eqb key "prompt_file" then Ok (config.withPromptFile cfg value)
  else if String.eqb key "auto_push" then
    if String.eqb value "true" then Ok (config.withAutoPush cfg true)
    else if String.eqb value "false" then Ok (config.withAutoPush cfg false)
    else Err (Errorf ("auto_push must be 'true' or 'false', got '" ++ value ++ "'"))
  else if String.eqb key "stuck_threshold" then
    match Sscanf_d value with
    | None => Err (Errorf ("stuck_threshold must be an integer, got '" ++ value ++ "'"))
    | Some threshold =>
      if (threshold <? 0)%Z then
        Err (Errorf ("stuck_threshold must be positive, got " ++ fmt.d threshold))
      else Ok (config.withStuckThreshold cfg threshold)
    end
  else if String.eqb key "verify" then Ok (config.withVerify cfg value)
  else if String.eqb key "memory" then
    if String.eqb value "true" then Ok (config.withMemory cfg true)
    else if String.eqb value "false" then Ok (config.withMemory cfg false)
    else Err (Errorf ("memory must be 'true' or 'false', got '" ++ value ++ "'"))
  else Err (Errorf ("unknown config key: " ++ key)).
End ConfigValues.

(** [getConfigValue]. *)
Definition getConfigValue (cfg : config.Config) (key : string) : result string :=
  if String.eqb key "cli" then Ok (config.CLI cfg)
  else if String.eqb key "model" then Ok (config.Model cfg)
  else if String.eqb key "prompt_file" then Ok (config.PromptFile cfg)
  else if String.eqb key "auto_push" then Ok (fmt.t (config.AutoPush cfg))
  else if String.eqb key "stuck_threshold" then Ok (fmt.d (config.StuckThreshold cfg))
  else if String.eqb key "verify" then Ok (config.Verify cfg)
  else if String.eqb key "memory" then Ok (fmt.t (config.Memory cfg))
  else Err (Errorf ("unknown config key: " ++ key)).
End cli.

(* ===================================================================== *)
(** * internal/runner *)
(* ===================================================================== *)

Module memory.
(** [MaxCommitLog]. *)
Definition MaxCommitLog : nat := 20.

Record CommitRecord : Type := mkCommitRecord {
  Hash : string;
  Message : string }.

(** [SessionMemory]; [StartedAt] is an instant, which the code only
    stores. *)
Record SessionMemory : Type := mkSessionMemory {
  StartedAt : Z;
  Branch : string;
  AgentName : string;
  Iterations : Z;
  Commits : Z;
  ExitReason : string;
  CommitLog : list CommitRecord;
  Remaining : string }.

(** Assignments to fields of the memory. *)
Definition withIterations (m : SessionMemory) (v : Z) : SessionMemory :=
  mkSessionMemory (StartedAt m) (Branch m) (AgentName m) v (Commits m) (ExitReason m)
    (CommitLog m) (Remaining m).

Definition withCommits (m : SessionMemory) (v : Z) : SessionMemory :=
  mkSessionMemory (StartedAt m) (Branch m) (AgentName m) (Iterations m) v (ExitReason m)
    (CommitLog m) (Remaining m).

Definition withCommitLog (m : SessionMemory) (v : list CommitRecord) : SessionMemory :=
  mkSessionMemory (StartedAt m) (Branch m) (AgentName m) (Iterations m) (Commits m)
    (ExitReason m) v (Remaining m).

(** [SessionMemory.RecordIteration]. *)
Definition RecordIteration (m : SessionMemory) (commitsMade : Z)
  (newCommits : list CommitRecord) : SessionMemory :=
  let m := withIterations m (int.add (Iterations m) 1) in
  let m := withCommits m (int.add (Commits m) commitsMade) in
  let m := withCommitLog m (newCommits ++ CommitLog m) in
  if (MaxCommitLog <? List.length (CommitLog m))%nat
  then withCommitLog m (firstn MaxCommitLog (CommitLog m))
  else m.
End memory.

Module io.
(** [io.MultiReader(r1, r2)]: [r2] is read once [r1] has ended. *)
Definition MultiReader (r1 r2 : bufio.Reader) : bufio.Reader :=
  match bufio.readErr r1 with
  | Some err => bufio.mkReader (bufio.data r1) (Some err)
  | None => bufio.mkReader (bufio.data r1 ++ bufio.data r2) (bufio.readErr r2)
  end.
End io.

Module runner.
Import agent config.

(** ** One iteration ([iteration.go]) *)

(** What the world answers during one call of [RunIteration], in the
    order the code asks. *)
Record World : Type := mkWorld {
  commitsBefore : result Z;        (* git.CountCommits(), first call *)
  stdoutPipe : option error;       (* cmd.StdoutPipe() *)
  stderrPipe : option error;       (* cmd.StderrPipe() *)
  start : option error;            (* cmd.Start() *)
  stdout : bufio.Reader;           (* what the agent writes *)
  stderr : bufio.Reader;
  wait : option error;             (* cmd.Wait() *)
  commitsAfter : result Z;         (* git.CountCommits(), second call *)
  status : result string;          (* git status --porcelain *)
  verifyRun : option error }.      (* verifyCmd.Run() *)

(** The adapter chosen by the switch on [ag.ID]. *)
Definition adapterImpl (ag : Agent)
  : bufio.Reader -> adapter.chan -> adapter.chan * option error :=
  if String.eqb (ID ag) "claude" then adapter.ClaudeAdapter_Process
  else if String.eqb (ID ag) "codex" then adapter.CodexAdapter_Process
  else adapter.PassThroughAdapter_Process.

(** [RunIteration]: the number of commits made and the error, if any.
    The two goroutines are run to their end: the first one's result is
    what [<-adapterDone] receives, the second one only prints. *)
Definition RunIteration (w : World) (ag : Agent) (prompt model verify : string)
  (autonomous : bool) : Z * option error :=
  match commitsBefore w with
  | Err err => (0%Z, Some (Wrapf "failed to count commits before iteration" err))
  | Ok commitsBefore =>
    let cmdArgs := BuildCommand ag prompt model autonomous in
    if (List.length cmdArgs =? 0)%nat
    then (0%Z, Some (Errorf "agent BuildCommand returned empty command"))
    else
      match stdoutPipe w with
      | Some err => (0%Z, Some (Wrapf "failed to create stdout pipe" err))
      | None =>
      match stderrPipe w with
      | Some err => (0%Z, Some (Wrapf "failed to create stderr pipe" err))
      | None =>
      match start w with
      | Some err => (0%Z, Some (Wrapf "failed to start agent" err))
      | None =>
        let combined := io.MultiReader (stdout w) (stderr w) in
        let '(events, adapterErr) := adapterImpl ag combined [] in
        let cmdErr := wait w in
        match adapterErr with
        | Some err => (0%Z, Some (Wrapf "adapter error" err))
        | None =>
        match commitsAfter w with
        | Err err => (0%Z, Some (Wrapf "failed to count commits after iteration" err))
        | Ok commitsAfter =>
          let commitsMade := int.sub commitsAfter commitsBefore in
          match git.GetChangedFiles (status w) with
          | (_, Some err) => (commitsMade, Some (Wrapf "failed to get changed files" err))
          | (counts, None) =>
            if negb (isEmpty verify) then
              match verifyRun w with
              | Some err => (commitsMade, Some (Wrapf "verification failed" err))
              | None => (commitsMade, None)
              end
            else (commitsMade, None)
          end
        end
        end
      end
      end
      end
  end.

(** ** The loop ([runner.go], [metrics.go]) *)

(** [type ExitCode int] and its constants; the code uses no other
    value of the type. *)
Inductive ExitCode : Type :=
| ExitSuccess | ExitError | ExitSafety | ExitMaxIterations | ExitStuck | ExitInterrupt.

Definition code (c : ExitCode) : Z :=
  match c with
  | ExitSuccess => 0
  | ExitError => 1
  | ExitSafety => 2
  | ExitMaxIterations => 3
  | ExitStuck => 4
  | ExitInterrupt => 130
  end.

Definition ExitReasonString (c : ExitCode) : string :=
  match c with
  | ExitSuccess => "✅ Complete (no changes)"
  | ExitError => "❌ Error"
  | ExitSafety => "⛔ Safety refusal"
  | ExitMaxIterations => "🔄 Max iterations reached"
  | ExitStuck => "🔁 Stuck (no commits)"
  | ExitInterrupt => "⚠️  Interrupted"
  end.

(** [Metrics], without its start time. *)
Record Metrics : Type := mkMetrics {
  Iterations : Z;
  Commits : Z;
  ExitReason : string }.

Definition NewMetrics : Metrics := mkMetrics 0 0 EmptyString.

(** [Runner], with session memory disabled ([memory] is nil, so that
    [recordMemory] and [saveMemory] return at once). *)
Record Runner : Type := mkRunner {
  config : Config;
  prompt : string;
  agent : Agent;
  maxIters : Z;
  singleRun : bool;
  metrics : Metrics;
  iterationsWithoutCommit : Z }.

(** [New]. *)
Definition New (cfg : Config) (prompt : string) (ag : Agent) (chooChoo : bool)
  (maxIters : Z) : Runner :=
  mkRunner cfg prompt ag maxIters (negb chooChoo) NewMetrics 0.

(** Assignments to fields of the runner. *)
Definition setMetrics (r : Runner) (m : Metrics) : Runner :=
  mkRunner (config r) (prompt r) (agent r) (maxIters r) (singleRun r) m
    (iterationsWithoutCommit r).

Definition setIterationsWithoutCommit (r : Runner) (n : Z) : Runner :=
  mkRunner (config r) (prompt r) (agent r) (maxIters r) (singleRun r) (metrics r) n.

Definition setExitReason (r : Runner) (reason : string) : Runner :=
  setMetrics r (mkMetrics (Iterations (metrics r)) (Commits (metrics r)) reason).

(** What the world answers during one turn of the loop of [Run]. *)
Record Pass : Type := mkPass {
  interrupted : bool;              (* ctx.Done() is ready at the top of the loop *)
  world : World;                   (* the answers to RunIteration *)
  branch : result string;          (* git.GetBranch() *)
  push : option error;             (* git.Push(branch) *)
  changes : bool * option error }. (* git.HasChanges() *)

(** A turn of the loop either returns from [Run] or goes round again. *)
Inductive Turn : Type :=
| Return (exit : ExitCode) (r : Runner)
| Continue (r : Runner).

Definition exitWith (c : ExitCode) (r : Runner) : Turn :=
  Return c (setExitReason r (ExitReasonString c)).

(** The body of the [for] loop of [Run]. Pushing changes nothing the
    runner holds; its outcome is only printed. *)
Definition turn (r : Runner) (p : Pass) : Turn :=
  if interrupted p then exitWith ExitInterrupt r
  else if (maxIters r >? 0)%Z && (Iterations (metrics r) >=? maxIters r)%Z
  then exitWith ExitMaxIterations r
  else
    let r := setMetrics r (mkMetrics (int.add (Iterations (metrics r)) 1)
                             (Commits (metrics r)) (ExitReason (metrics r))) in
    let '(commitsMade, err) :=
      RunIteration (world p) (agent r) (prompt r) (Model (config r))
        (Verify (config r)) (negb (singleRun r)) in
    let r := setMetrics r (mkMetrics (Iterations (metrics r))
                             (int.add (Commits (metrics r)) commitsMade)
                             (ExitReason (metrics r))) in
    let hasChanges :=
      match changes p with
      | (hasChanges, None) => hasChanges
      | (_, Some _) => false
      end in
    if negb hasChanges && (commitsMade =? 0)%Z then exitWith ExitSuccess r
    else
      let afterStuck : Turn :=
        if hasChanges && (commitsMade =? 0)%Z then
          let r := setIterationsWithoutCommit r (int.add (iterationsWithoutCommit r) 1) in
          if (iterationsWithoutCommit r >=? StuckThreshold (config r))%Z
          then exitWith ExitStuck r
          else Continue r
        else if (commitsMade >? 0)%Z then Continue (setIterationsWithoutCommit r 0)
        else Continue r in
      match afterStuck with
      | Return c r => Return c r
      | Continue r => if singleRun r then exitWith ExitSuccess r else Continue r
      end.

(** How far a run got on the answers it was given. *)
Inductive Outcome : Type :=
| Exited (exit : ExitCode) (r : Runner) (unused : list Pass)
| Running (r : Runner).

(** [Run]: the loop, on the answers of the world turn by turn. The
    answers not reached when [Run] returns are handed back. *)
Fixpoint Run (r : Runner) (script : list Pass) : Outcome :=
  match script with
  | [] => Running r
  | p :: rest =>
    match turn r p with
    | Return c r' => Exited c r' rest
    | Continue r' => Run r' rest
    end
  end.
End runner.

(* ===================================================================== *)
(** * Streams made of lines *)
(* ===================================================================== *)

(** The vocabulary of the statements about adapters: a stream written
    line by line, each line ended by a newline. *)
Module stream.
Fixpoint hasLF (s : string) : bool :=
  match s with
  | EmptyString => false
  | String c r => Ascii.eqb c LF || hasLF r
  end.

Fixpoint endsCR (s : string) : bool :=
  match s with
  | EmptyString => false
  | String c EmptyString => Ascii.eqb c CR
  | String _ r => endsCR r
  end.

(** A line the scanner hands out as it was written: no newline inside,
    no carriage return at its end, shorter than the scanner's buffer. *)
Definition isLine (l : string) : bool :=
  negb (hasLF l) && negb (endsCR l)
  && (N.of_nat (String.length l) <? bufio.MaxScanTokenSize)%N.

Fixpoint joinLines (ls : list string) : string :=
  match ls with
  | [] => EmptyString
  | l :: rest => l ++ String LF (joinLines rest)
  end.

(** The reader of a stream of the given lines, ending as [err] says. *)
Definition ofLines (ls : list string) (err : option error) : bufio.Reader :=
  bufio.mkReader (joinLines ls) err.
End stream.

(** A loop body that only sends: what it leaves on the channel is what
    was there followed by what it sends on an empty one. *)
Definition sendsOnly (body : string -> adapter.chan -> adapter.chan) : Prop :=
  forall line events, body line events = events ++ body line [].







(** An event that carries text: a tool name, a message or an error
    message that is not empty. *)
Definition hasPayload (e : adapter.Event) : bool :=
  match e with
  | adapter.ToolUse name _ => negb (isEmpty name)
  | adapter.AssistantMessage text => negb (isEmpty text)
  | adapter.Error message => negb (isEmpty message)
  end.

Definition isErrorEvent (e : adapter.Event) : bool :=
  match e with
  | adapter.Error _ => true
  | _ => false
  end.

(** The events of one line of Codex output: nothing, one Error, one
    AssistantMessage, one ToolUse, or a ToolUse followed by an
    AssistantMessage; each with a text that is not empty. *)
Inductive CodexLineEvents : list adapter.Event -> Prop :=
| CodexNothing : CodexLineEvents []
| CodexError (message : string) :
    message <> EmptyString -> CodexLineEvents [adapter.Error message]
| CodexMessage (text : string) :
    text <> EmptyString -> CodexLineEvents [adapter.AssistantMessage text]
| CodexTool (name : string) :
    name <> EmptyString -> CodexLineEvents [adapter.ToolUse name EmptyString]
| CodexToolMessage (name text : string) :
    name <> EmptyString -> text <> EmptyString ->
    CodexLineEvents [adapter.ToolUse name EmptyString; adapter.AssistantMessage text].


(** The runner a run ends with or has reached. *)
Definition runnerOf (o : runner.Outcome) : runner.Runner :=
  match o with
  | runner.Exited _ r _ => r
  | runner.Running r => r
  end.

(** A pass of a looping run that is not interrupted, makes no commit
    and leaves uncommitted changes, for the runner [r]. *)
Definition stuckPass (r : runner.Runner) (p : runner.Pass) : Prop :=
  runner.interrupted p = false
  /\ fst (runner.RunIteration (runner.world p) (runner.agent r) (runner.prompt r)
            (config.Model (runner.config r)) (config.Verify (runner.config r)) true)
     = 0%Z
  /\ runner.changes p = (true, None).

(** The edit distance of two byte sequences by its recurrence: the
    number of insertions, deletions and substitutions of one byte that
    turn one into the other. *)
Fixpoint lev (x : list ascii) : list ascii -> nat :=
  fix lev_x (y : list ascii) : nat :=
    match x, y with
    | [], _ => List.length y
    | _, [] => List.length x
    | c :: x', d :: y' =>
      Nat.min (Nat.min (S (lev x' y)) (S (lev_x y')))
        (lev x' y' + (if Ascii.eqb c d then 0 else 1))
    end.

(** A matrix of [la + 1] rows of [lb + 1] cells. *)
Definition shaped (la lb : nat) (m : agent.matrix) : Prop :=
  List.length m = S la /\ forall i, i <= la -> List.length (nth i m []) = S lb.

(** The bytes of a string, and the edit distance of the first [i]
    bytes of [a] and the first [j] bytes of [b], read from their ends:
    what [matrix[i][j]] is to hold. *)
Definition bytes (s : string) : list ascii := list_ascii_of_string s.

Definition cell (a b : string) (i j : nat) : Z :=
  Z.of_nat (lev (rev (firstn i (bytes a))) (rev (firstn j (bytes b)))).

(** The matrix holds its first row, its first column, the rows before
    row [i] and the cells of row [i] before column [j]. *)
Definition filled (a b : string) (m : agent.matrix) (i j : nat) : Prop :=
  forall i' j',
    i' <= String.length a -> j' <= String.length b ->
    i' = 0 \/ j' = 0 \/ i' < i \/ (i' = i /\ j' < j) ->
    agent.get m i' j' = cell a b i' j'.

(** Two Go strings are of lengths whose sum is below the largest int. *)
Definition lengthsFit (a b : string) : Prop :=
  (Z.of_nat (String.length a + String.length b) < int.max)%Z.

(** Each of the first [i] names of a slice is no greater than every
    name after it; with [i] the length of the slice, it is sorted. *)
Definition sortedUpTo (i : nat) (l : list string) : Prop :=
  forall k k', k < i -> k < k' < List.length l ->
    String.ltb (nth k' l EmptyString) (nth k l EmptyString) = false.

(** The IDs under which a registry holds agents. *)
Definition ids (registry : agent.RegistryMap) : list string := map fst registry.

(** The memory after a run of iterations, each with the commits it
    made and the records of them. *)
Definition recordAll (m : memory.SessionMemory)
  (iterations : list (Z * list memory.CommitRecord)) : memory.SessionMemory :=
  fold_left (fun m it => memory.RecordIteration m (fst it) (snd it)) iterations m.

(* ===================================================================== *)
(** * Sample runs *)
(* ===================================================================== *)

Module sample.
Import runner.

Definition silent : bufio.Reader := bufio.mkReader EmptyString None.

Definition cfg (threshold : Z) (verify : string) : config.Config :=
  config.mkConfig "claude" EmptyString "PROMPT.md" true threshold verify false.

(** The agent edits a file and commits nothing: three commits before
    and after, one modified file in the working tree. *)
Definition editsOnly : World :=
  mkWorld (Ok 3%Z) None None None
    (stream.ofLines [sq "{'type':'tool_use','name':'Edit'}"] None) silent None
    (Ok 3%Z) (Ok (stream.joinLines [" M main.go"])) None.

Definition editsOnlyPass : Pass :=
  mkPass false editsOnly (Ok "main") None (true, None).

(** The history is rewritten under the agent: five commits before, three
    after, a clean working tree. *)
Definition rewound : World :=
  mkWorld (Ok 5%Z) None None None silent silent None (Ok 3%Z) (Ok EmptyString) None.

Definition rewoundPass : Pass :=
  mkPass false rewound (Ok "main") None (false, None).

(** The agent commits once, and the verification command fails. *)
Definition commitsThenFailsVerify : World :=
  mkWorld (Ok 3%Z) None None None
    (stream.ofLines [sq "{'type':'tool_use','name':'Bash'}"] None) silent None
    (Ok 4%Z) (Ok EmptyString) (Some (ExternalError "exit status 1")).

(** A line of 65536 bytes, the size of the scanner's buffer. *)
Fixpoint repeatByte (n : nat) (c : ascii) : string :=
  match n with
  | O => EmptyString
  | S k => String c (repeatByte k c)
  end.

Definition longLine : string := repeatByte (Nat.pow 2 16) "a"%char.

(** The agent commits once and leaves a clean tree. *)
Definition commitsOnce : World :=
  mkWorld (Ok 3%Z) None None None silent silent None (Ok 4%Z) (Ok EmptyString) None.

Definition commitsOncePass : Pass :=
  mkPass false commitsOnce (Ok "main") None (false, None).

(** The agent commits once, then prints a line of 65536 bytes. *)
Definition commitsThenLongLine : World :=
  mkWorld (Ok 3%Z) None None None
    (bufio.mkReader (stream.joinLines ["done"] ++ longLine ++ String LF EmptyString) None)
    silent None (Ok 4%Z) (Ok EmptyString) None.

Definition commitsThenLongLinePass : Pass :=
  mkPass false commitsThenLongLine (Ok "main") None (false, None).

(** The answers of viper when no config file sets a key, the flags of
    [gumloop run --choo-choo -p "Fix the failing tests"], and a
    directory without a prompt file. *)
Definition viperDefaults : cli.Viper :=
  cli.mkViper
    (fun key => if String.eqb key "cli" then "claude"
                else if String.eqb key "prompt_file" then "PROMPT.md"
                else EmptyString)
    (fun key => String.eqb key "auto_push")
    (fun key => if String.eqb key "stuck_threshold" then 3%Z else 0%Z).

Definition loopFlags : cli.Flags :=
  cli.mkFlags "Fix the failing tests" EmptyString EmptyString EmptyString (-1) false 0
    EmptyString false.

Definition noFiles : cli.Files :=
  cli.mkFiles (fun _ => Some (ExternalError "no such file or directory"))
    (fun _ => Err (ExternalError "no such file or directory")).

Definition loopConfig : cli.RunConfig :=
  cli.mkRunConfig (config.mkConfig "claude" EmptyString "PROMPT.md" true 3 EmptyString false)
    "Fix the failing tests" true 0.

(** A scan of [%d] that reads nothing. *)
Definition scansNothing : string -> option Z := fun _ => None.

(** The memory a session starts with, and two iterations: one commit,
    then none. *)
Definition freshMemory : memory.SessionMemory :=
  memory.mkSessionMemory 0 "main" "Claude Code" 0 0 EmptyString [] EmptyString.

Definition twoIterations : list (Z * list memory.CommitRecord) :=
  [(1%Z, [memory.mkCommitRecord "abc1234" "Add parser"]); (0%Z, [])].
End sample.

(* ===================================================================== *)
(** * Facts about strings and the line scanner *)
(* ===================================================================== *)

Section StringFacts.

Lemma Split_nonempty (s : string) (sep : ascii) : strings.Split s sep <> [].
Proof.
  destruct s as [|c r]; simpl; [discriminate|].
  destruct (Ascii.eqb c sep); [discriminate|].
  destruct (strings.Split r sep); discriminate.
Qed.

Lemma Split_line (l rest : string) :
  stream.hasLF l = false ->
  strings.Split (l ++ String LF rest) LF = l :: strings.Split rest LF.
Proof.
  induction l as [|c l IH]; simpl; intros H.
  - reflexivity.
  - apply orb_false_iff in H as [Hc Hl].
    rewrite Hc, (IH Hl). reflexivity.
Qed.

Lemma Split_noLF (l : string) :
  stream.hasLF l = false -> strings.Split l LF = [l].
Proof.
  induction l as [|c l IH]; simpl; intros H.
  - reflexivity.
  - apply orb_false_iff in H as [Hc Hl].
    rewrite Hc, (IH Hl). reflexivity.
Qed.

Lemma Split_joinLines (ls : list string) :
  Forall (fun l => stream.hasLF l = false) ls ->
  strings.Split (stream.joinLines ls) LF = ls ++ [EmptyString].
Proof.
  induction 1 as [|l ls Hl _ IH]; simpl.
  - reflexivity.
  - rewrite Split_line by exact Hl. rewrite IH. reflexivity.
Qed.

Lemma rawLines_joinLines (ls : list string) :
  Forall (fun l => stream.hasLF l = false) ls ->
  bufio.rawLines (stream.joinLines ls) = ls.
Proof.
  intros H. unfold bufio.rawLines.
  rewrite Split_joinLines by exact H. rewrite last_last. simpl.
  apply removelast_last.
Qed.

Lemma dropCR_id (l : string) : stream.endsCR l = false -> bufio.dropCR l = l.
Proof.
  induction l as [|c l IH]; simpl; intros H.
  - reflexivity.
  - destruct l as [|d l'].
    + rewrite H. reflexivity.
    + f_equal. apply IH, H.
Qed.

Lemma isLine_inv (l : string) :
  stream.isLine l = true ->
  stream.hasLF l = false /\ stream.endsCR l = false
  /\ (bufio.MaxScanTokenSize <=? N.of_nat (String.length l))%N = false.
Proof.
  unfold stream.isLine. intros H.
  apply andb_true_iff in H as [H H3]. apply andb_true_iff in H as [H1 H2].
  apply negb_true_iff in H1, H2. repeat split; trivial.
  apply N.ltb_lt in H3. apply N.leb_gt, H3.
Qed.

Lemma tokens_lines (ls : list string) :
  Forall (fun l => stream.isLine l = true) ls -> bufio.tokens ls = (ls, false).
Proof.
  induction 1 as [|l ls Hl _ IH]; simpl.
  - reflexivity.
  - destruct (isLine_inv l Hl) as (_ & Hcr & Hlen).
    rewrite Hlen, IH, (dropCR_id l Hcr). reflexivity.
Qed.

Lemma NewScanner_ofLines (ls : list string) (err : option error) :
  Forall (fun l => stream.isLine l = true) ls ->
  bufio.NewScanner (stream.ofLines ls err) = bufio.mkScanner ls err.
Proof.
  intros H. unfold bufio.NewScanner, stream.ofLines. simpl.
  rewrite rawLines_joinLines.
  - rewrite (tokens_lines H). reflexivity.
  - eapply Forall_impl; [|exact H]. intros l Hl. apply (isLine_inv l Hl).
Qed.

End StringFacts.

(* ===================================================================== *)
(** * Facts about the adapters *)
(* ===================================================================== *)

Section AdapterFacts.
Import adapter.

Lemma forScan_sendsOnly (body : string -> chan -> chan) :
  sendsOnly body ->
  forall (s : bufio.Scanner) (events : chan),
    bufio.forScan s body events
    = events ++ flat_map (fun line => body line []) (bufio.pending s).
Proof.
  intros Hbody s. unfold bufio.forScan.
  induction (bufio.pending s) as [|l ls IH]; intros events; simpl.
  - symmetry. apply app_nil_r.
  - rewrite IH, (Hbody l events), <- app_assoc. reflexivity.
Qed.

Lemma PassThrough_sendsOnly :
  sendsOnly (fun line events => send events (AssistantMessage line)).
Proof. intros line events. reflexivity. Qed.

Lemma fold_send_if (A : Type) (keep : A -> bool) (ev : A -> Event) (xs : list A) :
  forall events : chan,
    fold_left (fun events x => if keep x then send events (ev x) else events) xs events
    = events
      ++ fold_left (fun events x => if keep x then send events (ev x) else events) xs [].
Proof.
  induction xs as [|x xs IH]; intros events; simpl.
  - symmetry. apply app_nil_r.
  - rewrite IH. rewrite (IH (if keep x then send [] (ev x) else [])).
    destruct (keep x); simpl.
    + unfold send. rewrite <- app_assoc. reflexivity.
    + reflexivity.
Qed.

Lemma Claude_sendsOnly : sendsOnly ClaudeAdapter_line.
Proof.
  intros line events. unfold ClaudeAdapter_line.
  destruct (isEmpty line); [symmetry; apply app_nil_r|].
  destruct (json.Unmarshal _ line _) as [event|]; [|symmetry; apply app_nil_r].
  repeat match goal with
         | |- context [if ?b then _ else _] =>
           destruct b; try reflexivity; try (symmetry; apply app_nil_r)
         end.
  apply (fold_send_if
           (fun content =>
              String.eqb (ClaudeContent.Type' content) "text"
              && negb (isEmpty (ClaudeContent.Text content)))
           (fun content => AssistantMessage (ClaudeContent.Text content))).
Qed.

Lemma Codex_sendsOnly : sendsOnly CodexAdapter_line.
Proof.
  intros line events. unfold CodexAdapter_line.
  destruct (isEmpty line); [symmetry; apply app_nil_r|].
  destruct (json.Unmarshal _ line _) as [event|]; [|reflexivity].
  repeat match goal with
         | |- context [if ?b then _ else _] =>
           destruct b; simpl; unfold send; rewrite <- ?app_assoc;
           try reflexivity; try (symmetry; apply app_nil_r)
         end.
Qed.

(** What each adapter does to a stream of lines. *)
Lemma PassThrough_ofLines (ls : list string) (err : option error) (events : chan) :
  Forall (fun l => stream.isLine l = true) ls ->
  PassThroughAdapter_Process (stream.ofLines ls err) events
  = (events ++ map AssistantMessage ls, err).
Proof.
  intros H. unfold PassThroughAdapter_Process.
  rewrite (NewScanner_ofLines err H).
  rewrite (forScan_sendsOnly PassThrough_sendsOnly). simpl.
  f_equal.
Qed.

Lemma Claude_ofLines (ls : list string) (events : chan) :
  Forall (fun l => stream.isLine l = true) ls ->
  ClaudeAdapter_Process (stream.ofLines ls None) events
  = (events ++ flat_map (fun l => ClaudeAdapter_line l []) ls, None).
Proof.
  intros H. unfold ClaudeAdapter_Process.
  rewrite (NewScanner_ofLines None H).
  rewrite (forScan_sendsOnly Claude_sendsOnly). reflexivity.
Qed.

Lemma Codex_ofLines (ls : list string) (events : chan) :
  Forall (fun l => stream.isLine l = true) ls ->
  CodexAdapter_Process (stream.ofLines ls None) events
  = (events ++ flat_map (fun l => CodexAdapter_line l []) ls, None).
Proof.
  intros H. unfold CodexAdapter_Process.
  rewrite (NewScanner_ofLines None H).
  rewrite (forScan_sendsOnly Codex_sendsOnly). reflexivity.
Qed.

End AdapterFacts.

(* ===================================================================== *)
(** * The output adapters: claim C10 *)
(* ===================================================================== *)

Section AdapterClaims.
Import adapter.


Lemma isEmpty_false (s : string) : s <> EmptyString -> isEmpty s = false.
Proof. destruct s; [congruence | reflexivity]. Qed.

(** C10. On an empty line the Claude adapter and the Codex adapter send
    nothing and go on with the next line: a stream with an empty line
    among its lines yields what the stream without it yields. The
    pass-through adapter sends an AssistantMessage with the empty text
    at that place. *)
Theorem structured_adapters_skip_empty_lines :
  (forall events : chan, ClaudeAdapter_line EmptyString events = events)
  /\ (forall events : chan, CodexAdapter_line EmptyString events = events)
  /\ (forall (before after : list string) (events : chan),
         Forall (fun l => stream.isLine l = true) (before ++ after) ->
         ClaudeAdapter_Process
           (stream.ofLines (before ++ EmptyString :: after) None) events
         = ClaudeAdapter_Process (stream.ofLines (before ++ after) None) events
         /\ CodexAdapter_Process
              (stream.ofLines (before ++ EmptyString :: after) None) events
            = CodexAdapter_Process (stream.ofLines (before ++ after) None) events
         /\ PassThroughAdapter_Process
              (stream.ofLines (before ++ EmptyString :: after) None) events
            = (events ++ map AssistantMessage before
                 ++ AssistantMessage EmptyString :: map AssistantMessage after,
               None)).
Proof.
  split; [|split].
  - reflexivity.
  - reflexivity.
  - intros before after events H.
    assert (H' : Forall (fun l => stream.isLine l = true)
                   (before ++ EmptyString :: after)).
    { apply Forall_app in H as [Hb Ha]. apply Forall_app.
      split; [exact Hb | constructor; [reflexivity | exact Ha]]. }
    split; [|split].
    + rewrite (Claude_ofLines events H'), (Claude_ofLines events H).
      rewrite !flat_map_app. reflexivity.
    + rewrite (Codex_ofLines events H'), (Codex_ofLines events H).
      rewrite !flat_map_app. reflexivity.
    + rewrite (PassThrough_ofLines None events H').
      rewrite map_app. reflexivity.
Qed.

Lemma structured_adapters_skip_empty_lines_witness :
  Forall (fun l => stream.isLine l = true)
    ([sq "{'tool':'Read'}"] ++ [sq "{'content':'done'}"])
  /\ CodexAdapter_Process
       (stream.ofLines
          ([sq "{'tool':'Read'}"] ++ EmptyString :: [sq "{'content':'done'}"]) None) []
     = CodexAdapter_Process
         (stream.ofLines ([sq "{'tool':'Read'}"] ++ [sq "{'content':'done'}"]) None) []
  /\ PassThroughAdapter_Process
       (stream.ofLines
          ([sq "{'tool':'Read'}"] ++ EmptyString :: [sq "{'content':'done'}"]) None) []
     = ([] ++ map AssistantMessage [sq "{'tool':'Read'}"]
           ++ AssistantMessage EmptyString
           :: map AssistantMessage [sq "{'content':'done'}"], None).
Proof.
  assert (H : Forall (fun l => stream.isLine l = true)
                ([sq "{'tool':'Read'}"] ++ [sq "{'content':'done'}"]))
    by (repeat constructor).
  destruct (proj2 (proj2 structured_adapters_skip_empty_lines)
              [sq "{'tool':'Read'}"] [sq "{'content':'done'}"] [] H)
    as (_ & Hcodex & Hpass).
  split; [exact H | split; [exact Hcodex | exact Hpass]].
Defined.

End AdapterClaims.

(* ===================================================================== *)
(** * The command builder: claim C7 *)
(* ===================================================================== *)

Section CommandBuilderClaims.
Import agent.

(** C7. The argument vector is the fields of the profile's command,
    then the autonomous flags if [autonomous] and the interactive flags
    otherwise, then the model flag and the model when neither is empty,
    then: the prompt, for the styles "arg" and "stream"; the model, when
    not empty, and the prompt, for the style "ollama"; nothing, for the
    style "pipe". *)
Theorem BuildCommand_argv (a : Agent) (prompt model : string) (autonomous : bool) :
  let base := strings.Fields (Command a) in
  let flags := if autonomous then AutonomousFlags a else InteractiveFlags a in
  let modelPair :=
    if negb (isEmpty model) && negb (isEmpty (ModelFlag a))
    then [ModelFlag a; model] else [] in
  (PromptStyle' a = PromptStyleArg \/ PromptStyle' a = PromptStyleStream ->
   BuildCommand a prompt model autonomous = base ++ flags ++ modelPair ++ [prompt])
  /\ (PromptStyle' a = PromptStyleOllama ->
      BuildCommand a prompt model autonomous
      = base ++ flags ++ modelPair
          ++ (if isEmpty model then [] else [model]) ++ [prompt])
  /\ (PromptStyle' a = PromptStylePipe ->
      BuildCommand a prompt model autonomous = base ++ flags ++ modelPair).
Proof.
  intros base flags modelPair. unfold BuildCommand. cbv zeta.
  change ([] ++ strings.Fields (Command a)) with base. fold flags.
  subst modelPair.
  split; [|split].
  - intros [H | H]; rewrite H; simpl;
      destruct (negb (isEmpty model) && negb (isEmpty (ModelFlag a)));
      rewrite <- ?app_assoc; reflexivity.
  - intros H. rewrite H. simpl.
    destruct (negb (isEmpty model) && negb (isEmpty (ModelFlag a)));
      destruct (isEmpty model); simpl; rewrite <- ?app_assoc; reflexivity.
  - intros H. rewrite H. simpl.
    destruct (negb (isEmpty model) && negb (isEmpty (ModelFlag a)));
      rewrite <- ?app_assoc, ?app_nil_r; reflexivity.
Qed.

Lemma BuildCommand_argv_witness :
  (PromptStyle' claude = PromptStyleArg \/ PromptStyle' claude = PromptStyleStream)
  /\ BuildCommand claude "fix the bug" "opus" true
     = ["claude"; "-p"; "--dangerously-skip-permissions"; "--verbose";
        "--output-format"; "stream-json"; "--model"; "opus"; "fix the bug"]
  /\ PromptStyle' ollama = PromptStyleOllama
  /\ BuildCommand ollama "fix the bug" "llama3" false
     = ["ollama"; "run"; "llama3"; "fix the bug"]
  /\ PromptStyle'
       (mkAgent "aider" "Aider" "aider --yes" "aider" ["--auto"] [] "-m" PromptStylePipe)
     = PromptStylePipe
  /\ BuildCommand
       (mkAgent "aider" "Aider" "aider --yes" "aider" ["--auto"] [] "-m" PromptStylePipe)
       "fix the bug" "gpt" true
     = ["aider"; "--yes"; "--auto"; "-m"; "gpt"].
Proof.
  split; [right; reflexivity|].
  split; [apply (proj1 (BuildCommand_argv claude "fix the bug" "opus" true));
          right; reflexivity|].
  split; [reflexivity|].
  split; [apply (proj1 (proj2 (BuildCommand_argv ollama "fix the bug" "llama3" false)));
          reflexivity|].
  split; [reflexivity|].
  apply (proj2 (proj2 (BuildCommand_argv
                         (mkAgent "aider" "Aider" "aider --yes" "aider" ["--auto"] []
                            "-m" PromptStylePipe) "fix the bug" "gpt" true))).
  reflexivity.
Defined.

End CommandBuilderClaims.

(* ===================================================================== *)
(** * The change detector: claim C9 *)
(* ===================================================================== *)

Section ChangeDetectorClaims.
Import git.

Lemma append_assoc (a b c : string) : ((a ++ b) ++ c = a ++ (b ++ c))%string.
Proof. induction a as [|x a IH]; simpl; [reflexivity | now rewrite IH]. Qed.

Lemma TrimSuffix_inside (x y : string) (c : ascii) :
  y <> EmptyString ->
  strings.TrimSuffix (x ++ String c y) nl
  = (x ++ String c (strings.TrimSuffix y nl))%string.
Proof.
  intros Hy. induction x as [|a x IH].
  - simpl. destruct y as [|d y]; [congruence|].
    destruct (Ascii.eqb c LF); reflexivity.
  - change (strings.TrimSuffix (String a (x ++ String c y)) nl
            = String a (x ++ String c (strings.TrimSuffix y nl))%string).
    simpl. rewrite IH.
    destruct (Ascii.eqb a LF); [|reflexivity].
    destruct x; reflexivity.
Qed.

Lemma TrimSuffix_line (l : string) : strings.TrimSuffix (l ++ nl) nl = l.
Proof.
  induction l as [|a l IH].
  - reflexivity.
  - change (strings.TrimSuffix (String a (l ++ nl)) nl = String a l).
    simpl. rewrite IH.
    destruct (Ascii.eqb a LF); [|reflexivity].
    destruct l; reflexivity.
Qed.

Lemma joinLines_last_nonempty (ls : list string) (l : string) :
  stream.joinLines (ls ++ [l]) <> EmptyString.
Proof.
  destruct ls as [|x ls]; simpl.
  - destruct l; discriminate.
  - destruct x; discriminate.
Qed.

Lemma TrimSuffix_joinLines (ls : list string) (l : string) :
  strings.TrimSuffix (stream.joinLines (ls ++ [l])) nl
  = (stream.joinLines ls ++ l)%string.
Proof.
  induction ls as [|x ls IH]; simpl.
  - apply TrimSuffix_line.
  - rewrite TrimSuffix_inside by apply joinLines_last_nonempty.
    rewrite IH. symmetry. apply (append_assoc x (String LF (stream.joinLines ls)) l).
Qed.

Lemma Split_joinLines_last (ls : list string) (l : string) :
  Forall (fun l => stream.hasLF l = false) ls ->
  stream.hasLF l = false ->
  strings.Split (stream.joinLines ls ++ l) LF = ls ++ [l].
Proof.
  intros Hls Hl. induction Hls as [|x ls Hx _ IH]; simpl.
  - apply Split_noLF, Hl.
  - rewrite (append_assoc x (String LF (stream.joinLines ls)) l). simpl.
    rewrite Split_line by exact Hx. rewrite IH. reflexivity.
Qed.

(** [GetChangedFiles] on a listing of the given entries, one per line:
    the loop body applied to each entry in turn. *)
Lemma GetChangedFiles_listing (entries : list string) :
  Forall (fun l => stream.hasLF l = false) entries ->
  GetChangedFiles (Ok (stream.joinLines entries))
  = (fold_left (fun c line => classify line c) entries (mkCounts 0 0 0), None).
Proof.
  intros H. destruct entries as [|e es]; [reflexivity|].
  destruct (@exists_last _ (e :: es)) as (ls & l & Heq); [discriminate|].
  rewrite Heq in *. clear Heq e es.
  apply Forall_app in H as [Hls Hl]. inversion Hl as [|? ? Hl' _]; subst.
  unfold GetChangedFiles.
  rewrite (isEmpty_false (joinLines_last_nonempty ls l)).
  rewrite TrimSuffix_joinLines, (Split_joinLines_last l Hls Hl'). reflexivity.
Qed.

(** C9. In the loop of GetChangedFiles, an entry with status " M" adds
    one to modified and leaves staged and untracked; status "M " adds
    one to staged only; status "MM" adds one to staged and one to
    modified; status "??" adds one to untracked only. The counts of a
    listing with such an entry added at its end are those of the
    listing changed in this way. *)
Theorem GetChangedFiles_status_codes :
  (forall (path : string) (c : Counts),
      classify (" M " ++ path) c
      = mkCounts (int.add (modified c) 1) (staged c) (untracked c)
      /\ classify ("M  " ++ path) c
         = mkCounts (modified c) (int.add (staged c) 1) (untracked c)
      /\ classify ("MM " ++ path) c
         = mkCounts (int.add (modified c) 1) (int.add (staged c) 1) (untracked c)
      /\ classify ("?? " ++ path) c
         = mkCounts (modified c) (staged c) (int.add (untracked c) 1))
  /\ (forall (entries : list string) (entry : string),
         Forall (fun l => stream.hasLF l = false) entries ->
         stream.hasLF entry = false ->
         GetChangedFiles (Ok (stream.joinLines (entries ++ [entry])))
         = (classify entry (fst (GetChangedFiles (Ok (stream.joinLines entries)))),
            None))
  /\ GetChangedFiles
       (Ok (stream.joinLines [" M a.go"; "M  b.go"; "MM c.go"; "?? d.go"]))
     = (mkCounts 2 2 1, None).
Proof.
  split; [|split].
  - intros path c. repeat split; reflexivity.
  - intros entries entry He Hl.
    rewrite (GetChangedFiles_listing He).
    rewrite GetChangedFiles_listing.
    + rewrite fold_left_app. reflexivity.
    + apply Forall_app. split; [exact He | constructor; [exact Hl | constructor]].
  - vm_compute; reflexivity.
Qed.

Lemma GetChangedFiles_status_codes_witness :
  Forall (fun l => stream.hasLF l = false) ["?? new.txt"; "M  staged.go"]
  /\ stream.hasLF "MM both.go" = false
  /\ GetChangedFiles
       (Ok (stream.joinLines (["?? new.txt"; "M  staged.go"] ++ ["MM both.go"])))
     = (classify "MM both.go"
          (fst (GetChangedFiles (Ok (stream.joinLines ["?? new.txt"; "M  staged.go"])))),
        None).
Proof.
  split; [repeat constructor|]. split; [reflexivity|].
  apply (proj1 (proj2 GetChangedFiles_status_codes)); [repeat constructor | reflexivity].
Defined.

End ChangeDetectorClaims.

(* ===================================================================== *)
(** * The process supervisor and the loop controller: C1, C2, C3, C8 *)
(* ===================================================================== *)


Section RunnerClaims.
Import agent config runner.

Lemma int_add_exact (x y : Z) : int.inRange (x + y) -> int.add x y = (x + y)%Z.
Proof.
  unfold int.inRange, int.min, int.max, int.add, int.wrap. intros H.
  rewrite Z.mod_small; lia.
Qed.

Lemma int_sub_exact (x y : Z) : int.inRange (x - y) -> int.sub x y = (x - y)%Z.
Proof.
  unfold int.inRange, int.min, int.max, int.sub, int.wrap. intros H.
  rewrite Z.mod_small; lia.
Qed.

(** A pass in which every step before the verification succeeds. *)
Lemma RunIteration_measured
  (w : World) (ag : Agent) (prompt model verify : string) (autonomous : bool)
  (before after : Z) (counts : git.Counts) :
  commitsBefore w = Ok before ->
  BuildCommand ag prompt model autonomous <> [] ->
  stdoutPipe w = None -> stderrPipe w = None -> start w = None ->
  snd (adapterImpl ag (io.MultiReader (stdout w) (stderr w)) []) = None ->
  commitsAfter w = Ok after ->
  git.GetChangedFiles (status w) = (counts, None) ->
  RunIteration w ag prompt model verify autonomous
  = (int.sub after before,
     if negb (isEmpty verify)
     then match verifyRun w with
          | Some err => Some (Wrapf "verification failed" err)
          | None => None
          end
     else None).
Proof.
  intros Hb Hcmd Hout Herr Hstart Had Ha Hst.
  unfold RunIteration. rewrite Hb.
  destruct (BuildCommand ag prompt model autonomous) as [|arg0 args] eqn:Hargs;
    [congruence|].
  simpl. rewrite Hout, Herr, Hstart.
  destruct (adapterImpl ag (io.MultiReader (stdout w) (stderr w)) [])
    as [events adapterErr].
  simpl in Had. subst adapterErr.
  rewrite Ha, Hst.
  destruct (negb (isEmpty verify)); [|reflexivity].
  destruct (verifyRun w); reflexivity.
Qed.

(** C8. When every step before the verification succeeds, a
    verification command is configured and it fails, RunIteration
    returns an error that wraps the failure, together with the number
    of commits it has computed: the count after less the count before. *)
Theorem verification_failure_keeps_commitsMade
  (w : World) (ag : Agent) (prompt model verify : string) (autonomous : bool)
  (before after : Z) (counts : git.Counts) (err : error) :
  commitsBefore w = Ok before ->
  BuildCommand ag prompt model autonomous <> [] ->
  stdoutPipe w = None -> stderrPipe w = None -> start w = None ->
  snd (adapterImpl ag (io.MultiReader (stdout w) (stderr w)) []) = None ->
  commitsAfter w = Ok after ->
  git.GetChangedFiles (status w) = (counts, None) ->
  verify <> EmptyString ->
  verifyRun w = Some err ->
  RunIteration w ag prompt model verify autonomous
  = (int.sub after before, Some (Wrapf "verification failed" err)).
Proof.
  intros Hb Hcmd Hout Herr Hstart Had Ha Hst Hv Hrun.
  rewrite (RunIteration_measured w ag prompt model verify autonomous
             Hb Hcmd Hout Herr Hstart Had Ha Hst).
  rewrite (isEmpty_false Hv), Hrun. reflexivity.
Qed.

Lemma verification_failure_keeps_commitsMade_witness :
  commitsBefore sample.commitsThenFailsVerify = Ok 3%Z
  /\ commitsAfter sample.commitsThenFailsVerify = Ok 4%Z
  /\ verifyRun sample.commitsThenFailsVerify = Some (ExternalError "exit status 1")
  /\ RunIteration sample.commitsThenFailsVerify claude "fix the bug" EmptyString
       "go test ./..." true
     = (1%Z, Some (Wrapf "verification failed" (ExternalError "exit status 1"))).
Proof.
  split; [reflexivity|]. split; [reflexivity|]. split; [reflexivity|].
  apply (@verification_failure_keeps_commitsMade
           sample.commitsThenFailsVerify claude "fix the bug" EmptyString
           "go test ./..." true 3%Z 4%Z (git.mkCounts 0 0 0)
           (ExternalError "exit status 1"));
    try reflexivity; try discriminate.
Defined.

(** The answer of git.HasChanges the loop goes by: an error counts as
    no change. *)
Lemma turn_runs (r : Runner) (p : Pass) (commitsMade : Z) (err : option error) :
  interrupted p = false ->
  ((maxIters r >? 0)%Z && (Iterations (metrics r) >=? maxIters r)%Z) = false ->
  RunIteration (world p) (agent r) (prompt r) (Model (config r))
    (Verify (config r)) (negb (singleRun r)) = (commitsMade, err) ->
  turn r p
  = let r1 := setMetrics r (mkMetrics (int.add (Iterations (metrics r)) 1)
                              (int.add (Commits (metrics r)) commitsMade)
                              (ExitReason (metrics r))) in
    let hasChanges := match changes p with
                      | (b, None) => b
                      | (_, Some _) => false
                      end in
    if negb hasChanges && (commitsMade =? 0)%Z then exitWith ExitSuccess r1
    else if hasChanges && (commitsMade =? 0)%Z then
      let r2 := setIterationsWithoutCommit r1 (int.add (iterationsWithoutCommit r) 1) in
      if (int.add (iterationsWithoutCommit r) 1 >=? StuckThreshold (config r))%Z
      then exitWith ExitStuck r2
      else if singleRun r then exitWith ExitSuccess r2 else Continue r2
    else if (commitsMade >? 0)%Z then
      if singleRun r then exitWith ExitSuccess (setIterationsWithoutCommit r1 0)
      else Continue (setIterationsWithoutCommit r1 0)
    else if singleRun r then exitWith ExitSuccess r1 else Continue r1.
Proof.
  intros Hi Hmax Hrun. unfold turn. rewrite Hi, Hmax. simpl.
  rewrite Hrun. simpl.
  destruct (changes p) as [b [e|]]; simpl;
    repeat match goal with
           | |- context [if ?c then _ else _] => destruct c eqn:?; simpl
           end; try reflexivity; try discriminate.
Qed.

(** C1 fails as stated: a single-pass run whose configuration has the
    valid stuck threshold 1, and whose one iteration makes no commit
    and leaves a modified file, ends with reason Stuck, not Success. *)
Lemma single_pass_run_counterexample :
  cli.validateRunConfig
    (cli.mkRunConfig (sample.cfg 1 EmptyString) "fix the bug" false 0) = None
  /\ exists r : Runner,
      Run (New (sample.cfg 1 EmptyString) "fix the bug" claude false 0)
        [sample.editsOnlyPass]
      = Exited ExitStuck r []
      /\ Iterations (metrics r) = 1%Z
      /\ ExitReason (metrics r) = ExitReasonString ExitStuck.
Proof.
  split; [reflexivity|]. eexists. split; [vm_compute; reflexivity|].
  split; reflexivity.
Qed.

(** C1, amended. A single-pass run that is not interrupted before its
    first iteration executes exactly one iteration and then ends: with
    reason Stuck when the iteration made no commit, left uncommitted
    changes and the stuck threshold is at most 1; with reason Success
    in every other case, whatever the iteration did and returned. *)
Theorem single_pass_run
  (cfg : Config) (prompt : string) (ag : Agent) (maxIters : Z)
  (p : Pass) (rest : list Pass) :
  interrupted p = false ->
  let commitsMade :=
    fst (RunIteration (world p) ag prompt (Model cfg) (Verify cfg) false) in
  let hasChanges := match changes p with
                    | (b, None) => b
                    | (_, Some _) => false
                    end in
  exists r : Runner,
    Run (New cfg prompt ag false maxIters) (p :: rest)
    = Exited (if hasChanges && (commitsMade =? 0)%Z && (StuckThreshold cfg <=? 1)%Z
              then ExitStuck else ExitSuccess) r rest
    /\ Iterations (metrics r) = 1%Z.
Proof.
  intros Hi commitsMade hasChanges.
  destruct (RunIteration (world p) ag prompt (Model cfg) (Verify cfg) false)
    as [c e] eqn:Hrun.
  assert (Hmax : ((runner.maxIters (New cfg prompt ag false maxIters) >? 0)%Z
                  && (Iterations (metrics (New cfg prompt ag false maxIters))
                      >=? runner.maxIters (New cfg prompt ag false maxIters))%Z)
                 = false).
  { simpl. destruct (maxIters >? 0)%Z eqn:Hm; [|reflexivity].
    simpl. apply Z.gtb_lt in Hm. rewrite Z.geb_leb. apply Z.leb_gt. exact Hm. }
  simpl Run. rewrite (turn_runs (New cfg prompt ag false maxIters) p Hi Hmax Hrun).
  subst commitsMade hasChanges. simpl.
  change (int.add 0 1) with 1%Z.
  replace (1 >=? StuckThreshold cfg)%Z with (StuckThreshold cfg <=? 1)%Z
    by (now rewrite Z.geb_leb).
  destruct (match changes p with (b, None) => b | (_, Some _) => false end);
    destruct (c =? 0)%Z; destruct (StuckThreshold cfg <=? 1)%Z;
    destruct (c >? 0)%Z; simpl; eexists; split; reflexivity.
Qed.

Lemma single_pass_run_witness :
  interrupted sample.editsOnlyPass = false
  /\ exists r : Runner,
      Run (New (sample.cfg 3 EmptyString) "fix the bug" claude false 0)
        (sample.editsOnlyPass :: [sample.rewoundPass])
      = Exited ExitSuccess r [sample.rewoundPass]
      /\ Iterations (metrics r) = 1%Z.
Proof.
  split; [reflexivity|].
  apply (@single_pass_run (sample.cfg 3 EmptyString) "fix the bug" claude 0
           sample.editsOnlyPass [sample.rewoundPass]).
  reflexivity.
Defined.

(** C2. A looping run with stuck threshold 2 whose first two iterations
    each make no commit while the working tree has uncommitted changes
    ends with reason Stuck after the second iteration: two iterations
    are counted, and what the world would have answered to a third is
    left unasked. That the two iterations run means that no interrupt is
    seen before them and that the iteration cap, if set, is not 1. *)
Theorem stuck_after_two_iterations
  (cfg : Config) (prompt : string) (ag : Agent) (maxIters : Z)
  (p1 p2 : Pass) (rest : list Pass) :
  StuckThreshold cfg = 2%Z ->
  (maxIters <= 0 \/ 2 <= maxIters)%Z ->
  interrupted p1 = false ->
  fst (RunIteration (world p1) ag prompt (Model cfg) (Verify cfg) true) = 0%Z ->
  changes p1 = (true, None) ->
  interrupted p2 = false ->
  fst (RunIteration (world p2) ag prompt (Model cfg) (Verify cfg) true) = 0%Z ->
  changes p2 = (true, None) ->
  exists r : Runner,
    Run (New cfg prompt ag true maxIters) (p1 :: p2 :: rest) = Exited ExitStuck r rest
    /\ Iterations (metrics r) = 2%Z
    /\ ExitReason (metrics r) = ExitReasonString ExitStuck.
Proof.
  intros Hth Hcap Hi1 Hc1 Hch1 Hi2 Hc2 Hch2.
  destruct (RunIteration (world p1) ag prompt (Model cfg) (Verify cfg) true)
    as [c1 e1] eqn:Hrun1.
  destruct (RunIteration (world p2) ag prompt (Model cfg) (Verify cfg) true)
    as [c2 e2] eqn:Hrun2.
  simpl in Hc1, Hc2. subst c1 c2.
  assert (Hmax1 : ((maxIters >? 0)%Z && (0 >=? maxIters)%Z) = false).
  { destruct (maxIters >? 0)%Z eqn:Hm; [|reflexivity]. simpl.
    apply Z.gtb_lt in Hm. rewrite Z.geb_leb. apply Z.leb_gt. exact Hm. }
  assert (Hmax2 : ((maxIters >? 0)%Z && (1 >=? maxIters)%Z) = false).
  { destruct (maxIters >? 0)%Z eqn:Hm; [|reflexivity]. simpl.
    apply Z.gtb_lt in Hm. rewrite Z.geb_leb. apply Z.leb_gt. lia. }
  simpl Run.
  rewrite (turn_runs (New cfg prompt ag true maxIters) p1 Hi1 Hmax1 Hrun1).
  rewrite Hch1. simpl. rewrite Hth. simpl.
  match goal with
  | |- context [turn ?r p2] => rewrite (turn_runs r p2 Hi2 Hmax2 Hrun2)
  end.
  rewrite Hch2. simpl. rewrite Hth. simpl.
  eexists. split; [reflexivity|]. split; reflexivity.
Qed.

Lemma stuck_after_two_iterations_witness :
  StuckThreshold (sample.cfg 2 EmptyString) = 2%Z
  /\ interrupted sample.editsOnlyPass = false
  /\ changes sample.editsOnlyPass = (true, None)
  /\ exists r : Runner,
      Run (New (sample.cfg 2 EmptyString) "fix the bug" claude true 10)
        (sample.editsOnlyPass :: sample.editsOnlyPass :: [sample.rewoundPass])
      = Exited ExitStuck r [sample.rewoundPass]
      /\ Iterations (metrics r) = 2%Z
      /\ ExitReason (metrics r) = ExitReasonString ExitStuck.
Proof.
  split; [reflexivity|]. split; [reflexivity|]. split; [reflexivity|].
  apply (@stuck_after_two_iterations (sample.cfg 2 EmptyString) "fix the bug" claude 10
           sample.editsOnlyPass sample.editsOnlyPass [sample.rewoundPass]);
    try reflexivity.
  right. lia.
Defined.

(** C3 fails on the code. The commit count falls from 5 to 3 during an
    iteration: RunIteration returns -2 and no error; the loop adds -2 to
    the total of the run (1 after the first iteration, -1 after this
    one), leaves the stuck counter alone and goes on to a next
    iteration. *)
Lemma negative_commitsMade_counterexample :
  RunIteration sample.rewound claude "fix the bug" EmptyString EmptyString true
  = ((-2)%Z, None)
  /\ exists r1 r2 : Runner,
      Run (New (sample.cfg 3 EmptyString) "fix the bug" claude true 0)
        [mkPass false sample.commitsThenFailsVerify (Ok "main") None (false, None)]
      = Running r1
      /\ Commits (metrics r1) = 1%Z
      /\ Run (New (sample.cfg 3 EmptyString) "fix the bug" claude true 0)
           [mkPass false sample.commitsThenFailsVerify (Ok "main") None (false, None);
            sample.rewoundPass]
         = Running r2
      /\ Commits (metrics r2) = (-1)%Z
      /\ Iterations (metrics r2) = 2%Z
      /\ iterationsWithoutCommit r2 = iterationsWithoutCommit r1.
Proof.
  split; [vm_compute; reflexivity|].
  eexists. eexists.
  split; [vm_compute; reflexivity|]. split; [reflexivity|].
  split; [vm_compute; reflexivity|]. repeat split; reflexivity.
Qed.

(** C3, amended. A commit count that is lower after the pass than
    before it is not detected: when nothing else fails, RunIteration
    returns the negative difference with no error, and the loop adds it
    to the total of the run as it adds any other value. Being neither
    zero nor positive, it makes the turn neither end the run as complete
    nor count towards Stuck nor reset the stuck counter: a looping run
    goes on to the next iteration, a single-pass run ends with
    Success. *)
Theorem negative_commitsMade_is_folded_in :
  (forall (w : World) (ag : Agent) (prompt model verify : string) (autonomous : bool)
          (before after : Z) (counts : git.Counts),
      commitsBefore w = Ok before ->
      BuildCommand ag prompt model autonomous <> [] ->
      stdoutPipe w = None -> stderrPipe w = None -> start w = None ->
      snd (adapterImpl ag (io.MultiReader (stdout w) (stderr w)) []) = None ->
      commitsAfter w = Ok after ->
      git.GetChangedFiles (status w) = (counts, None) ->
      verify = EmptyString \/ verifyRun w = None ->
      (0 <= after < before)%Z -> (before <= int.max)%Z ->
      RunIteration w ag prompt model verify autonomous = ((after - before)%Z, None))
  /\ (forall (r : Runner) (p : Pass) (commitsMade : Z) (err : option error),
         interrupted p = false ->
         ((maxIters r >? 0)%Z && (Iterations (metrics r) >=? maxIters r)%Z) = false ->
         RunIteration (world p) (agent r) (prompt r) (Model (config r))
           (Verify (config r)) (negb (singleRun r)) = (commitsMade, err) ->
         (commitsMade < 0)%Z ->
         let r' := setMetrics r (mkMetrics (int.add (Iterations (metrics r)) 1)
                                   (int.add (Commits (metrics r)) commitsMade)
                                   (ExitReason (metrics r))) in
         iterationsWithoutCommit r' = iterationsWithoutCommit r
         /\ turn r p = if singleRun r then exitWith ExitSuccess r' else Continue r').
Proof.
  split.
  - intros w ag prompt model verify autonomous before after counts
      Hb Hcmd Hout Herr Hstart Had Ha Hst Hv Hlt Hmax.
    rewrite (RunIteration_measured w ag prompt model verify autonomous
               Hb Hcmd Hout Herr Hstart Had Ha Hst).
    rewrite int_sub_exact
      by (unfold int.inRange, int.min, int.max in *; lia).
    destruct Hv as [Hv | Hv].
    + rewrite Hv. reflexivity.
    + rewrite Hv. destruct (negb (isEmpty verify)); reflexivity.
  - intros r p commitsMade err Hi Hmax Hrun Hneg r'. split; [reflexivity|].
    rewrite (turn_runs r p Hi Hmax Hrun). cbv zeta.
    assert (H0 : (commitsMade =? 0)%Z = false) by (apply Z.eqb_neq; lia).
    assert (H1 : (commitsMade >? 0)%Z = false).
    { rewrite Z.gtb_ltb. apply Z.ltb_ge. lia. }
    rewrite H0, H1, !andb_false_r. reflexivity.
Qed.

Lemma negative_commitsMade_is_folded_in_witness :
  (commitsBefore sample.rewound = Ok 5%Z
   /\ commitsAfter sample.rewound = Ok 3%Z
   /\ RunIteration sample.rewound claude "fix the bug" EmptyString EmptyString true
      = ((3 - 5)%Z, None))
  /\ turn (New (sample.cfg 3 EmptyString) "fix the bug" claude true 0) sample.rewoundPass
     = Continue
         (setMetrics (New (sample.cfg 3 EmptyString) "fix the bug" claude true 0)
            (mkMetrics (int.add 0 1) (int.add 0 (-2)) EmptyString)).
Proof.
  destruct negative_commitsMade_is_folded_in as [Hiter Hturn].
  split.
  - split; [reflexivity|]. split; [reflexivity|].
    apply (Hiter sample.rewound claude "fix the bug" EmptyString EmptyString true
             5%Z 3%Z (git.mkCounts 0 0 0));
      first [reflexivity | discriminate | left; reflexivity
            | unfold int.max; lia].
  - apply (Hturn (New (sample.cfg 3 EmptyString) "fix the bug" claude true 0)
             sample.rewoundPass (-2)%Z None); try reflexivity.
Defined.

End RunnerClaims.

(* ===================================================================== *)
(** * More on the adapters *)
(* ===================================================================== *)

Section AdapterStreams.
Import adapter.

Lemma Split_joinLines_app (xs : list string) (s : string) :
  Forall (fun l => stream.hasLF l = false) xs ->
  strings.Split (stream.joinLines xs ++ s) LF = xs ++ strings.Split s LF.
Proof.
  induction 1 as [|x xs Hx _ IH]; simpl.
  - reflexivity.
  - rewrite (append_assoc x (String LF (stream.joinLines xs)) s). simpl.
    rewrite Split_line by exact Hx. rewrite IH. reflexivity.
Qed.

Lemma last_app_cons (A : Type) (xs zs : list A) (d : A) :
  zs <> [] -> last (xs ++ zs) d = last zs d.
Proof.
  intros Hz. induction xs as [|x xs IH]; simpl; [reflexivity|].
  rewrite IH. destruct (xs ++ zs) eqn:E; [|reflexivity].
  apply app_eq_nil in E as [_ E]. contradiction.
Qed.

(** The pieces of a stream that starts with the lines [xs] and then
    has a line [y], whatever follows. *)
Lemma rawLines_prefix (xs : list string) (y rest : string) :
  Forall (fun l => stream.hasLF l = false) xs ->
  stream.hasLF y = false ->
  exists tail : list string,
    bufio.rawLines (stream.joinLines xs ++ y ++ String LF rest) = xs ++ y :: tail.
Proof.
  intros Hx Hy. unfold bufio.rawLines.
  rewrite Split_joinLines_app by exact Hx. rewrite Split_line by exact Hy.
  destruct (isEmpty _).
  - exists (removelast (strings.Split rest LF)).
    rewrite removelast_app by discriminate.
    simpl. destruct (strings.Split rest LF) eqn:E; [|reflexivity].
    now apply Split_nonempty in E.
  - eexists. reflexivity.
Qed.

Lemma tokens_long (before tail : list string) (long : string) :
  Forall (fun l => stream.isLine l = true) before ->
  (bufio.MaxScanTokenSize <= N.of_nat (String.length long))%N ->
  bufio.tokens (before ++ long :: tail) = (before, true).
Proof.
  intros Hb Hlong. induction Hb as [|l ls Hl _ IH]; simpl.
  - apply N.leb_le in Hlong. rewrite Hlong. reflexivity.
  - destruct (isLine_inv l Hl) as (_ & Hcr & Hlen).
    rewrite Hlen, IH, (dropCR_id l Hcr). reflexivity.
Qed.

Lemma NewScanner_long (before : list string) (long rest : string) (err : option error) :
  Forall (fun l => stream.isLine l = true) before ->
  stream.hasLF long = false ->
  (bufio.MaxScanTokenSize <= N.of_nat (String.length long))%N ->
  bufio.NewScanner
    (bufio.mkReader (stream.joinLines before ++ long ++ String LF rest) err)
  = bufio.mkScanner before (Some ErrTooLong).
Proof.
  intros Hb Hlf Hlong. unfold bufio.NewScanner. simpl.
  destruct (@rawLines_prefix before long rest) as [tail Htail]; [|exact Hlf|].
  - eapply Forall_impl; [|exact Hb]. intros l Hl. apply (isLine_inv l Hl).
  - rewrite Htail, (@tokens_long before tail long Hb Hlong). reflexivity.
Qed.


Lemma Codex_ofLines_err (ls : list string) (err : option error) (events : chan) :
  Forall (fun l => stream.isLine l = true) ls ->
  CodexAdapter_Process (stream.ofLines ls err) events
  = (events ++ flat_map (fun l => CodexAdapter_line l []) ls,
     option_map (Wrapf "error reading Codex output") err).
Proof.
  intros H. unfold CodexAdapter_Process.
  rewrite (NewScanner_ofLines err H).
  rewrite (forScan_sendsOnly Codex_sendsOnly). simpl.
  destruct err; reflexivity.
Qed.

(** X1. A failure of the reader after the data does not change the
    events: an adapter that handles the data without error when the
    stream ends cleanly sends the same events when the stream ends in
    the failure [e], and returns [e] (the pass-through adapter) or [e]
    wrapped in its own message (the Claude and Codex adapters). *)
Theorem adapters_propagate_read_error (data : string) (e : error) (events : chan) :
  (snd (PassThroughAdapter_Process (bufio.mkReader data None) events) = None ->
   PassThroughAdapter_Process (bufio.mkReader data (Some e)) events
   = (fst (PassThroughAdapter_Process (bufio.mkReader data None) events), Some e))
  /\ (snd (ClaudeAdapter_Process (bufio.mkReader data None) events) = None ->
      ClaudeAdapter_Process (bufio.mkReader data (Some e)) events
      = (fst (ClaudeAdapter_Process (bufio.mkReader data None) events),
         Some (Wrapf "error reading Claude output" e)))
  /\ (snd (CodexAdapter_Process (bufio.mkReader data None) events) = None ->
      CodexAdapter_Process (bufio.mkReader data (Some e)) events
      = (fst (CodexAdapter_Process (bufio.mkReader data None) events),
         Some (Wrapf "error reading Codex output" e))).
Proof.
  unfold PassThroughAdapter_Process, ClaudeAdapter_Process, CodexAdapter_Process,
    bufio.NewScanner. simpl.
  destruct (bufio.tokens (bufio.rawLines data)) as [ts tooLong].
  destruct tooLong; simpl; repeat split; intros H;
    first [discriminate H | reflexivity].
Qed.

Lemma adapters_propagate_read_error_witness :
  snd (CodexAdapter_Process
         (bufio.mkReader (sq "{'tool':'Bash'}" ++ nl ++ "half a li") None) []) = None
  /\ CodexAdapter_Process
       (bufio.mkReader (sq "{'tool':'Bash'}" ++ nl ++ "half a li")
          (Some (ExternalError "read |0: file already closed"))) []
     = ([ToolUse "Bash" EmptyString; AssistantMessage "half a li"],
        Some (Wrapf "error reading Codex output"
                (ExternalError "read |0: file already closed"))).
Proof.
  split; [vm_compute; reflexivity|].
  apply (proj2 (proj2 (adapters_propagate_read_error
                         (sq "{'tool':'Bash'}" ++ nl ++ "half a li")
                         (ExternalError "read |0: file already closed") []))).
  vm_compute; reflexivity.
Defined.

(** X2. A line of 65536 bytes or more stops every adapter: the events
    sent are those of the lines before it, the error returned is the
    scanner's ErrTooLong (wrapped, for the Claude and Codex adapters),
    and nothing of the long line or of what follows it is sent, even
    when the reader itself would have failed later. *)
Theorem adapters_stop_at_long_line
  (before : list string) (long rest : string) (err : option error) (events : chan) :
  Forall (fun l => stream.isLine l = true) before ->
  stream.hasLF long = false ->
  (bufio.MaxScanTokenSize <= N.of_nat (String.length long))%N ->
  let reader :=
    bufio.mkReader (stream.joinLines before ++ long ++ String LF rest) err in
  PassThroughAdapter_Process reader events
  = (events ++ map AssistantMessage before, Some ErrTooLong)
  /\ ClaudeAdapter_Process reader events
     = (fst (ClaudeAdapter_Process (stream.ofLines before None) events),
        Some (Wrapf "error reading Claude output" ErrTooLong))
  /\ CodexAdapter_Process reader events
     = (fst (CodexAdapter_Process (stream.ofLines before None) events),
        Some (Wrapf "error reading Codex output" ErrTooLong)).
Proof.
  intros Hb Hlf Hlong reader. subst reader.
  unfold PassThroughAdapter_Process, ClaudeAdapter_Process, CodexAdapter_Process.
  rewrite (@NewScanner_long before long rest err Hb Hlf Hlong).
  rewrite (NewScanner_ofLines None Hb).
  rewrite (forScan_sendsOnly PassThrough_sendsOnly). simpl.
  repeat split.
Qed.

Lemma adapters_stop_at_long_line_witness :
  Forall (fun l => stream.isLine l = true) ["first"]
  /\ stream.hasLF sample.longLine = false
  /\ (bufio.MaxScanTokenSize <= N.of_nat (String.length sample.longLine))%N
  /\ PassThroughAdapter_Process
       (bufio.mkReader
          (stream.joinLines ["first"] ++ sample.longLine ++ String LF "last") None) []
     = ([] ++ map AssistantMessage ["first"], Some ErrTooLong).
Proof.
  assert (H1 : Forall (fun l => stream.isLine l = true) ["first"])
    by (repeat constructor).
  assert (H2 : stream.hasLF sample.longLine = false) by (vm_compute; reflexivity).
  assert (H3 : (bufio.MaxScanTokenSize <= N.of_nat (String.length sample.longLine))%N)
    by (vm_compute; discriminate).
  split; [exact H1|]. split; [exact H2|]. split; [exact H3|].
  exact (proj1 (@adapters_stop_at_long_line ["first"] sample.longLine "last" None []
                  H1 H2 H3)).
Defined.

(** X3. The adapters keep no state from one line to the next: a stream
    of the lines [xs] followed by the lines [ys] yields the events of
    [xs] followed by the events of [ys] on their own. *)
Theorem adapters_compose (xs ys : list string) (events : chan) :
  Forall (fun l => stream.isLine l = true) (xs ++ ys) ->
  PassThroughAdapter_Process (stream.ofLines (xs ++ ys) None) events
  = PassThroughAdapter_Process (stream.ofLines ys None)
      (fst (PassThroughAdapter_Process (stream.ofLines xs None) events))
  /\ ClaudeAdapter_Process (stream.ofLines (xs ++ ys) None) events
     = ClaudeAdapter_Process (stream.ofLines ys None)
         (fst (ClaudeAdapter_Process (stream.ofLines xs None) events))
  /\ CodexAdapter_Process (stream.ofLines (xs ++ ys) None) events
     = CodexAdapter_Process (stream.ofLines ys None)
         (fst (CodexAdapter_Process (stream.ofLines xs None) events)).
Proof.
  intros H. pose proof H as H'. apply Forall_app in H' as [Hx Hy].
  split; [|split].
  - rewrite !PassThrough_ofLines by assumption. simpl.
    rewrite map_app, app_assoc. reflexivity.
  - rewrite !Claude_ofLines by assumption. simpl.
    rewrite flat_map_app, app_assoc. reflexivity.
  - rewrite !Codex_ofLines by assumption. simpl.
    rewrite flat_map_app, app_assoc. reflexivity.
Qed.

Lemma adapters_compose_witness :
  Forall (fun l => stream.isLine l = true)
    ([sq "{'type':'tool_use','name':'Read'}"] ++ [sq "{'type':'result'}"; "oops"])
  /\ ClaudeAdapter_Process
       (stream.ofLines
          ([sq "{'type':'tool_use','name':'Read'}"] ++ [sq "{'type':'result'}"; "oops"])
          None) []
     = ClaudeAdapter_Process (stream.ofLines [sq "{'type':'result'}"; "oops"] None)
         (fst (ClaudeAdapter_Process
                 (stream.ofLines [sq "{'type':'tool_use','name':'Read'}"] None) [])).
Proof.
  assert (H : Forall (fun l => stream.isLine l = true)
                ([sq "{'type':'tool_use','name':'Read'}"]
                   ++ [sq "{'type':'result'}"; "oops"])) by (repeat constructor).
  split; [exact H|].
  exact (proj1 (proj2 (@adapters_compose [sq "{'type':'tool_use','name':'Read'}"]
                         [sq "{'type':'result'}"; "oops"] [] H))).
Defined.

End AdapterStreams.

Section AdapterEvents.
Import adapter.

Lemma Forall_fold_send_if (A : Type) (P : Event -> Prop) (keep : A -> bool)
  (ev : A -> Event) (xs : list A) :
  (forall x, keep x = true -> P (ev x)) ->
  forall events : chan,
    Forall P events ->
    Forall P (fold_left (fun events x => if keep x then send events (ev x) else events)
                xs events).
Proof.
  intros Hkeep. induction xs as [|x xs IH]; intros events Hev; simpl.
  - exact Hev.
  - apply IH. destruct (keep x) eqn:Hk; [|exact Hev].
    apply Forall_app. split; [exact Hev | repeat constructor; apply Hkeep, Hk].
Qed.

Lemma Forall_flat_map (A B : Type) (P : B -> Prop) (f : A -> list B) (xs : list A) :
  (forall x, Forall P (f x)) -> Forall P (flat_map f xs).
Proof.
  intros H. induction xs as [|x xs IH]; simpl; [constructor|].
  apply Forall_app. split; [apply H | exact IH].
Qed.

Lemma negb_isEmpty_payload (s : string) (b : bool) :
  negb (isEmpty s) = true -> negb (isEmpty s) && b = b.
Proof. intros H. rewrite H. reflexivity. Qed.

Lemma Claude_line_events (line : string) :
  Forall (fun e => hasPayload e = true /\ isErrorEvent e = false)
    (ClaudeAdapter_line line []).
Proof.
  unfold ClaudeAdapter_line.
  destruct (isEmpty line); [constructor|].
  destruct (json.Unmarshal _ line _) as [event|]; [|constructor].
  destruct (String.eqb (ClaudeStreamEvent.Type' event) "assistant").
  { apply (@Forall_fold_send_if _
             (fun e => hasPayload e = true /\ isErrorEvent e = false)
             (fun content =>
                String.eqb (ClaudeContent.Type' content) "text"
                && negb (isEmpty (ClaudeContent.Text content)))
             (fun content => AssistantMessage (ClaudeContent.Text content)));
      [|constructor].
    intros content Hk. apply andb_true_iff in Hk as [_ Hk]. split; [exact Hk | reflexivity]. }
  destruct (String.eqb (ClaudeStreamEvent.Type' event) "tool_use").
  { destruct (negb (isEmpty (ClaudeStreamEvent.Name event))) eqn:Hn; [|constructor].
    repeat constructor. exact Hn. }
  destruct (String.eqb (ClaudeStreamEvent.Type' event) "result"); [constructor|].
  destruct (String.eqb (ClaudeStreamEvent.Type' event) "stream_event"); [|constructor].
  destruct (String.eqb _ "text_delta" && negb (isEmpty _)) eqn:Hd; [|constructor].
  apply andb_true_iff in Hd as [_ Hd]. repeat constructor. exact Hd.
Qed.

Lemma negb_isEmpty_true (s : string) : negb (isEmpty s) = true -> s <> EmptyString.
Proof. destruct s; [discriminate | discriminate]. Qed.

Lemma Codex_line_events (line : string) : CodexLineEvents (CodexAdapter_line line []).
Proof.
  unfold CodexAdapter_line.
  destruct (isEmpty line) eqn:Hl; [constructor|].
  destruct (json.Unmarshal _ line _) as [event|].
  2:{ apply CodexMessage. destruct line; [discriminate Hl | discriminate]. }
  destruct (negb (isEmpty (CodexEvent.Error event))) eqn:He.
  { apply CodexError, negb_isEmpty_true, He. }
  destruct (negb (isEmpty (CodexEvent.Tool event))) eqn:Ht;
    destruct (negb (isEmpty (CodexEvent.Content event))) eqn:H1;
    [| destruct (negb (isEmpty (CodexEvent.Text event))) eqn:H2;
       [| destruct (negb (isEmpty (CodexEvent.Message event))) eqn:H3]
     | | destruct (negb (isEmpty (CodexEvent.Text event))) eqn:H2;
       [| destruct (negb (isEmpty (CodexEvent.Message event))) eqn:H3]];
    simpl; rewrite ?H1, ?H2, ?H3; simpl;
      first [ apply CodexToolMessage; apply negb_isEmpty_true; assumption
            | apply CodexTool; apply negb_isEmpty_true; assumption
            | apply CodexMessage; apply negb_isEmpty_true; assumption
            | apply CodexNothing ].
Qed.

(** X4. Whatever the stream, the Claude and Codex adapters never send
    an event with an empty text (tool name, message or error message),
    and the Claude adapter never sends an Error event. *)
Theorem structured_adapters_send_no_empty_event (reader : bufio.Reader) :
  Forall (fun e => hasPayload e = true /\ isErrorEvent e = false)
    (fst (ClaudeAdapter_Process reader []))
  /\ Forall (fun e => hasPayload e = true) (fst (CodexAdapter_Process reader [])).
Proof.
  split.
  - unfold ClaudeAdapter_Process.
    rewrite (forScan_sendsOnly Claude_sendsOnly).
    destruct (bufio.Err (bufio.NewScanner reader)); simpl;
      apply Forall_flat_map, Claude_line_events.
  - unfold CodexAdapter_Process.
    rewrite (forScan_sendsOnly Codex_sendsOnly).
    assert (H : Forall (fun e => hasPayload e = true)
                  (flat_map (fun line => CodexAdapter_line line [])
                     (bufio.pending (bufio.NewScanner reader)))).
    { apply Forall_flat_map. intros line.
      destruct (Codex_line_events line) as [|m Hm|t Ht|n Hn|n t Hn Ht];
        repeat constructor; simpl;
          try (destruct m; [congruence | reflexivity]);
          try (destruct t; [congruence | reflexivity]);
          try (destruct n; [congruence | reflexivity]). }
    destruct (bufio.Err (bufio.NewScanner reader)); simpl; exact H.
Qed.

(** X5. For one line the Codex adapter sends at most two events: an
    Error event is the only event of its line, and a ToolUse comes
    before the AssistantMessage of the same line. *)
Theorem codex_line_sends_at_most_two (line : string) (events : chan) :
  exists sent : list Event,
    CodexAdapter_line line events = events ++ sent
    /\ List.length sent <= 2
    /\ (forall message, In (Error message) sent -> sent = [Error message])
    /\ (forall name input text,
           In (ToolUse name input) sent -> In (AssistantMessage text) sent ->
           sent = [ToolUse name input; AssistantMessage text]).
Proof.
  exists (CodexAdapter_line line []). split; [apply Codex_sendsOnly|].
  destruct (Codex_line_events line) as [|m Hm|t Ht|n Hn|n t Hn Ht]; simpl;
    (split; [repeat constructor|]); split;
      intros; repeat match goal with
                     | H : _ \/ _ |- _ => destruct H
                     | H : False |- _ => contradiction
                     | H : _ = _ |- _ => inversion H; clear H; subst
                     end; reflexivity.
Qed.








End AdapterEvents.

(* ===================================================================== *)
(** * The adapters on whole streams: claims C4, C5 and C6 *)
(* ===================================================================== *)

Section StreamPieces.
Import adapter.
















End StreamPieces.

Section AdapterStreamClaims.
Import adapter.



























End AdapterStreamClaims.

(* ===================================================================== *)
(** * More on the loop controller *)
(* ===================================================================== *)

Section RunnerLoop.
Import agent config runner.

(** What a turn leaves of the runner: the fields set by [New] stay;
    a turn that returns has set the exit reason of its exit code, one
    that goes on has left the reason as it was. *)
Lemma turn_frame (r : Runner) (p : Pass) :
  match turn r p with
  | Return c r' =>
    ExitReason (metrics r') = ExitReasonString c
    /\ (c = ExitSuccess \/ c = ExitMaxIterations \/ c = ExitStuck \/ c = ExitInterrupt)
  | Continue r' =>
    ExitReason (metrics r') = ExitReason (metrics r)
    /\ runner.config r' = runner.config r /\ prompt r' = prompt r
    /\ runner.agent r' = runner.agent r /\ maxIters r' = maxIters r
    /\ singleRun r' = singleRun r /\ singleRun r = false
  end.
Proof.
  unfold turn.
  destruct (interrupted p); [simpl; auto|].
  destruct ((maxIters r >? 0)%Z && (Iterations (metrics r) >=? maxIters r)%Z);
    [simpl; auto|].
  simpl.
  destruct (RunIteration _ _ _ _ _ _) as [c e]. simpl.
  destruct (changes p) as [b [err|]]; simpl;
    repeat match goal with
           | |- context [if ?c then _ else _] => destruct c eqn:?; simpl
           end; auto 10.
Qed.

Lemma Run_frame (script : list Pass) :
  forall r : Runner,
    match Run r script with
    | Exited c r' rest =>
      ExitReason (metrics r') = ExitReasonString c
      /\ (c = ExitSuccess \/ c = ExitMaxIterations \/ c = ExitStuck \/ c = ExitInterrupt)
      /\ exists used, used <> [] /\ script = used ++ rest
    | Running r' => ExitReason (metrics r') = ExitReason (metrics r)
    end.
Proof.
  induction script as [|p script IH]; intros r; simpl; [reflexivity|].
  pose proof (turn_frame r p) as Ht.
  destruct (turn r p) as [c r'|r'].
  - destruct Ht as [Hr Hc]. split; [exact Hr|]. split; [exact Hc|].
    exists [p]. split; [discriminate | reflexivity].
  - destruct Ht as (Hr & _). specialize (IH r').
    destruct (Run r' script) as [c r'' rest|r''].
    + destruct IH as (H1 & H2 & used & Hu & ->). split; [exact H1|]. split; [exact H2|].
      exists (p :: used). split; [discriminate | reflexivity].
    + congruence.
Qed.

(** X7. However a run ends, the exit reason it has recorded is the text
    of the exit code it returns, the code is one of Success,
    MaxIterations, Stuck and Interrupt, and at least one answer of the
    world was used; the texts of different codes differ. While a run
    has not ended, the recorded reason is untouched. *)
Theorem Run_exit_reason :
  (forall (r r' : Runner) (script rest : list Pass) (c : ExitCode),
      Run r script = Exited c r' rest ->
      ExitReason (metrics r') = ExitReasonString c
      /\ c <> ExitError /\ c <> ExitSafety
      /\ exists used, used <> [] /\ script = used ++ rest)
  /\ (forall (r r' : Runner) (script : list Pass),
         Run r script = Running r' ->
         ExitReason (metrics r') = ExitReason (metrics r))
  /\ (forall c1 c2 : ExitCode,
         ExitReasonString c1 = ExitReasonString c2 -> c1 = c2).
Proof.
  split; [|split].
  - intros r r' script rest c H. pose proof (Run_frame script r) as Hf.
    rewrite H in Hf. destruct Hf as (H1 & H2 & H3).
    split; [exact H1|].
    repeat split; try exact H3;
      intros ->; destruct H2 as [H2|[H2|[H2|H2]]]; discriminate H2.
  - intros r r' script H. pose proof (Run_frame script r) as Hf.
    rewrite H in Hf. exact Hf.
  - intros c1 c2 H. destruct c1, c2; try reflexivity; vm_compute in H; discriminate H.
Qed.

Lemma Run_exit_reason_witness :
  exists r' : Runner,
    Run (New (sample.cfg 3 EmptyString) "fix the bug" claude true 0)
      [sample.commitsOncePass;
       mkPass true sample.commitsOnce (Ok "main") None (false, None);
       sample.editsOnlyPass]
    = Exited ExitInterrupt r' [sample.editsOnlyPass]
    /\ ExitReason (metrics r') = ExitReasonString ExitInterrupt
    /\ Iterations (metrics r') = 1%Z.
Proof.
  eexists. split; [vm_compute; reflexivity|]. split; [|reflexivity].
  refine (proj1 (proj1 Run_exit_reason
                   (New (sample.cfg 3 EmptyString) "fix the bug" claude true 0) _
                   [sample.commitsOncePass;
                    mkPass true sample.commitsOnce (Ok "main") None (false, None);
                    sample.editsOnlyPass]
                   [sample.editsOnlyPass] ExitInterrupt _)).
  vm_compute; reflexivity.
Defined.

End RunnerLoop.

Section RunnerBounds.
Import agent config runner.

(** The number of iterations after a turn: unchanged when the turn is
    stopped by an interrupt or by the cap, one more otherwise. *)
Lemma turn_Iterations (r : Runner) (p : Pass) :
  (interrupted p = true /\ turn r p = exitWith ExitInterrupt r)
  \/ (interrupted p = false
      /\ (0 < maxIters r <= Iterations (metrics r))%Z
      /\ turn r p = exitWith ExitMaxIterations r)
  \/ (interrupted p = false
      /\ (maxIters r <= 0 \/ Iterations (metrics r) < maxIters r)%Z
      /\ exists r', (turn r p = Continue r' \/ exists c, turn r p = Return c r')
                    /\ Iterations (metrics r') = int.add (Iterations (metrics r)) 1
                    /\ maxIters r' = maxIters r).
Proof.
  destruct (interrupted p) eqn:Hi.
  { left. split; [reflexivity|]. unfold turn. rewrite Hi. reflexivity. }
  right.
  destruct ((maxIters r >? 0)%Z && (Iterations (metrics r) >=? maxIters r)%Z) eqn:Hcap.
  { left. split; [reflexivity|].
    apply andb_true_iff in Hcap as [H1 H2].
    apply Z.gtb_lt in H1. rewrite Z.geb_leb in H2. apply Z.leb_le in H2.
    split; [lia|]. unfold turn. rewrite Hi.
    replace ((maxIters r >? 0)%Z && (Iterations (metrics r) >=? maxIters r)%Z)
      with true.
    - reflexivity.
    - symmetry. apply andb_true_iff. split.
      + apply Z.gtb_lt. lia.
      + rewrite Z.geb_leb. apply Z.leb_le. lia. }
  right. split; [reflexivity|]. split.
  { apply andb_false_iff in Hcap as [H|H].
    - left. rewrite Z.gtb_ltb in H. apply Z.ltb_ge in H. exact H.
    - right. rewrite Z.geb_leb in H. apply Z.leb_gt in H. exact H. }
  destruct (RunIteration (world p) (runner.agent r) (prompt r) (Model (runner.config r))
              (Verify (runner.config r)) (negb (singleRun r))) as [c e] eqn:Hrun.
  rewrite (turn_runs r p Hi Hcap Hrun). cbv zeta.
  repeat match goal with
         | |- context [if ?c then _ else _] => destruct c eqn:?
         end;
    eexists; (split; [first [left; reflexivity | right; eexists; reflexivity]|]);
      split; reflexivity.
Qed.

Lemma Run_cap (n : Z) (script : list Pass) :
  (0 < n <= int.max)%Z ->
  forall r : Runner,
    maxIters r = n ->
    (0 <= Iterations (metrics r) <= n)%Z ->
    (0 <= Iterations (metrics (runnerOf (Run r script))) <= n)%Z
    /\ ((n - Iterations (metrics r) < Z.of_nat (List.length script))%Z ->
        exists c r' rest, Run r script = Exited c r' rest).
Proof.
  intros Hn. induction script as [|p script IH]; intros r Hmax Hit.
  - simpl. split; [exact Hit | lia].
  - simpl Run.
    destruct (turn_Iterations r p)
      as [[_ Ht] | [(_ & _ & Ht) | (_ & Hlt & r' & Ht & Hit' & Hmax')]].
    + rewrite Ht. unfold exitWith. simpl. split; [exact Hit|].
      intros _. eexists. eexists. eexists. reflexivity.
    + rewrite Ht. unfold exitWith. simpl. split; [exact Hit|].
      intros _. eexists. eexists. eexists. reflexivity.
    + assert (Hstep : Iterations (metrics r') = (Iterations (metrics r) + 1)%Z).
      { rewrite Hit'. apply int_add_exact.
        unfold int.inRange, int.min, int.max in *. lia. }
      destruct Ht as [Ht | [c Ht]]; rewrite Ht.
      * destruct (IH r') as [H1 H2]; [congruence | lia |].
        split; [exact H1|]. intros Hlen. apply H2.
        simpl List.length in Hlen. lia.
      * simpl. split; [lia|]. intros _. eexists. eexists. eexists. reflexivity.
Qed.

(** X8. The iteration cap. With a cap of n iterations (n > 0), a run
    never counts more than n iterations, and it has ended once the
    world has been asked n + 1 times: a script longer than n always
    ends the run. *)
Theorem Run_respects_max_iterations
  (cfg : Config) (prompt : string) (ag : Agent) (chooChoo : bool) (n : Z)
  (script : list Pass) :
  (0 < n <= int.max)%Z ->
  (0 <= Iterations (metrics (runnerOf (Run (New cfg prompt ag chooChoo n) script)))
   <= n)%Z
  /\ ((n < Z.of_nat (List.length script))%Z ->
      exists c r rest, Run (New cfg prompt ag chooChoo n) script = Exited c r rest).
Proof.
  intros Hn.
  destruct (@Run_cap n script Hn (New cfg prompt ag chooChoo n)) as [H1 H2];
    [reflexivity | simpl; lia |].
  split; [exact H1|]. intros Hlen. apply H2. simpl. lia.
Qed.

Lemma Run_respects_max_iterations_witness :
  (0 < 2 <= int.max)%Z
  /\ (2 < Z.of_nat (List.length [sample.commitsOncePass; sample.commitsOncePass;
                                 sample.commitsOncePass]))%Z
  /\ exists c r rest,
      Run (New (sample.cfg 3 EmptyString) "fix the bug" claude true 2)
        [sample.commitsOncePass; sample.commitsOncePass; sample.commitsOncePass]
      = Exited c r rest.
Proof.
  assert (Hn : (0 < 2 <= int.max)%Z) by (unfold int.max; lia).
  split; [exact Hn|].
  assert (Hlen : (2 < Z.of_nat (List.length [sample.commitsOncePass;
                                             sample.commitsOncePass;
                                             sample.commitsOncePass]))%Z)
    by (simpl; lia).
  split; [exact Hlen|].
  exact (proj2 (@Run_respects_max_iterations (sample.cfg 3 EmptyString) "fix the bug"
                  claude true 2
                  [sample.commitsOncePass; sample.commitsOncePass;
                   sample.commitsOncePass] Hn) Hlen).
Defined.

End RunnerBounds.

Section RunnerStuck.
Import agent config runner.

Lemma cap_not_reached (m it : Z) :
  (m <= 0 \/ it < m)%Z -> ((m >? 0)%Z && (it >=? m)%Z) = false.
Proof.
  intros [H|H]; apply andb_false_iff.
  - left. rewrite Z.gtb_ltb. apply Z.ltb_ge. exact H.
  - right. rewrite Z.geb_leb. apply Z.leb_gt. exact H.
Qed.

(** A looping run that meets as many stuck passes as its counter is
    short of the threshold. *)
Lemma Run_stuck_passes (passes : list Pass) :
  forall (r : Runner) (rest : list Pass),
    singleRun r = false ->
    passes <> [] ->
    Forall (stuckPass r) passes ->
    (0 <= iterationsWithoutCommit r)%Z ->
    (iterationsWithoutCommit r + Z.of_nat (List.length passes)
     = StuckThreshold (runner.config r))%Z ->
    (StuckThreshold (runner.config r) <= int.max)%Z ->
    (0 <= Iterations (metrics r))%Z ->
    (Iterations (metrics r) + Z.of_nat (List.length passes) <= int.max)%Z ->
    (maxIters r <= 0
     \/ Iterations (metrics r) + Z.of_nat (List.length passes) <= maxIters r)%Z ->
    exists r' : Runner,
      Run r (passes ++ rest) = Exited ExitStuck r' rest
      /\ Iterations (metrics r')
         = (Iterations (metrics r) + Z.of_nat (List.length passes))%Z.
Proof.
  induction passes as [|p passes IH]; intros r rest Hloop Hne Hst Hc0 Hth Hmaxth Hi0 Himax Hcap;
    [congruence|].
  inversion Hst as [|? ? (Hi & Hc & Hch) Hst']; subst.
  destruct (RunIteration (world p) (runner.agent r) (prompt r) (Model (runner.config r))
              (Verify (runner.config r)) true) as [c e] eqn:Hrun.
  simpl in Hc. subst c.
  assert (Hlen : (0 <= Z.of_nat (List.length passes))%Z) by lia.
  simpl List.length in *. rewrite Nat2Z.inj_succ in *.
  assert (Hcapb : ((maxIters r >? 0)%Z && (Iterations (metrics r) >=? maxIters r)%Z)
                  = false) by (apply cap_not_reached; lia).
  assert (Hrun' : RunIteration (world p) (runner.agent r) (prompt r)
                    (Model (runner.config r)) (Verify (runner.config r))
                    (negb (singleRun r)) = (0%Z, e))
    by (rewrite Hloop; exact Hrun).
  simpl app. simpl Run.
  rewrite (turn_runs r p Hi Hcapb Hrun'). rewrite Hch, Hloop. cbv zeta. simpl andb.
  cbv iota.
  rewrite (int_add_exact (iterationsWithoutCommit r) 1)
    by (unfold int.inRange, int.min, int.max in *; lia).
  rewrite (int_add_exact (Iterations (metrics r)) 1)
    by (unfold int.inRange, int.min, int.max in *; lia).
  destruct passes as [|p' passes'].
  - simpl in Hth.
    replace (iterationsWithoutCommit r + 1 >=? StuckThreshold (runner.config r))%Z
      with true by (symmetry; rewrite Z.geb_leb; apply Z.leb_le; lia).
    eexists. split; [reflexivity|]. simpl. lia.
  - replace (iterationsWithoutCommit r + 1 >=? StuckThreshold (runner.config r))%Z
      with false
      by (symmetry; rewrite Z.geb_leb; apply Z.leb_gt;
          simpl List.length in Hth; lia).
    match goal with
    | |- context [Run ?x _] => set (r1 := x)
    end.
    simpl List.length in Hth, Himax, Hcap, IH.
    destruct (IH r1 rest) as (r' & Hr' & Hit').
    + exact Hloop.
    + discriminate.
    + exact Hst'.
    + subst r1. simpl. lia.
    + subst r1. simpl. lia.
    + exact Hmaxth.
    + subst r1. simpl. lia.
    + subst r1. simpl. lia.
    + subst r1. simpl. lia.
    + eexists. split; [exact Hr'|]. rewrite Hit'. subst r1. simpl. lia.
Qed.

(** X9. For every stuck threshold T >= 1, a looping run that meets T
    passes in a row, each without commit and with uncommitted changes,
    ends with Stuck after exactly T iterations, leaving the later
    answers of the world unused. The T iterations run when no
    interrupt is seen before them and the cap, if set, is at least T. *)
Theorem stuck_after_threshold_iterations
  (cfg : Config) (prompt : string) (ag : Agent) (maxIters : Z)
  (passes rest : list Pass) :
  passes <> [] ->
  StuckThreshold cfg = Z.of_nat (List.length passes) ->
  (StuckThreshold cfg <= int.max)%Z ->
  (maxIters <= 0 \/ StuckThreshold cfg <= maxIters)%Z ->
  Forall (stuckPass (New cfg prompt ag true maxIters)) passes ->
  exists r : Runner,
    Run (New cfg prompt ag true maxIters) (passes ++ rest) = Exited ExitStuck r rest
    /\ Iterations (metrics r) = StuckThreshold cfg.
Proof.
  intros Hne Hth Hmax Hcap Hst.
  destruct (@Run_stuck_passes passes (New cfg prompt ag true maxIters) rest)
    as (r & Hr & Hit); simpl; try assumption; try lia; try reflexivity.
  exists r. split; [exact Hr|]. simpl in Hit. lia.
Qed.

Lemma stuck_after_threshold_iterations_witness :
  StuckThreshold (sample.cfg 3 EmptyString)
  = Z.of_nat (List.length [sample.editsOnlyPass; sample.editsOnlyPass;
                           sample.editsOnlyPass])
  /\ Forall (stuckPass (New (sample.cfg 3 EmptyString) "fix the bug" claude true 0))
       [sample.editsOnlyPass; sample.editsOnlyPass; sample.editsOnlyPass]
  /\ exists r : Runner,
      Run (New (sample.cfg 3 EmptyString) "fix the bug" claude true 0)
        ([sample.editsOnlyPass; sample.editsOnlyPass; sample.editsOnlyPass]
           ++ [sample.commitsOncePass])
      = Exited ExitStuck r [sample.commitsOncePass]
      /\ Iterations (metrics r) = StuckThreshold (sample.cfg 3 EmptyString).
Proof.
  assert (Hst : Forall (stuckPass (New (sample.cfg 3 EmptyString) "fix the bug"
                                     claude true 0))
                  [sample.editsOnlyPass; sample.editsOnlyPass; sample.editsOnlyPass]).
  { repeat constructor. }
  split; [reflexivity|]. split; [exact Hst|].
  apply (@stuck_after_threshold_iterations (sample.cfg 3 EmptyString) "fix the bug"
           claude 0
           [sample.editsOnlyPass; sample.editsOnlyPass; sample.editsOnlyPass]
           [sample.commitsOncePass]).
  - discriminate.
  - reflexivity.
  - unfold int.max. simpl. lia.
  - left. lia.
  - exact Hst.
Defined.

(** X10. A pass that makes commits resets the stuck counter, whatever
    it was: a looping run that meets such a pass and then T passes in a
    row without commit and with uncommitted changes, T being the stuck
    threshold, goes on after the first and ends with Stuck exactly T
    iterations later. *)
Theorem commit_resets_stuck_counter
  (r : Runner) (p : Pass) (passes rest : list Pass) :
  singleRun r = false ->
  interrupted p = false ->
  (0 < fst (RunIteration (world p) (runner.agent r) (prompt r)
              (Model (runner.config r)) (Verify (runner.config r)) true))%Z ->
  passes <> [] ->
  Forall (stuckPass r) passes ->
  StuckThreshold (runner.config r) = Z.of_nat (List.length passes) ->
  (0 <= Iterations (metrics r))%Z ->
  (Iterations (metrics r) + 1 + Z.of_nat (List.length passes) <= int.max)%Z ->
  (maxIters r <= 0
   \/ Iterations (metrics r) + 1 + Z.of_nat (List.length passes) <= maxIters r)%Z ->
  exists r1 r2 : Runner,
    turn r p = Continue r1
    /\ iterationsWithoutCommit r1 = 0%Z
    /\ Run r (p :: passes ++ rest) = Exited ExitStuck r2 rest
    /\ Iterations (metrics r2)
       = (Iterations (metrics r) + 1 + Z.of_nat (List.length passes))%Z.
Proof.
  intros Hloop Hi Hc Hne Hst Hth Hi0 Himax Hcap.
  destruct (RunIteration (world p) (runner.agent r) (prompt r) (Model (runner.config r))
              (Verify (runner.config r)) true) as [c e] eqn:Hrun.
  simpl in Hc.
  assert (Hcapb : ((maxIters r >? 0)%Z && (Iterations (metrics r) >=? maxIters r)%Z)
                  = false) by (apply cap_not_reached; lia).
  assert (Hrun' : RunIteration (world p) (runner.agent r) (prompt r)
                    (Model (runner.config r)) (Verify (runner.config r))
                    (negb (singleRun r)) = (c, e))
    by (rewrite Hloop; exact Hrun).
  assert (Hturn : turn r p
                  = Continue
                      (setIterationsWithoutCommit
                         (setMetrics r (mkMetrics (int.add (Iterations (metrics r)) 1)
                                          (int.add (Commits (metrics r)) c)
                                          (ExitReason (metrics r)))) 0)).
  { rewrite (turn_runs r p Hi Hcapb Hrun'). cbv zeta. rewrite Hloop.
    replace (c =? 0)%Z with false by (symmetry; apply Z.eqb_neq; lia).
    replace (c >? 0)%Z with true by (symmetry; apply Z.gtb_lt; lia).
    rewrite !andb_false_r. reflexivity. }
  rewrite (int_add_exact (Iterations (metrics r)) 1) in Hturn
    by (unfold int.inRange, int.min, int.max in *; lia).
  match type of Hturn with
  | _ = Continue ?x => set (r1 := x) in *
  end.
  destruct (@Run_stuck_passes passes r1 rest) as (r2 & Hr2 & Hit2).
  - exact Hloop.
  - exact Hne.
  - exact Hst.
  - subst r1. simpl. lia.
  - subst r1. simpl. lia.
  - subst r1. simpl. lia.
  - subst r1. simpl. lia.
  - subst r1. simpl. lia.
  - subst r1. simpl. lia.
  - exists r1, r2. split; [exact Hturn|]. split; [reflexivity|].
    simpl Run. rewrite Hturn. split; [exact Hr2|].
    rewrite Hit2. subst r1. simpl. lia.
Qed.

Lemma commit_resets_stuck_counter_witness :
  iterationsWithoutCommit
    (mkRunner (sample.cfg 2 EmptyString) "fix the bug" claude 0 false
       (mkMetrics 5 1 EmptyString) 1) = 1%Z
  /\ exists r1 r2 : Runner,
      turn (mkRunner (sample.cfg 2 EmptyString) "fix the bug" claude 0 false
              (mkMetrics 5 1 EmptyString) 1) sample.commitsOncePass
      = Continue r1
      /\ iterationsWithoutCommit r1 = 0%Z
      /\ Run (mkRunner (sample.cfg 2 EmptyString) "fix the bug" claude 0 false
                (mkMetrics 5 1 EmptyString) 1)
           (sample.commitsOncePass
              :: [sample.editsOnlyPass; sample.editsOnlyPass] ++ [])
         = Exited ExitStuck r2 []
      /\ Iterations (metrics r2)
         = (5 + 1 + Z.of_nat (List.length [sample.editsOnlyPass;
                                           sample.editsOnlyPass]))%Z.
Proof.
  split; [reflexivity|].
  apply (@commit_resets_stuck_counter
           (mkRunner (sample.cfg 2 EmptyString) "fix the bug" claude 0 false
              (mkMetrics 5 1 EmptyString) 1)
           sample.commitsOncePass [sample.editsOnlyPass; sample.editsOnlyPass] []).
  - reflexivity.
  - reflexivity.
  - vm_compute; reflexivity.
  - discriminate.
  - repeat constructor.
  - reflexivity.
  - simpl; lia.
  - unfold int.max; simpl; lia.
  - left. simpl; lia.
Defined.

(** X11. When the adapter fails during a pass, RunIteration returns
    zero commits and the adapter's error, whatever the commit counts
    are; if git then reports no uncommitted changes, the turn ends the
    run with Success, the commits of that pass uncounted. *)
Theorem adapter_failure_hides_commits
  (r : Runner) (p : Pass) (before : Z) (err : error) :
  interrupted p = false ->
  (maxIters r <= 0 \/ Iterations (metrics r) < maxIters r)%Z ->
  commitsBefore (world p) = Ok before ->
  BuildCommand (runner.agent r) (prompt r) (Model (runner.config r))
    (negb (singleRun r)) <> [] ->
  stdoutPipe (world p) = None -> stderrPipe (world p) = None ->
  start (world p) = None ->
  snd (adapterImpl (runner.agent r)
         (io.MultiReader (stdout (world p)) (stderr (world p))) []) = Some err ->
  changes p = (false, None) ->
  RunIteration (world p) (runner.agent r) (prompt r) (Model (runner.config r))
    (Verify (runner.config r)) (negb (singleRun r))
  = (0%Z, Some (Wrapf "adapter error" err))
  /\ turn r p
     = exitWith ExitSuccess
         (setMetrics r (mkMetrics (int.add (Iterations (metrics r)) 1)
                          (int.add (Commits (metrics r)) 0)
                          (ExitReason (metrics r)))).
Proof.
  intros Hi Hcap Hb Hcmd Hout Herr Hstart Had Hch.
  assert (Hrun : RunIteration (world p) (runner.agent r) (prompt r)
                   (Model (runner.config r)) (Verify (runner.config r))
                   (negb (singleRun r))
                 = (0%Z, Some (Wrapf "adapter error" err))).
  { unfold RunIteration. rewrite Hb.
    destruct (BuildCommand _ _ _ _) as [|arg0 args]; [congruence|].
    simpl. rewrite Hout, Herr, Hstart.
    destruct (adapterImpl _ _ _) as [events adapterErr].
    simpl in Had. subst adapterErr. reflexivity. }
  split; [exact Hrun|].
  rewrite (turn_runs r p Hi (cap_not_reached Hcap) Hrun). rewrite Hch. reflexivity.
Qed.

Lemma adapter_failure_hides_commits_witness :
  commitsBefore (world sample.commitsThenLongLinePass) = Ok 3%Z
  /\ commitsAfter (world sample.commitsThenLongLinePass) = Ok 4%Z
  /\ snd (adapterImpl gemini
            (io.MultiReader (stdout (world sample.commitsThenLongLinePass))
               (stderr (world sample.commitsThenLongLinePass))) [])
     = Some ErrTooLong
  /\ RunIteration (world sample.commitsThenLongLinePass) gemini "fix the bug"
       EmptyString EmptyString true
     = (0%Z, Some (Wrapf "adapter error" ErrTooLong))
  /\ turn (New (sample.cfg 3 EmptyString) "fix the bug" gemini true 0)
       sample.commitsThenLongLinePass
     = exitWith ExitSuccess
         (setMetrics (New (sample.cfg 3 EmptyString) "fix the bug" gemini true 0)
            (mkMetrics (int.add 0 1) (int.add 0 0) EmptyString)).
Proof.
  assert (Had : snd (adapterImpl gemini
                       (io.MultiReader (stdout (world sample.commitsThenLongLinePass))
                          (stderr (world sample.commitsThenLongLinePass))) [])
                = Some ErrTooLong) by (vm_compute; reflexivity).
  split; [reflexivity|]. split; [reflexivity|]. split; [exact Had|].
  apply (@adapter_failure_hides_commits
           (New (sample.cfg 3 EmptyString) "fix the bug" gemini true 0)
           sample.commitsThenLongLinePass 3%Z ErrTooLong).
  - reflexivity.
  - left. simpl. lia.
  - reflexivity.
  - vm_compute. discriminate.
  - reflexivity.
  - reflexivity.
  - reflexivity.
  - exact Had.
  - reflexivity.
Defined.

(** X12. RunIteration returns no error exactly when both commit counts
    are read, the command is not empty, the pipes and the start
    succeed, the adapter reports no error, the status listing is read
    and the verification, if one is configured, passes; it then returns
    the difference of the counts. How the agent exits plays no part. *)
Theorem RunIteration_succeeds_iff
  (w : World) (ag : Agent) (prompt model verify : string) (autonomous : bool) :
  (snd (RunIteration w ag prompt model verify autonomous) = None
   <-> exists before after : Z,
       commitsBefore w = Ok before
       /\ BuildCommand ag prompt model autonomous <> []
       /\ stdoutPipe w = None /\ stderrPipe w = None /\ start w = None
       /\ snd (adapterImpl ag (io.MultiReader (stdout w) (stderr w)) []) = None
       /\ commitsAfter w = Ok after
       /\ snd (git.GetChangedFiles (status w)) = None
       /\ (verify = EmptyString \/ verifyRun w = None))
  /\ (forall before after : Z,
         snd (RunIteration w ag prompt model verify autonomous) = None ->
         commitsBefore w = Ok before -> commitsAfter w = Ok after ->
         fst (RunIteration w ag prompt model verify autonomous) = int.sub after before).
Proof.
  unfold RunIteration. split; [split|].
  - destruct (commitsBefore w) as [before|e0]; [|discriminate].
    destruct (BuildCommand ag prompt model autonomous) as [|arg0 args] eqn:Hcmd;
      [discriminate|].
    simpl.
    destruct (stdoutPipe w); [discriminate|].
    destruct (stderrPipe w); [discriminate|].
    destruct (start w); [discriminate|].
    destruct (adapterImpl ag (io.MultiReader (stdout w) (stderr w)) [])
      as [events [e1|]]; [discriminate|].
    destruct (commitsAfter w) as [after|e2]; [|discriminate].
    destruct (git.GetChangedFiles (status w)) as [counts [e3|]]; [discriminate|].
    destruct verify as [|c verify']; simpl.
    + intros _. exists before, after. repeat split; try discriminate. left. reflexivity.
    + destruct (verifyRun w); [discriminate|].
      intros _. exists before, after. repeat split; try discriminate. right. reflexivity.
  - intros (before & after & Hb & Hcmd & Ho & He & Hs & Had & Ha & Hg & Hv).
    rewrite Hb.
    destruct (BuildCommand ag prompt model autonomous) as [|arg0 args]; [congruence|].
    simpl. rewrite Ho, He, Hs.
    destruct (adapterImpl ag (io.MultiReader (stdout w) (stderr w)) [])
      as [events adapterErr]. simpl in Had. subst adapterErr.
    rewrite Ha.
    destruct (git.GetChangedFiles (status w)) as [counts gitErr]. simpl in Hg. subst gitErr.
    destruct Hv as [->|Hv]; [reflexivity|].
    destruct verify; simpl; [reflexivity|]. rewrite Hv. reflexivity.
  - intros before after H Hb Ha. revert H. rewrite Hb.
    destruct (BuildCommand ag prompt model autonomous) as [|arg0 args]; [discriminate|].
    simpl.
    destruct (stdoutPipe w); [discriminate|].
    destruct (stderrPipe w); [discriminate|].
    destruct (start w); [discriminate|].
    destruct (adapterImpl ag (io.MultiReader (stdout w) (stderr w)) [])
      as [events [e1|]]; [discriminate|].
    rewrite Ha.
    destruct (git.GetChangedFiles (status w)) as [counts [e3|]]; [discriminate|].
    destruct verify as [|c verify']; simpl; [reflexivity|].
    destruct (verifyRun w); [discriminate | reflexivity].
Qed.

End RunnerStuck.

(* ===================================================================== *)
(** * The edit distance of the agent package *)
(* ===================================================================== *)

Section LevenshteinFacts.
Import agent.

Lemma min_spec (a b c : Z) : agent.min a b c = Z.min (Z.min a b) c.
Proof.
  unfold agent.min.
  destruct (Z.ltb_spec a b), (Z.ltb_spec a c), (Z.ltb_spec b c); lia.
Qed.

Lemma update_length (A : Type) (l : list A) (i : nat) (x : A) :
  List.length (update l i x) = List.length l.
Proof.
  revert i. induction l as [|h t IH]; intros [|i]; simpl; auto.
Qed.

Lemma nth_update_same (A : Type) (l : list A) (i : nat) (x d : A) :
  i < List.length l -> nth i (update l i x) d = x.
Proof.
  revert i. induction l as [|h t IH]; intros [|i] H; simpl in *; try lia; auto.
  apply IH. lia.
Qed.

Lemma nth_update_other (A : Type) (l : list A) (i j : nat) (x d : A) :
  i <> j -> nth j (update l i x) d = nth j l d.
Proof.
  revert i j. induction l as [|h t IH]; intros [|i] [|j] H; simpl; auto; try lia.
Qed.

Lemma get_set_same (m : matrix) (i j : nat) (v : Z) :
  i < List.length m -> j < List.length (nth i m []) -> get (set m i j v) i j = v.
Proof.
  intros Hi Hj. unfold get, set.
  rewrite nth_update_same by exact Hi. apply nth_update_same, Hj.
Qed.

Lemma get_set_other (m : matrix) (i j i' j' : nat) (v : Z) :
  i < List.length m -> (i', j') <> (i, j) -> get (set m i j v) i' j' = get m i' j'.
Proof.
  intros Hi Hne. unfold get, set.
  destruct (Nat.eq_dec i i') as [<-|Hii].
  - rewrite nth_update_same by exact Hi.
    apply nth_update_other. intros <-. apply Hne. reflexivity.
  - rewrite nth_update_other by exact Hii. reflexivity.
Qed.

Lemma shaped_set (la lb : nat) (m : matrix) (i j : nat) (v : Z) :
  shaped la lb m -> shaped la lb (set m i j v).
Proof.
  intros [Hl Hr]. unfold set. split.
  - rewrite update_length. exact Hl.
  - intros i' Hi'. destruct (Nat.eq_dec i i') as [<-|Hii].
    + rewrite nth_update_same by lia. rewrite update_length. apply Hr, Hi'.
    + rewrite nth_update_other by exact Hii. apply Hr, Hi'.
Qed.

Lemma lev_nil_r (x : list ascii) : lev x [] = List.length x.
Proof. destruct x; reflexivity. Qed.

Lemma lev_nil_l (y : list ascii) : lev [] y = List.length y.
Proof. destruct y; reflexivity. Qed.

Lemma lev_cons (c d : ascii) (x y : list ascii) :
  lev (c :: x) (d :: y)
  = Nat.min (Nat.min (S (lev x (d :: y))) (S (lev (c :: x) y)))
      (lev x y + (if Ascii.eqb c d then 0 else 1)).
Proof. reflexivity. Qed.

Lemma lev_le_sum (x : list ascii) :
  forall y, lev x y <= List.length x + List.length y.
Proof.
  induction x as [|c x IHx]; intros y; [rewrite lev_nil_l; simpl; lia|].
  induction y as [|d y IHy]; [rewrite lev_nil_r; simpl; lia|].
  rewrite lev_cons. specialize (IHx y). simpl List.length.
  destruct (Ascii.eqb c d); lia.
Qed.

Lemma length_bytes (s : string) : List.length (bytes s) = String.length s.
Proof. induction s as [|c s IH]; simpl; [reflexivity | now rewrite IH]. Qed.

Lemma byteAt_bytes (s : string) (k : nat) : byteAt s k = nth k (bytes s) "000"%char.
Proof.
  unfold byteAt. revert k. induction s as [|c s IH]; intros [|k]; simpl; auto.
Qed.

Lemma firstn_snoc (A : Type) (l : list A) (k : nat) (d : A) :
  k < List.length l -> firstn (S k) l = firstn k l ++ [nth k l d].
Proof.
  revert k. induction l as [|h t IH]; intros k H; simpl in H; [lia|].
  destruct k as [|k]; [reflexivity|].
  change (h :: firstn (S k) t = h :: (firstn k t ++ [nth k t d])).
  rewrite (IH k) by lia. reflexivity.
Qed.

Lemma cell_row0 (a b : string) (j : nat) :
  j <= String.length b -> cell a b 0 j = Z.of_nat j.
Proof.
  intros H. unfold cell. simpl. rewrite lev_nil_l, length_rev, length_firstn.
  rewrite length_bytes. f_equal. lia.
Qed.

Lemma cell_col0 (a b : string) (i : nat) :
  i <= String.length a -> cell a b i 0 = Z.of_nat i.
Proof.
  intros H. unfold cell. simpl. rewrite lev_nil_r, length_rev, length_firstn.
  rewrite length_bytes. f_equal. lia.
Qed.

Lemma cell_bounds (a b : string) (i j : nat) :
  (0 <= cell a b i j <= Z.of_nat (i + j))%Z.
Proof.
  unfold cell. split; [lia|].
  pose proof (lev_le_sum (rev (firstn i (bytes a))) (rev (firstn j (bytes b)))) as H.
  rewrite !length_rev, !length_firstn in H. lia.
Qed.

Lemma cell_step (a b : string) (i j : nat) :
  i < String.length a -> j < String.length b ->
  cell a b (S i) (S j)
  = Z.min (Z.min (cell a b i (S j) + 1) (cell a b (S i) j + 1))
      (cell a b i j + (if negb (Ascii.eqb (byteAt a i) (byteAt b j)) then 1 else 0))%Z.
Proof.
  intros Hi Hj. unfold cell.
  rewrite (@firstn_snoc _ (bytes a) i "000"%char) by (rewrite length_bytes; exact Hi).
  rewrite (@firstn_snoc _ (bytes b) j "000"%char) by (rewrite length_bytes; exact Hj).
  rewrite !rev_app_distr. simpl rev. simpl app.
  rewrite lev_cons, <- !byteAt_bytes.
  destruct (Ascii.eqb (byteAt a i) (byteAt b j)); simpl negb; cbv iota; lia.
Qed.

Lemma set_row0_loop (la lb : nat) (js : list nat) :
  forall m : matrix,
    shaped la lb m ->
    (forall j, In j js -> j <= lb) ->
    let m' := fold_left (fun m j => set m 0 j (Z.of_nat j)) js m in
    shaped la lb m'
    /\ (forall i j, i <> 0 \/ ~ In j js -> get m' i j = get m i j)
    /\ (forall j, In j js -> get m' 0 j = Z.of_nat j).
Proof.
  induction js as [|j0 js IH]; intros m Hm Hjs; simpl.
  - split; [exact Hm|]. split; [reflexivity | contradiction].
  - destruct (IH (set m 0 j0 (Z.of_nat j0))) as (H1 & H2 & H3).
    { apply shaped_set, Hm. }
    { intros j Hj. apply Hjs. right. exact Hj. }
    destruct Hm as [Hl Hr].
    split; [exact H1|]. split.
    + intros i j Hij. rewrite H2 by tauto.
      apply get_set_other; [lia|]. intros E. inversion E; subst. tauto.
    + intros j [<-|Hj]; [|apply H3, Hj].
      destruct (in_dec Nat.eq_dec j0 js) as [Hin|Hnin]; [apply H3, Hin|].
      rewrite H2 by tauto. apply get_set_same; [lia|].
      rewrite (Hr 0) by lia. specialize (Hjs j0 (or_introl eq_refl)). lia.
Qed.

Lemma newMatrix_filled (a b : string) :
  shaped (String.length a) (String.length b)
    (newMatrix (String.length a) (String.length b))
  /\ filled a b (newMatrix (String.length a) (String.length b)) 1 1.
Proof.
  set (la := String.length a). set (lb := String.length b).
  set (rows := map (fun i => update (repeat 0%Z (S lb)) 0 (Z.of_nat i)) (seq 0 (S la))).
  assert (Hrow : forall i, i <= la ->
                   nth i rows [] = update (repeat 0%Z (S lb)) 0 (Z.of_nat i)).
  { intros i Hi. unfold rows.
    rewrite (nth_indep _ [] (update (repeat 0%Z (S lb)) 0 (Z.of_nat 0)))
      by (rewrite length_map, length_seq; lia).
    rewrite (map_nth (fun i => update (repeat 0%Z (S lb)) 0 (Z.of_nat i))).
    rewrite seq_nth by lia. reflexivity. }
  assert (Hshape : shaped la lb rows).
  { split.
    - unfold rows. rewrite length_map, length_seq. reflexivity.
    - intros i Hi. rewrite (Hrow i Hi), update_length, repeat_length. reflexivity. }
  destruct (@set_row0_loop la lb (seq 0 (S lb)) rows Hshape) as (H1 & H2 & H3).
  { intros j Hj. apply in_seq in Hj. lia. }
  fold la lb. unfold newMatrix. fold rows.
  split; [exact H1|].
  intros i' j' Hi' Hj' Hreg. fold la in Hi'. fold lb in Hj'.
  destruct (Nat.eq_dec i' 0) as [->|Hi0].
  - rewrite H3 by (apply in_seq; lia). symmetry. apply cell_row0. exact Hj'.
  - assert (j' = 0) by lia. subst j'.
    rewrite H2 by tauto. unfold get. rewrite (Hrow i' Hi'). simpl.
    symmetry. apply cell_col0. exact Hi'.
Qed.

Lemma fillRow_filled (a b : string) (i : nat) :
  lengthsFit a b ->
  1 <= i <= String.length a ->
  forall (todo j : nat) (m : matrix),
    1 <= j -> j + todo = S (String.length b) ->
    shaped (String.length a) (String.length b) m ->
    filled a b m i j ->
    shaped (String.length a) (String.length b) (fillRow a b i todo j m)
    /\ filled a b (fillRow a b i todo j m) (S i) 1.
Proof.
  intros Hfit Hi. induction todo as [|todo IH]; intros j m Hj Hsum Hm Hf.
  - simpl. split; [exact Hm|].
    intros i' j' Hi' Hj' Hreg. apply Hf; try assumption. lia.
  - simpl. apply IH; [lia | lia | apply shaped_set, Hm |].
    destruct Hm as [Hl Hr].
    assert (Hij : i = S (i - 1) /\ j = S (j - 1)) by lia.
    destruct Hij as [Ei Ej].
    set (i0 := i - 1) in *. set (j0 := j - 1) in *.
    assert (Hv : agent.min (int.add (get m i0 j) 1) (int.add (get m i j0) 1)
                   (int.add (get m i0 j0)
                      (if negb (Ascii.eqb (byteAt a i0) (byteAt b j0)) then 1 else 0))
                 = cell a b i j).
    { rewrite (Hf i0 j), (Hf i j0), (Hf i0 j0) by lia.
      pose proof (cell_bounds a b i0 j) as B1.
      pose proof (cell_bounds a b i j0) as B2.
      pose proof (cell_bounds a b i0 j0) as B3.
      unfold lengthsFit, int.max in Hfit.
      rewrite !int_add_exact
        by (unfold int.inRange, int.min, int.max;
            destruct (negb (Ascii.eqb (byteAt a i0) (byteAt b j0))); lia).
      rewrite min_spec.
      replace (cell a b i j) with (cell a b (S i0) (S j0))
        by (rewrite <- Ei, <- Ej; reflexivity).
      rewrite cell_step by lia. rewrite <- Ei, <- Ej. reflexivity. }
    rewrite Hv.
    intros i' j' Hi' Hj' Hreg.
    destruct (Nat.eq_dec i' i) as [->|Hne1]; [destruct (Nat.eq_dec j' j) as [->|Hne2]|].
    + apply get_set_same; [lia | rewrite (Hr i) by lia; lia].
    + rewrite get_set_other; [apply Hf; try assumption; lia | lia | congruence].
    + rewrite get_set_other; [apply Hf; try assumption; lia | lia | congruence].
Qed.

Lemma fillRows_filled (a b : string) :
  lengthsFit a b ->
  forall (todo i : nat) (m : matrix),
    1 <= i -> i + todo = S (String.length a) ->
    shaped (String.length a) (String.length b) m ->
    filled a b m i 1 ->
    filled a b (fillRows a b todo i m) (S (String.length a)) 1.
Proof.
  intros Hfit. induction todo as [|todo IH]; intros i m Hi Hsum Hm Hf.
  - simpl. replace (S (String.length a)) with i by lia. exact Hf.
  - simpl.
    assert (Hrange : 1 <= i <= String.length a) by lia.
    destruct (@fillRow_filled a b i Hfit Hrange (String.length b) 1 m)
      as [Hm' Hf']; [lia | lia | exact Hm | exact Hf |].
    apply IH; [lia | lia | exact Hm' | exact Hf'].
Qed.

(** The distance the code computes is the edit distance of the two
    strings (read from their ends). *)
Lemma levenshteinDistance_lev (a b : string) :
  lengthsFit a b ->
  levenshteinDistance a b = Z.of_nat (lev (rev (bytes a)) (rev (bytes b))).
Proof.
  intros Hfit. unfold levenshteinDistance.
  destruct (Nat.eqb_spec (String.length a) 0) as [Ha|Ha].
  { destruct a; [|discriminate Ha]. simpl. rewrite lev_nil_l, length_rev, length_bytes.
    reflexivity. }
  destruct (Nat.eqb_spec (String.length b) 0) as [Hb|Hb].
  { destruct b; [|discriminate Hb]. simpl rev at 2. rewrite lev_nil_r, length_rev, length_bytes.
    reflexivity. }
  cbv zeta.
  destruct (newMatrix_filled a b) as [Hm Hf].
  rewrite (@fillRows_filled a b Hfit (String.length a) 1 _ (le_n 1) eq_refl Hm Hf)
    by lia.
  unfold cell. rewrite <- !length_bytes, !firstn_all. reflexivity.
Qed.

Lemma lev_sym (x : list ascii) : forall y, lev x y = lev y x.
Proof.
  induction x as [|c x IHx]; intros y; [rewrite lev_nil_l, lev_nil_r; reflexivity|].
  induction y as [|d y IHy]; [rewrite lev_nil_l, lev_nil_r; reflexivity|].
  rewrite !lev_cons, IHy, (IHx (d :: y)), (IHx y), (Ascii.eqb_sym c d). lia.
Qed.

Lemma lev_diag (x : list ascii) : lev x x = 0.
Proof.
  induction x as [|c x IH]; [reflexivity|].
  rewrite lev_cons, IH, Ascii.eqb_refl. lia.
Qed.

Lemma lev_zero (x : list ascii) : forall y, lev x y = 0 -> x = y.
Proof.
  induction x as [|c x IHx]; intros y.
  - rewrite lev_nil_l. destruct y; [reflexivity | discriminate].
  - destruct y as [|d y]; [rewrite lev_nil_r; discriminate|].
    rewrite lev_cons. intros H.
    destruct (Ascii.eqb_spec c d) as [->|Hcd]; [|lia].
    f_equal. apply IHx. lia.
Qed.

Lemma lev_ge_diff (x : list ascii) :
  forall y, List.length x - List.length y <= lev x y
            /\ List.length y - List.length x <= lev x y.
Proof.
  induction x as [|c x IHx]; intros y; [rewrite lev_nil_l; simpl; lia|].
  induction y as [|d y IHy]; [rewrite lev_nil_r; simpl; lia|].
  rewrite lev_cons. simpl List.length in *.
  pose proof (IHx y). pose proof (IHx (d :: y)) as H1. simpl List.length in H1.
  destruct (Ascii.eqb c d); lia.
Qed.

Lemma lev_le_max (x : list ascii) :
  forall y, lev x y <= Nat.max (List.length x) (List.length y).
Proof.
  induction x as [|c x IHx]; intros y; [rewrite lev_nil_l; simpl; lia|].
  destruct y as [|d y]; [rewrite lev_nil_r; simpl; lia|].
  rewrite lev_cons. simpl List.length. pose proof (IHx y).
  destruct (Ascii.eqb c d); lia.
Qed.

Lemma bytes_inj (a b : string) : bytes a = bytes b -> a = b.
Proof.
  intros H. rewrite <- (string_of_list_ascii_of_string a),
              <- (string_of_list_ascii_of_string b).
  unfold bytes in H. rewrite H. reflexivity.
Qed.

Lemma lengthsFit_sym (a b : string) : lengthsFit a b -> lengthsFit b a.
Proof. unfold lengthsFit. rewrite Nat.add_comm. trivial. Qed.

(** X13. For two strings whose lengths fit an int, levenshteinDistance
    returns their edit distance: the length of the other string when
    one is empty, and otherwise the least of the distance without the
    last byte of [a] plus one, the distance without the last byte of [b]
    plus one, and the distance without both plus one when these two
    bytes differ. No addition of the matrix wraps around. *)
Theorem levenshteinDistance_is_edit_distance (a b : string) :
  lengthsFit a b ->
  agent.levenshteinDistance a b = Z.of_nat (lev (rev (bytes a)) (rev (bytes b))).
Proof. apply levenshteinDistance_lev. Qed.

Lemma levenshteinDistance_is_edit_distance_witness :
  lengthsFit "kitten" "sitting"
  /\ agent.levenshteinDistance "kitten" "sitting"
     = Z.of_nat (lev (rev (bytes "kitten")) (rev (bytes "sitting"))).
Proof.
  assert (H : lengthsFit "kitten" "sitting") by (unfold lengthsFit, int.max; simpl; lia).
  split; [exact H | exact (levenshteinDistance_is_edit_distance H)].
Defined.

(** X14. The distance of two strings is zero exactly when they are the
    same string. *)
Theorem levenshteinDistance_zero_iff_equal (a b : string) :
  lengthsFit a b ->
  (agent.levenshteinDistance a b = 0%Z <-> a = b).
Proof.
  intros Hfit. rewrite levenshteinDistance_lev by exact Hfit. split.
  - intros H. apply bytes_inj.
    rewrite <- (rev_involutive (bytes a)), <- (rev_involutive (bytes b)).
    f_equal. apply lev_zero. lia.
  - intros ->. rewrite lev_diag. reflexivity.
Qed.

Lemma levenshteinDistance_zero_iff_equal_witness :
  lengthsFit "claude" "claude"
  /\ (agent.levenshteinDistance "claude" "claude" = 0%Z <-> "claude" = "claude").
Proof.
  assert (H : lengthsFit "claude" "claude") by (unfold lengthsFit, int.max; simpl; lia).
  split; [exact H | exact (levenshteinDistance_zero_iff_equal H)].
Defined.

(** X15. The distance does not depend on the order of its arguments. *)
Theorem levenshteinDistance_symmetric (a b : string) :
  lengthsFit a b ->
  agent.levenshteinDistance a b = agent.levenshteinDistance b a.
Proof.
  intros Hfit.
  rewrite (levenshteinDistance_lev Hfit), (levenshteinDistance_lev (lengthsFit_sym Hfit)).
  f_equal. apply lev_sym.
Qed.

Lemma levenshteinDistance_symmetric_witness :
  lengthsFit "codex" "cortex"
  /\ agent.levenshteinDistance "codex" "cortex" = agent.levenshteinDistance "cortex" "codex".
Proof.
  assert (H : lengthsFit "codex" "cortex") by (unfold lengthsFit, int.max; simpl; lia).
  split; [exact H | exact (levenshteinDistance_symmetric H)].
Defined.

(** X16. The distance is at least the difference of the two lengths and
    at most the greater of them. *)
Theorem levenshteinDistance_bounds (a b : string) :
  lengthsFit a b ->
  (Z.abs (Z.of_nat (String.length a) - Z.of_nat (String.length b))
   <= agent.levenshteinDistance a b
   <= Z.max (Z.of_nat (String.length a)) (Z.of_nat (String.length b)))%Z.
Proof.
  intros Hfit. rewrite levenshteinDistance_lev by exact Hfit.
  pose proof (lev_ge_diff (rev (bytes a)) (rev (bytes b))) as [H1 H2].
  pose proof (lev_le_max (rev (bytes a)) (rev (bytes b))) as H3.
  rewrite !length_rev, !length_bytes in *. lia.
Qed.

Lemma levenshteinDistance_bounds_witness :
  lengthsFit "gemini" "gem"
  /\ (Z.abs (Z.of_nat (String.length "gemini") - Z.of_nat (String.length "gem"))
      <= agent.levenshteinDistance "gemini" "gem"
      <= Z.max (Z.of_nat (String.length "gemini")) (Z.of_nat (String.length "gem")))%Z.
Proof.
  assert (H : lengthsFit "gemini" "gem") by (unfold lengthsFit, int.max; simpl; lia).
  split; [exact H | exact (levenshteinDistance_bounds H)].
Defined.

End LevenshteinFacts.

(* ===================================================================== *)
(** * The registry of agents and the sorted list of IDs *)
(* ===================================================================== *)

Section SortFacts.
Import agent.

(** The order of Go strings, byte by byte. *)
Lemma ltb_lt (x y : string) : String.ltb x y = true <-> String_as_OT.lt x y.
Proof.
  unfold String.ltb. rewrite <- String_as_OT.cmp_lt. unfold String_as_OT.cmp.
  destruct (String.compare x y); split; congruence.
Qed.

Lemma ltb_trans (x y z : string) :
  String.ltb x y = true -> String.ltb y z = true -> String.ltb x z = true.
Proof. rewrite !ltb_lt. apply String_as_OT.lt_trans. Qed.

Lemma ltb_irrefl (x : string) : String.ltb x x = false.
Proof.
  unfold String.ltb. replace (String.compare x x) with Eq; [reflexivity|].
  symmetry. apply (String_as_OT.cmp_eq x x). reflexivity.
Qed.

Lemma leb_ltb (x y : string) : String.leb x y = negb (String.ltb y x).
Proof.
  unfold String.leb, String.ltb. rewrite (String.compare_antisym y x).
  destruct (String.compare x y); reflexivity.
Qed.

Lemma ltb_le_trans (x y z : string) :
  String.ltb x y = true -> String.ltb z y = false -> String.ltb z x = false.
Proof.
  intros Hxy Hzy. destruct (String.ltb z x) eqn:Hzx; [|reflexivity].
  rewrite (ltb_trans _ _ _ Hzx Hxy) in Hzy. discriminate.
Qed.

Lemma ltb_asym (x y : string) : String.ltb x y = true -> String.ltb y x = false.
Proof.
  intros H. destruct (String.ltb y x) eqn:E; [|reflexivity].
  pose proof (ltb_trans _ _ _ H E) as Hxx. rewrite ltb_irrefl in Hxx. discriminate.
Qed.

Lemma le_trans (x y z : string) :
  String.ltb y x = false -> String.ltb z y = false -> String.ltb z x = false.
Proof.
  intros Hxy Hyz. destruct (String.ltb z x) eqn:Hzx; [|reflexivity].
  (* z < x, x <= y, so z < y *)
  destruct (String.ltb x y) eqn:E.
  - rewrite (ltb_trans _ _ _ Hzx E) in Hyz. discriminate.
  - assert (x = y) as ->.
    { apply String.leb_antisym; rewrite leb_ltb; [rewrite Hxy | rewrite E]; reflexivity. }
    congruence.
Qed.

Lemma count_update (l : list string) (i : nat) (x y : string) :
  i < List.length l ->
  count_occ string_dec (update l i x) y
  + (if string_dec (nth i l EmptyString) y then 1 else 0)
  = count_occ string_dec l y + (if string_dec x y then 1 else 0).
Proof.
  revert i. induction l as [|h t IH]; intros [|i] H; simpl in H; try lia.
  - simpl. destruct (string_dec x y), (string_dec h y); lia.
  - simpl update. simpl nth. simpl count_occ. specialize (IH i ltac:(lia)).
    destruct (string_dec h y); lia.
Qed.

Lemma swap_length (l : list string) (i j : nat) :
  List.length (swap l i j) = List.length l.
Proof. unfold swap. rewrite !update_length. reflexivity. Qed.

Lemma swap_Permutation (l : list string) (i j : nat) :
  i < List.length l -> j < List.length l -> i <> j -> Permutation (swap l i j) l.
Proof.
  intros Hi Hj Hij. apply (Permutation_count_occ string_dec). intros y. unfold swap.
  pose proof (@count_update (update l i (nth j l EmptyString)) j (nth i l EmptyString) y) as H1.
  rewrite update_length in H1. specialize (H1 Hj).
  rewrite nth_update_other in H1 by exact Hij.
  pose proof (@count_update l i (nth j l EmptyString) y Hi) as H2.
  lia.
Qed.

Lemma nth_swap (l : list string) (i j k : nat) :
  i < List.length l -> j < List.length l -> i <> j ->
  nth k (swap l i j) EmptyString
  = if (k =? i)%nat then nth j l EmptyString
    else if (k =? j)%nat then nth i l EmptyString
    else nth k l EmptyString.
Proof.
  intros Hi Hj Hij. unfold swap.
  destruct (Nat.eqb_spec k i) as [->|Hki].
  - rewrite nth_update_other by congruence. apply nth_update_same, Hi.
  - destruct (Nat.eqb_spec k j) as [->|Hkj].
    + apply nth_update_same. rewrite update_length. exact Hj.
    + rewrite !nth_update_other by congruence. reflexivity.
Qed.

Lemma sortInner_spec (todo : nat) :
  forall (i j : nat) (l : list string),
    i < j -> j + todo = List.length l ->
    sortedUpTo i l ->
    (forall k', i < k' < j ->
       String.ltb (nth k' l EmptyString) (nth i l EmptyString) = false) ->
    List.length (sortInner todo i j l) = List.length l
    /\ Permutation (sortInner todo i j l) l
    /\ sortedUpTo (S i) (sortInner todo i j l).
Proof.
  induction todo as [|todo IH]; intros i j l Hij Hlen Hpre Hrow.
  - simpl. split; [reflexivity|]. split; [apply Permutation_refl|].
    intros k k' Hk Hk'. destruct (Nat.eq_dec k i) as [->|Hne].
    + apply Hrow. lia.
    + apply Hpre; lia.
  - simpl.
    set (l1 := if String.ltb (nth j l EmptyString) (nth i l EmptyString)
               then swap l i j else l).
    assert (Hi : i < List.length l) by lia.
    assert (Hj : j < List.length l) by lia.
    assert (Hne : i <> j) by lia.
    assert (H1 : List.length l1 = List.length l
                 /\ Permutation l1 l
                 /\ sortedUpTo i l1
                 /\ (forall k', i < k' < S j ->
                       String.ltb (nth k' l1 EmptyString) (nth i l1 EmptyString) = false)).
    { unfold l1. destruct (String.ltb (nth j l EmptyString) (nth i l EmptyString)) eqn:E.
      - split; [apply swap_length|]. split; [apply swap_Permutation; assumption|]. split.
        + intros k k' Hk Hk'. rewrite swap_length in Hk'.
          rewrite !nth_swap by assumption.
          destruct (Nat.eqb_spec k i); [lia|]. destruct (Nat.eqb_spec k j); [lia|].
          destruct (Nat.eqb_spec k' i); [apply Hpre; lia|].
          destruct (Nat.eqb_spec k' j); apply Hpre; lia.
        + intros k' Hk'. rewrite !nth_swap by assumption.
          rewrite Nat.eqb_refl.
          destruct (Nat.eqb_spec k' i); [lia|].
          destruct (Nat.eqb_spec k' j).
          * apply ltb_asym, E.
          * apply (ltb_le_trans _ _ _ E). apply Hrow. lia.
      - split; [reflexivity|]. split; [apply Permutation_refl|]. split; [exact Hpre|].
        intros k' Hk'. destruct (Nat.eq_dec k' j) as [->|Hkj]; [exact E|].
        apply Hrow. lia. }
    destruct H1 as (L1 & P1 & S1 & R1).
    destruct (IH i (S j) l1) as (L2 & P2 & S2); [lia | lia | exact S1 | exact R1 |].
    split; [congruence|]. split; [|exact S2].
    eapply Permutation_trans; [exact P2 | exact P1].
Qed.

Lemma sortOuter_spec (todo : nat) :
  forall (i : nat) (l : list string),
    i + todo = List.length l ->
    sortedUpTo i l ->
    List.length (sortOuter todo i l) = List.length l
    /\ Permutation (sortOuter todo i l) l
    /\ sortedUpTo (List.length l) (sortOuter todo i l).
Proof.
  induction todo as [|todo IH]; intros i l Hlen Hpre.
  - simpl. split; [reflexivity|]. split; [apply Permutation_refl|].
    replace (List.length l) with i by lia. exact Hpre.
  - simpl.
    destruct (@sortInner_spec (List.length l - (i + 1)) i (i + 1) l)
      as (L1 & P1 & S1); [lia | lia | exact Hpre | intros k' Hk'; lia |].
    destruct (IH (S i) (sortInner (List.length l - (i + 1)) i (i + 1) l))
      as (L2 & P2 & S2); [lia | exact S1 |].
    split; [congruence|]. split.
    + eapply Permutation_trans; [exact P2 | exact P1].
    + rewrite L1 in S2. exact S2.
Qed.

Lemma sortedUpTo_StronglySorted (l : list string) :
  sortedUpTo (List.length l) l ->
  StronglySorted (fun x y => String.leb x y = true) l.
Proof.
  induction l as [|a t IH]; intros H; constructor.
  - apply IH. intros k k' Hk Hk'.
    apply (H (S k) (S k')); simpl; lia.
  - apply Forall_forall. intros x Hx.
    destruct (In_nth _ _ EmptyString Hx) as (n & Hn & <-).
    assert (E : String.ltb (nth (S n) (a :: t) EmptyString) (nth 0 (a :: t) EmptyString)
                = false) by (apply H; simpl; lia).
    simpl in E. rewrite leb_ltb, E. reflexivity.
Qed.

Lemma StronglySorted_unique (l1 : list string) :
  forall l2,
    StronglySorted (fun x y => String.leb x y = true) l1 ->
    StronglySorted (fun x y => String.leb x y = true) l2 ->
    Permutation l1 l2 -> l1 = l2.
Proof.
  induction l1 as [|a t1 IH]; intros l2 S1 S2 P.
  - apply Permutation_nil in P. congruence.
  - destruct l2 as [|b t2]; [apply Permutation_sym, Permutation_nil in P; discriminate|].
    inversion S1 as [|? ? S1' F1]; subst. inversion S2 as [|? ? S2' F2]; subst.
    assert (a = b) as ->.
    { assert (Ha : In a (b :: t2)) by (apply (Permutation_in _ P); left; reflexivity).
      assert (Hb : In b (a :: t1))
        by (apply (Permutation_in _ (Permutation_sym P)); left; reflexivity).
      rewrite Forall_forall in F1, F2.
      destruct Ha as [->|Ha]; [reflexivity|]. destruct Hb as [->|Hb]; [reflexivity|].
      apply String.leb_antisym; [apply F1, Hb | apply F2, Ha]. }
    f_equal. apply IH; [exact S1' | exact S2' | exact (Permutation_cons_inv P)].
Qed.

Lemma ListAgents_spec (registry : RegistryMap) :
  StronglySorted (fun x y => String.leb x y = true) (ListAgents registry)
  /\ Permutation (ListAgents registry) (ids registry).
Proof.
  unfold ListAgents, ids. simpl app.
  destruct (@sortOuter_spec (List.length (map fst registry)) 0 (map fst registry))
    as (L & P & S); [reflexivity | intros k k' Hk; lia |].
  split; [|exact P].
  apply sortedUpTo_StronglySorted. rewrite L. exact S.
Qed.

End SortFacts.

Section RegistryFacts.
Import agent.

Lemma lookup_store_same (registry : RegistryMap) (key : string) (a : Agent) :
  lookup (store registry key a) key = Some a.
Proof.
  induction registry as [|[k b] rest IH]; simpl.
  - rewrite String.eqb_refl. reflexivity.
  - destruct (String.eqb k key) eqn:E; simpl.
    + rewrite String.eqb_refl. reflexivity.
    + rewrite E. exact IH.
Qed.

Lemma lookup_store_other (registry : RegistryMap) (key id : string) (a : Agent) :
  key <> id -> lookup (store registry key a) id = lookup registry id.
Proof.
  intros Hne. induction registry as [|[k b] rest IH]; simpl.
  - apply String.eqb_neq in Hne. rewrite Hne. reflexivity.
  - destruct (String.eqb_spec k key) as [->|Hk]; simpl.
    + apply String.eqb_neq in Hne. rewrite Hne. reflexivity.
    + rewrite IH. reflexivity.
Qed.

Lemma lookup_None (registry : RegistryMap) (id : string) :
  lookup registry id = None <-> ~ In id (ids registry).
Proof.
  induction registry as [|[k b] rest IH]; simpl; [tauto|].
  destruct (String.eqb_spec k id) as [->|Hk].
  - split; [discriminate | intros H; exfalso; apply H; left; reflexivity].
  - rewrite IH. tauto.
Qed.

Lemma ids_store_In (registry : RegistryMap) (key k : string) (a : Agent) :
  In k (ids (store registry key a)) <-> k = key \/ In k (ids registry).
Proof.
  unfold ids. induction registry as [|[k0 b] rest IH]; simpl.
  - intuition.
  - destruct (String.eqb_spec k0 key) as [->|Hk]; simpl; [intuition|].
    rewrite IH. intuition.
Qed.

Lemma ids_store_NoDup (registry : RegistryMap) (key : string) (a : Agent) :
  NoDup (ids registry) -> NoDup (ids (store registry key a)).
Proof.
  induction registry as [|[k0 b] rest IH]; intros H.
  - simpl. constructor; [intros [] | constructor].
  - simpl. cbn in H. inversion H as [|? ? Hnin Hnd]; subst.
    destruct (String.eqb_spec k0 key) as [->|Hk].
    + cbn. constructor; assumption.
    + cbn. constructor; [|apply IH, Hnd].
      change (~ In k0 (ids (store rest key a))). rewrite ids_store_In.
      intros [->|Hin]; [apply Hk; reflexivity | apply Hnin, Hin].
Qed.

Lemma fold_RegisterAgent_snoc (agents : list Agent) (a : Agent) (registry : RegistryMap) :
  fold_left RegisterAgent (agents ++ [a]) registry
  = RegisterAgent (fold_left RegisterAgent agents registry) a.
Proof. rewrite fold_left_app. reflexivity. Qed.

Lemma ids_registered (agents : list Agent) :
  NoDup (ids (fold_left RegisterAgent agents []))
  /\ forall k, In k (ids (fold_left RegisterAgent agents [])) <-> In k (map ID agents).
Proof.
  induction agents as [|a agents [IH1 IH2]] using rev_ind.
  - simpl. split; [constructor | tauto].
  - rewrite fold_RegisterAgent_snoc. unfold RegisterAgent. split.
    + apply ids_store_NoDup, IH1.
    + intros k. rewrite ids_store_In, IH2, map_app, in_app_iff. simpl. intuition.
Qed.

Lemma lookup_registered_later (after : list Agent) (id : string) :
  Forall (fun b => ID b <> id) after ->
  forall registry,
    lookup (fold_left RegisterAgent after registry) id = lookup registry id.
Proof.
  induction 1 as [|b after Hb _ IH]; intros registry; [reflexivity|].
  simpl. rewrite IH. unfold RegisterAgent. apply lookup_store_other, Hb.
Qed.

Lemma GetAgent_Ok (registry : RegistryMap) (id : string) (a : Agent) :
  GetAgent registry id = Ok a <-> lookup registry id = Some a.
Proof.
  unfold GetAgent. destruct (lookup registry id) as [b|].
  - split; intros H; inversion H; reflexivity.
  - cbv zeta.
    destruct (negb (isEmpty (findClosestMatch id (ListAgents registry))));
      split; discriminate.
Qed.

Lemma firstWithin_spec (typo : string) (options : list string) :
  (exists before after,
      options = before ++ firstWithin typo options :: after
      /\ (levenshteinDistance typo (firstWithin typo options) <= 2)%Z
      /\ Forall (fun o => (levenshteinDistance typo o > 2)%Z) before)
  \/ (firstWithin typo options = EmptyString
      /\ Forall (fun o => (levenshteinDistance typo o > 2)%Z) options).
Proof.
  induction options as [|o rest IH]; simpl.
  - right. split; [reflexivity | constructor].
  - destruct (Z.leb_spec (levenshteinDistance typo o) 2) as [Hle|Hgt].
    + left. exists [], rest. split; [reflexivity|]. split; [exact Hle | constructor].
    + destruct IH as [(before & after & E & Hd & Hb)|[E Hall]].
      * left. exists (o :: before), after. split; [simpl; congruence|].
        split; [exact Hd|]. constructor; [lia | exact Hb].
      * right. split; [exact E|]. constructor; [lia | exact Hall].
Qed.

End RegistryFacts.

Section RegistryTheorems.
Import agent.

Lemma StronglySorted_app_tail (before : list string) (x : string) (after : list string) :
  StronglySorted (fun x y => String.leb x y = true) (before ++ x :: after) ->
  Forall (fun y => String.leb x y = true) after.
Proof.
  induction before as [|b before IH]; simpl; intros H.
  - inversion H; assumption.
  - inversion H; auto.
Qed.

Lemma leb_refl (x : string) : String.leb x x = true.
Proof. rewrite leb_ltb, ltb_irrefl. reflexivity. Qed.

(** X17. ListAgents returns the registered IDs, each once for each
    binding of the registry, in ascending byte order. *)
Theorem ListAgents_sorted_ids (registry : RegistryMap) :
  StronglySorted (fun x y => String.leb x y = true) (ListAgents registry)
  /\ Permutation (ListAgents registry) (ids registry).
Proof. apply ListAgents_spec. Qed.

Lemma ListAgents_ids (r1 r2 : RegistryMap) :
  Permutation (ids r1) (ids r2) -> ListAgents r1 = ListAgents r2.
Proof.
  intros P.
  destruct (ListAgents_spec r1) as [S1 P1]. destruct (ListAgents_spec r2) as [S2 P2].
  apply StronglySorted_unique; [exact S1 | exact S2 |].
  eapply Permutation_trans; [exact P1|].
  eapply Permutation_trans; [exact P | apply Permutation_sym, P2].
Qed.

(** X18. The list of ListAgents does not depend on the order in which
    the range over the map meets the IDs: two registries with the same
    IDs are listed alike. *)
Theorem ListAgents_same_ids (r1 r2 : RegistryMap) :
  Permutation (ids r1) (ids r2) -> ListAgents r1 = ListAgents r2.
Proof. apply ListAgents_ids. Qed.

Lemma ListAgents_same_ids_witness :
  Permutation (ids Registry) (ids (rev Registry))
  /\ ListAgents Registry = ListAgents (rev Registry).
Proof.
  assert (P : Permutation (ids Registry) (ids (rev Registry))).
  { unfold ids. rewrite map_rev. apply Permutation_rev. }
  split; [exact P | exact (@ListAgents_same_ids _ _ P)].
Defined.

(** X19. The list of ListAgents does not depend on the order in which
    the agents were registered. *)
Theorem ListAgents_registration_order (agents1 agents2 : list Agent) :
  Permutation agents1 agents2 ->
  ListAgents (fold_left RegisterAgent agents1 [])
  = ListAgents (fold_left RegisterAgent agents2 []).
Proof.
  intros P. apply ListAgents_ids.
  destruct (ids_registered agents1) as [N1 I1].
  destruct (ids_registered agents2) as [N2 I2].
  apply NoDup_Permutation; [exact N1 | exact N2 |].
  intros k. rewrite I1, I2.
  split; apply Permutation_in; [|apply Permutation_sym]; apply Permutation_map, P.
Qed.

Lemma ListAgents_registration_order_witness :
  Permutation [claude; codex; ollama] [ollama; claude; codex]
  /\ ListAgents (fold_left RegisterAgent [claude; codex; ollama] [])
     = ListAgents (fold_left RegisterAgent [ollama; claude; codex] []).
Proof.
  assert (P : Permutation [claude; codex; ollama] [ollama; claude; codex]).
  { apply Permutation_sym.
    apply (Permutation_cons_app [claude; codex] [] ollama). apply Permutation_refl. }
  split; [exact P | exact (@ListAgents_registration_order _ _ P)].
Defined.

(** X20. After RegisterAgent, GetAgent finds the agent under its ID, and
    finds under any other ID what it found before. *)
Theorem GetAgent_after_RegisterAgent (registry : RegistryMap) (a : Agent) :
  GetAgent (RegisterAgent registry a) (ID a) = Ok a
  /\ forall id b, id <> ID a ->
       (GetAgent (RegisterAgent registry a) id = Ok b <-> GetAgent registry id = Ok b).
Proof.
  split.
  - apply GetAgent_Ok. apply lookup_store_same.
  - intros id b Hne. rewrite !GetAgent_Ok. unfold RegisterAgent.
    rewrite lookup_store_other by congruence. tauto.
Qed.

(** X21. In a registry filled by RegisterAgent, GetAgent finds under an
    ID the last agent registered with that ID, and no other. *)
Theorem GetAgent_returns_last_registered (agents : list Agent) (id : string) (a : Agent) :
  GetAgent (fold_left RegisterAgent agents []) id = Ok a
  <-> exists before after,
        agents = before ++ a :: after
        /\ ID a = id
        /\ Forall (fun b => ID b <> id) after.
Proof.
  rewrite GetAgent_Ok. split.
  - induction agents as [|x agents IH] using rev_ind; [discriminate|].
    rewrite fold_RegisterAgent_snoc. unfold RegisterAgent.
    destruct (string_dec (ID x) id) as [E|Hne].
    + subst id. rewrite lookup_store_same. intros [= ->].
      exists agents, []. split; [reflexivity|]. split; [reflexivity | constructor].
    + rewrite lookup_store_other by exact Hne. intros H.
      destruct (IH H) as (before & after & -> & E & F).
      exists before, (after ++ [x]). split; [rewrite <- app_assoc; reflexivity|].
      split; [exact E|]. apply Forall_app. split; [exact F|]. constructor; [exact Hne | constructor].
  - intros (before & after & -> & E & F).
    rewrite fold_left_app. simpl. rewrite (@lookup_registered_later _ _ F).
    unfold RegisterAgent. rewrite <- E. apply lookup_store_same.
Qed.

(** X22. A match of findClosestMatch that is not empty answers a typo
    that is not empty, and is the first option within two edits of it:
    every option before it is farther. *)
Theorem findClosestMatch_first_close (typo : string) (options : list string) (s : string) :
  findClosestMatch typo options = s -> s <> EmptyString ->
  typo <> EmptyString
  /\ exists before after,
       options = before ++ s :: after
       /\ (levenshteinDistance typo s <= 2)%Z
       /\ Forall (fun o => (levenshteinDistance typo o > 2)%Z) before.
Proof.
  unfold findClosestMatch. intros E Hs.
  destruct typo as [|c typo]; [simpl in E; congruence|].
  split; [discriminate|]. simpl in E.
  destruct (firstWithin_spec (String c typo) options) as [H|[H _]].
  - rewrite E in H. exact H.
  - congruence.
Qed.

Lemma findClosestMatch_first_close_witness :
  findClosestMatch "claud" ["codex"; "claude"; "cloud"] = "claude"
  /\ "claude" <> EmptyString
  /\ "claud" <> EmptyString
  /\ exists before after,
       ["codex"; "claude"; "cloud"] = before ++ "claude" :: after
       /\ (levenshteinDistance "claud" "claude" <= 2)%Z
       /\ Forall (fun o => (levenshteinDistance "claud" o > 2)%Z) before.
Proof.
  assert (E : findClosestMatch "claud" ["codex"; "claude"; "cloud"] = "claude")
    by (vm_compute; reflexivity).
  assert (N : "claude" <> EmptyString) by discriminate.
  split; [exact E|]. split; [exact N|].
  exact (@findClosestMatch_first_close "claud" ["codex"; "claude"; "cloud"] "claude" E N).
Defined.

Lemma levenshteinDistance_empty (typo : string) :
  levenshteinDistance typo EmptyString = Z.of_nat (String.length typo).
Proof. unfold levenshteinDistance. destruct typo; reflexivity. Qed.

(** X23. For an ID that is not registered GetAgent fails, and its
    message either suggests the least registered ID within two edits of
    the given one, or suggests nothing: then the given ID is empty, or
    the empty ID is registered and the given one has at most two bytes,
    or no registered ID is within two edits. *)
Theorem GetAgent_unknown (registry : RegistryMap) (id : string) :
  ~ In id (ids registry) ->
  (exists s,
      s <> EmptyString /\ In s (ids registry)
      /\ (levenshteinDistance id s <= 2)%Z
      /\ (forall k, In k (ids registry) -> (levenshteinDistance id k <= 2)%Z ->
            String.leb s k = true)
      /\ GetAgent registry id
         = Err (Errorf ("unknown agent '" ++ id ++ "' (available: "
                          ++ formatList (ListAgents registry)
                          ++ "). Did you mean '" ++ s ++ "'?")))
  \/ ((id = EmptyString
       \/ (In EmptyString (ids registry) /\ String.length id <= 2)
       \/ Forall (fun k => (levenshteinDistance id k > 2)%Z) (ids registry))
      /\ GetAgent registry id
         = Err (Errorf ("unknown agent '" ++ id ++ "' (available: "
                          ++ formatList (ListAgents registry) ++ ")"))).
Proof.
  intros Hnot. apply lookup_None in Hnot. unfold GetAgent. rewrite Hnot. cbv zeta.
  destruct (ListAgents_spec registry) as [Hsorted Hperm].
  unfold findClosestMatch.
  destruct (Nat.eqb_spec (String.length id) 0) as [H0|H0].
  { right. split; [|reflexivity]. left. destruct id; [reflexivity | discriminate]. }
  destruct (firstWithin_spec id (ListAgents registry))
    as [(before & after & E & Hd & Hb)|[E Hall]].
  - remember (firstWithin id (ListAgents registry)) as s0 eqn:Es.
    assert (Hin : In s0 (ids registry)).
    { apply (Permutation_in _ Hperm). rewrite E. apply in_elt. }
    destruct s0 as [|c s].
    + right. split; [|reflexivity]. right. left. split; [exact Hin|].
      rewrite levenshteinDistance_empty in Hd. lia.
    + left. exists (String c s). split; [discriminate|]. split; [exact Hin|].
      split; [exact Hd|]. split; [|reflexivity].
      intros k Hk Hdk.
      apply (Permutation_in _ (Permutation_sym Hperm)) in Hk. rewrite E in Hk.
      apply in_app_or in Hk. destruct Hk as [Hk|[<-|Hk]].
      * rewrite Forall_forall in Hb. specialize (Hb k Hk). lia.
      * apply leb_refl.
      * rewrite E in Hsorted. apply StronglySorted_app_tail in Hsorted.
        rewrite Forall_forall in Hsorted. apply Hsorted, Hk.
  - right. rewrite E. split; [|reflexivity]. right. right.
    apply (Permutation_Forall Hperm), Hall.
Qed.

Lemma GetAgent_unknown_witness :
  ~ In "claud" (ids Registry)
  /\ ((exists s,
         s <> EmptyString /\ In s (ids Registry)
         /\ (levenshteinDistance "claud" s <= 2)%Z
         /\ (forall k, In k (ids Registry) -> (levenshteinDistance "claud" k <= 2)%Z ->
               String.leb s k = true)
         /\ GetAgent Registry "claud"
            = Err (Errorf ("unknown agent '" ++ "claud" ++ "' (available: "
                             ++ formatList (ListAgents Registry)
                             ++ "). Did you mean '" ++ s ++ "'?")))
      \/ (("claud" = EmptyString
           \/ (In EmptyString (ids Registry) /\ String.length "claud" <= 2)
           \/ Forall (fun k => (levenshteinDistance "claud" k > 2)%Z) (ids Registry))
          /\ GetAgent Registry "claud"
             = Err (Errorf ("unknown agent '" ++ "claud" ++ "' (available: "
                              ++ formatList (ListAgents Registry) ++ ")")))).
Proof.
  assert (H : ~ In "claud" (ids Registry)).
  { vm_compute. intros [H|[H|[H|[H|[H|[H|[]]]]]]]; discriminate H. }
  split; [exact H | exact (@GetAgent_unknown Registry "claud" H)].
Defined.

End RegistryTheorems.

(* ===================================================================== *)
(** * The configuration cascade *)
(* ===================================================================== *)

Section ConfigFacts.
Import config.

Lemma isEmpty_true (s : string) : isEmpty s = true -> s = EmptyString.
Proof. destruct s; [reflexivity | discriminate]. Qed.

Lemma Merge_snoc (configs : list Config) (cfg : Config) :
  Merge (configs ++ [cfg]) = mergeOne (Merge configs) cfg.
Proof. unfold Merge. rewrite fold_left_app. reflexivity. Qed.

(** The fields a merge never leaves unset. *)
Lemma mergeOne_set (result cfg : Config) :
  CLI result <> EmptyString /\ PromptFile result <> EmptyString
  /\ StuckThreshold result <> 0%Z ->
  CLI (mergeOne result cfg) <> EmptyString
  /\ PromptFile (mergeOne result cfg) <> EmptyString
  /\ StuckThreshold (mergeOne result cfg) <> 0%Z.
Proof.
  destruct result as [c1 m1 p1 a1 s1 v1 y1], cfg as [c2 m2 p2 a2 s2 v2 y2].
  unfold mergeOne. simpl. intros (Hc & Hp & Hs).
  destruct c2, m2, p2, v2, (Z.eqb_spec s2 0); simpl; repeat split;
    try assumption; try discriminate.
Qed.

Lemma Merge_set (configs : list Config) :
  CLI (Merge configs) <> EmptyString
  /\ PromptFile (Merge configs) <> EmptyString
  /\ StuckThreshold (Merge configs) <> 0%Z.
Proof.
  induction configs as [|cfg configs IH] using rev_ind.
  - repeat split; discriminate.
  - rewrite Merge_snoc. apply mergeOne_set, IH.
Qed.

Lemma mergeOne_Defaults (r : Config) :
  CLI r <> EmptyString /\ PromptFile r <> EmptyString /\ StuckThreshold r <> 0%Z ->
  mergeOne Defaults r = r.
Proof.
  destruct r as [c m p a s v y]. simpl. intros (Hc & Hp & Hs). unfold mergeOne. simpl.
  destruct c; [congruence|]. destruct p; [congruence|].
  destruct (Z.eqb_spec s 0); [congruence|].
  destruct m, v; reflexivity.
Qed.

Lemma validate_None (cfg : Config) :
  validate cfg = None
  <-> (CLI cfg = EmptyString \/ In (CLI cfg) validAgents)
      /\ (0 <= StuckThreshold cfg)%Z.
Proof.
  unfold validate.
  destruct (isEmpty (CLI cfg)) eqn:Hcli.
  - apply isEmpty_true in Hcli. cbn [negb]. cbv iota.
    destruct (Z.ltb_spec (StuckThreshold cfg) 0); split;
      try discriminate; try (intros [_ ?]; lia); intros _; split; [left; exact Hcli | lia].
  - cbn [negb]. cbv iota zeta.
    destruct (existsb (fun agent => String.eqb (CLI cfg) agent) validAgents) eqn:Hv.
    + cbn [negb]. cbv iota.
      apply existsb_exists in Hv. destruct Hv as (x & Hx & Heq).
      apply String.eqb_eq in Heq. subst x.
      destruct (Z.ltb_spec (StuckThreshold cfg) 0); split;
        try discriminate; try (intros [_ ?]; lia); intros _; split; [right; exact Hx | lia].
    + cbn [negb]. cbv iota.
      assert (Hno : ~ (CLI cfg = EmptyString \/ In (CLI cfg) validAgents)).
      { intros [E|Hin]; [rewrite E in Hcli; discriminate|].
        assert (existsb (fun agent => String.eqb (CLI cfg) agent) validAgents = true)
          by (apply existsb_exists; exists (CLI cfg); split;
              [exact Hin | apply String.eqb_refl]).
        congruence. }
      destruct (negb (isEmpty (agent.findClosestMatch (CLI cfg) validAgents)));
        split; try discriminate; intros [? _]; contradiction.
Qed.

Lemma mergeOne_valid (result cfg : Config) :
  In (CLI result) validAgents /\ (0 < StuckThreshold result)%Z ->
  validate cfg = None ->
  In (CLI (mergeOne result cfg)) validAgents /\ (0 < StuckThreshold (mergeOne result cfg))%Z.
Proof.
  intros [Hc Hs] Hv. apply validate_None in Hv. destruct Hv as [Hcli Hst].
  destruct result as [c1 m1 p1 a1 s1 v1 y1], cfg as [c2 m2 p2 a2 s2 v2 y2].
  unfold mergeOne. simpl in *.
  destruct c2 as [|ch c2].
  - destruct m2, p2, v2, (Z.eqb_spec s2 0); simpl; split; try assumption; lia.
  - destruct Hcli as [Hcli|Hcli]; [discriminate|].
    destruct m2, p2, v2, (Z.eqb_spec s2 0); simpl; split; try assumption; lia.
Qed.

(** X24. Merging in stages: merging some layers, then merging the
    result with further layers, gives what merging all the layers
    gives. With no first layer: passing the defaults as a layer changes
    nothing. *)
Theorem Merge_in_stages (first rest : list Config) :
  Merge (first ++ rest) = Merge (Merge first :: rest).
Proof.
  change (Merge (Merge first :: rest))
    with (fold_left mergeOne rest (mergeOne Defaults (Merge first))).
  rewrite mergeOne_Defaults by apply Merge_set.
  unfold Merge. rewrite fold_left_app. reflexivity.
Qed.

(** X25. A layer that sets nothing is not neutral: as the last layer,
    the empty config of a file that does not exist turns auto-push and
    memory off, whatever the layers before set, and leaves the other
    fields alone. *)
Theorem Merge_empty_last_layer (configs : list Config) :
  Merge (configs ++ [zero])
  = withMemory (withAutoPush (Merge configs) false) false.
Proof.
  rewrite Merge_snoc. destruct (Merge configs) as [c m p a s v y]. reflexivity.
Qed.

(** X26. When every layer passes validate, so does their merge, and
    the merge names one of the six agents and has a stuck threshold
    above zero. *)
Theorem validate_Merge (configs : list Config) :
  Forall (fun cfg => validate cfg = None) configs ->
  validate (Merge configs) = None
  /\ In (CLI (Merge configs)) validAgents
  /\ (0 < StuckThreshold (Merge configs))%Z.
Proof.
  intros Hall.
  assert (H : In (CLI (Merge configs)) validAgents /\ (0 < StuckThreshold (Merge configs))%Z).
  { induction configs as [|cfg configs IH] using rev_ind.
    - split; [left; reflexivity | reflexivity].
    - apply Forall_app in Hall. destruct Hall as [Hall Hcfg].
      rewrite Merge_snoc. apply mergeOne_valid; [apply IH, Hall | now inversion Hcfg]. }
  destruct H as [Hc Hs]. split; [|split; assumption].
  apply validate_None. split; [right; exact Hc | lia].
Qed.

Lemma validate_Merge_witness :
  Forall (fun cfg => validate cfg = None)
    [zero; mkConfig "codex" EmptyString EmptyString false 5 "go test ./..." false]
  /\ validate (Merge [zero; mkConfig "codex" EmptyString EmptyString false 5
                              "go test ./..." false]) = None
  /\ In (CLI (Merge [zero; mkConfig "codex" EmptyString EmptyString false 5
                              "go test ./..." false])) validAgents
  /\ (0 < StuckThreshold (Merge [zero; mkConfig "codex" EmptyString EmptyString false 5
                                        "go test ./..." false]))%Z.
Proof.
  assert (H : Forall (fun cfg => validate cfg = None)
                [zero; mkConfig "codex" EmptyString EmptyString false 5 "go test ./..." false]).
  { repeat constructor. }
  split; [exact H | exact (@validate_Merge _ H)].
Defined.

End ConfigFacts.

Section CliFacts.
Import config cli.

Lemma loadRunConfig_fields (viper : Viper) (flags : Flags) (os : Files) (cfg : RunConfig) :
  loadRunConfig viper flags os = Ok cfg ->
  ChooChoo cfg = ((runChooChoo flags =? -1)%Z || (runChooChoo flags >? 0)%Z)
  /\ MaxIterations cfg = (if (runChooChoo flags >? 0)%Z then runChooChoo flags else 0%Z)
  /\ Memory (Config cfg) = runMemory flags.
Proof.
  unfold loadRunConfig. cbv zeta.
  set (base := mkConfig _ _ _ _ _ _ false).
  assert (Hbase : Memory base = false) by reflexivity. clearbody base.
  set (c1 := if negb (isEmpty (runCLI flags)) then withCLI base (runCLI flags) else base).
  assert (H1 : Memory c1 = false) by (unfold c1; destruct (negb _); assumption).
  clearbody c1.
  set (c2 := if negb (isEmpty (runModel flags)) then withModel c1 (runModel flags) else c1).
  assert (H2 : Memory c2 = false) by (unfold c2; destruct (negb _); assumption).
  clearbody c2.
  set (c3 := if negb (isEmpty (runPromptFile flags))
             then withPromptFile c2 (runPromptFile flags) else c2).
  assert (H3 : Memory c3 = false) by (unfold c3; destruct (negb _); assumption).
  clearbody c3.
  set (c4 := if runNoPush flags then withAutoPush c3 false else c3).
  assert (H4 : Memory c4 = false) by (unfold c4; destruct (runNoPush flags); assumption).
  clearbody c4.
  set (c5 := if (runStuck flags >? 0)%Z then withStuckThreshold c4 (runStuck flags) else c4).
  assert (H5 : Memory c5 = false) by (unfold c5; destruct (_ >? _)%Z; assumption).
  clearbody c5.
  set (c6 := if negb (isEmpty (runVerify flags)) then withVerify c5 (runVerify flags) else c5).
  assert (H6 : Memory c6 = false) by (unfold c6; destruct (negb _); assumption).
  clearbody c6.
  set (c7 := if runMemory flags then withMemory c6 true else c6).
  assert (H7 : Memory c7 = runMemory flags)
    by (unfold c7; destruct (runMemory flags); [reflexivity | assumption]).
  clearbody c7.
  destruct (Z.eqb_spec (runChooChoo flags) (-1)) as [E|E];
    destruct (Z.gtb_spec (runChooChoo flags) 0) as [G|G]; try lia;
    (destruct (negb (isEmpty (runPrompt flags)));
     [intros [= <-]; simpl; auto
     |destruct (Stat os _);
      [intros [= <-]; simpl; auto
      |destruct (ReadFile os _); [intros [= <-]; simpl; auto | discriminate]]]).
Qed.

(** X27. What loadRunConfig returns never has a negative number of
    iterations, and has none without loop mode: the check of the
    maximum in validateRunConfig cannot fail on it. Loop mode is on for
    the flag value -1 and for the values above zero, and for no other. *)
Theorem loadRunConfig_max_iterations
  (viper : Viper) (flags : Flags) (os : Files) (cfg : RunConfig) :
  loadRunConfig viper flags os = Ok cfg ->
  (0 <= MaxIterations cfg)%Z
  /\ (ChooChoo cfg = false -> MaxIterations cfg = 0%Z)
  /\ (ChooChoo cfg = true <-> runChooChoo flags = (-1)%Z \/ (0 < runChooChoo flags)%Z)
  /\ forall n, validateRunConfig cfg <> Some (BadMaxIterations n).
Proof.
  intros H. destruct (loadRunConfig_fields _ _ _ H) as (Hc & Hm & _).
  assert (Hpos : (0 <= MaxIterations cfg)%Z).
  { rewrite Hm. destruct (Z.gtb_spec (runChooChoo flags) 0); lia. }
  split; [exact Hpos|]. split; [|split].
  - rewrite Hc, Hm. destruct (Z.gtb_spec (runChooChoo flags) 0); [|reflexivity].
    rewrite orb_true_r. discriminate.
  - rewrite Hc, orb_true_iff, Z.eqb_eq, Z.gtb_ltb, Z.ltb_lt. tauto.
  - intros n. unfold validateRunConfig.
    destruct (isEmpty (Prompt cfg)); [discriminate|].
    destruct (StuckThreshold (Config cfg) <? 0)%Z; [discriminate|].
    destruct (Z.ltb_spec (MaxIterations cfg) 0); [lia | discriminate].
Qed.

Lemma loadRunConfig_max_iterations_witness :
  loadRunConfig sample.viperDefaults sample.loopFlags sample.noFiles = Ok sample.loopConfig
  /\ (0 <= MaxIterations sample.loopConfig)%Z
  /\ (ChooChoo sample.loopConfig = false -> MaxIterations sample.loopConfig = 0%Z)
  /\ (ChooChoo sample.loopConfig = true
      <-> runChooChoo sample.loopFlags = (-1)%Z \/ (0 < runChooChoo sample.loopFlags)%Z)
  /\ forall n, validateRunConfig sample.loopConfig <> Some (BadMaxIterations n).
Proof.
  assert (H : loadRunConfig sample.viperDefaults sample.loopFlags sample.noFiles
              = Ok sample.loopConfig) by reflexivity.
  split; [exact H | exact (@loadRunConfig_max_iterations _ _ _ _ H)].
Defined.

(** X28. In what loadRunConfig returns, session memory is on exactly
    when the flag is given: no answer of viper, so no config file, turns
    it on or off. *)
Theorem loadRunConfig_memory_flag_only
  (viper : Viper) (flags : Flags) (os : Files) (cfg : RunConfig) :
  loadRunConfig viper flags os = Ok cfg ->
  Memory (Config cfg) = runMemory flags.
Proof. intros H. apply (loadRunConfig_fields _ _ _ H). Qed.

Lemma loadRunConfig_memory_flag_only_witness :
  loadRunConfig sample.viperDefaults sample.loopFlags sample.noFiles = Ok sample.loopConfig
  /\ Memory (Config sample.loopConfig) = runMemory sample.loopFlags.
Proof.
  assert (H : loadRunConfig sample.viperDefaults sample.loopFlags sample.noFiles
              = Ok sample.loopConfig) by reflexivity.
  split; [exact H | exact (@loadRunConfig_memory_flag_only _ _ _ _ H)].
Defined.

Lemma contains_In (slice : list string) (item : string) :
  contains slice item = true -> In item slice.
Proof.
  induction slice as [|x rest IH]; simpl; [discriminate|].
  destruct (String.eqb_spec x item) as [->|_]; [left; reflexivity | right; auto].
Qed.

(** X29. A value that setConfigValue accepts for a key other than
    stuck_threshold is the value getConfigValue reads back for the key,
    and a config that passes validate still passes it after any
    accepted assignment. *)
Theorem setConfigValue_accepted
  (Sscanf_d : string -> option Z) (cfg cfg' : config.Config) (key value : string) :
  setConfigValue Sscanf_d cfg key value = Ok cfg' ->
  (key <> "stuck_threshold" -> getConfigValue cfg' key = Ok value)
  /\ (validate cfg = None -> validate cfg' = None).
Proof.
  unfold setConfigValue. rewrite !validate_None.
  destruct cfg as [c m p a s v y].
  destruct (String.eqb_spec key "cli") as [->|K1].
  { cbv zeta. destruct (contains _ value) eqn:Hc; [|discriminate]. cbn [negb].
    intros [= <-]. split; [reflexivity|]. simpl. intros [_ Hs].
    split; [right; apply contains_In in Hc; exact Hc | exact Hs]. }
  destruct (String.eqb_spec key "model") as [->|K2].
  { intros [= <-]. split; [reflexivity | trivial]. }
  destruct (String.eqb_spec key "prompt_file") as [->|K3].
  { intros [= <-]. split; [reflexivity | trivial]. }
  destruct (String.eqb_spec key "auto_push") as [->|K4].
  { destruct (String.eqb_spec value "true") as [->|V1]; [intros [= <-]; split; [reflexivity | trivial]|].
    destruct (String.eqb_spec value "false") as [->|V2]; [|discriminate].
    intros [= <-]. split; [reflexivity | trivial]. }
  destruct (String.eqb_spec key "stuck_threshold") as [->|K5].
  { destruct (Sscanf_d value) as [threshold|]; [|discriminate].
    destruct (Z.ltb_spec threshold 0); [discriminate|].
    intros [= <-]. split; [congruence|]. simpl. intros [Hc _]. split; [exact Hc | lia]. }
  destruct (String.eqb_spec key "verify") as [->|K6].
  { intros [= <-]. split; [reflexivity | trivial]. }
  destruct (String.eqb_spec key "memory") as [->|K7]; [|discriminate].
  destruct (String.eqb_spec value "true") as [->|V1]; [intros [= <-]; split; [reflexivity | trivial]|].
  destruct (String.eqb_spec value "false") as [->|V2]; [|discriminate].
  intros [= <-]. split; [reflexivity | trivial].
Qed.

Lemma setConfigValue_accepted_witness :
  setConfigValue sample.scansNothing Defaults "cli" "codex" = Ok (withCLI Defaults "codex")
  /\ ("cli" <> "stuck_threshold"
      -> getConfigValue (withCLI Defaults "codex") "cli" = Ok "codex")
  /\ (validate Defaults = None -> validate (withCLI Defaults "codex") = None).
Proof.
  assert (H : setConfigValue sample.scansNothing Defaults "cli" "codex"
              = Ok (withCLI Defaults "codex")) by reflexivity.
  split; [exact H | exact (@setConfigValue_accepted _ _ _ _ _ H)].
Defined.

End CliFacts.

(* ===================================================================== *)
(** * The session memory *)
(* ===================================================================== *)

Section MemoryFacts.
Import memory.

Lemma RecordIteration_log (m : SessionMemory) (commitsMade : Z) (newCommits : list CommitRecord) :
  CommitLog (RecordIteration m commitsMade newCommits)
  = firstn MaxCommitLog (newCommits ++ CommitLog m).
Proof.
  unfold RecordIteration. cbv zeta. cbn [CommitLog withCommitLog withCommits withIterations].
  destruct (Nat.ltb_spec MaxCommitLog (List.length (newCommits ++ CommitLog m))).
  - reflexivity.
  - cbn [CommitLog]. symmetry. apply firstn_all2. assumption.
Qed.

Lemma firstn_app_firstn (A : Type) (n : nat) (a b : list A) :
  firstn n (a ++ firstn n b) = firstn n (a ++ b).
Proof.
  rewrite !firstn_app, firstn_firstn. f_equal. f_equal. lia.
Qed.

Lemma recordAll_snoc (m : SessionMemory) (iterations : list (Z * list CommitRecord))
  (it : Z * list CommitRecord) :
  recordAll m (iterations ++ [it])
  = RecordIteration (recordAll m iterations) (fst it) (snd it).
Proof. unfold recordAll. rewrite fold_left_app. reflexivity. Qed.

(** X30. Capping the commit log after each iteration loses nothing a
    single cap would keep: after any run of iterations on a memory
    whose log is within the cap, the log is the twenty most recent
    records of all, the latest iteration first. *)
Theorem recordAll_keeps_latest
  (m : SessionMemory) (iterations : list (Z * list CommitRecord)) :
  List.length (CommitLog m) <= MaxCommitLog ->
  CommitLog (recordAll m iterations)
  = firstn MaxCommitLog (concat (rev (map snd iterations)) ++ CommitLog m)
  /\ List.length (CommitLog (recordAll m iterations)) <= MaxCommitLog.
Proof.
  intros Hm.
  assert (H : CommitLog (recordAll m iterations)
              = firstn MaxCommitLog (concat (rev (map snd iterations)) ++ CommitLog m)).
  { induction iterations as [|it iterations IH] using rev_ind.
    - change (CommitLog m = firstn MaxCommitLog (CommitLog m)).
      symmetry. apply firstn_all2, Hm.
    - rewrite recordAll_snoc, RecordIteration_log, IH, firstn_app_firstn.
      rewrite map_app, rev_app_distr. simpl. rewrite app_assoc. reflexivity. }
  split; [exact H|]. rewrite H. apply firstn_le_length.
Qed.

Lemma recordAll_keeps_latest_witness :
  List.length (CommitLog sample.freshMemory) <= MaxCommitLog
  /\ CommitLog (recordAll sample.freshMemory sample.twoIterations)
     = firstn MaxCommitLog
         (concat (rev (map snd sample.twoIterations)) ++ CommitLog sample.freshMemory)
  /\ List.length (CommitLog (recordAll sample.freshMemory sample.twoIterations))
     <= MaxCommitLog.
Proof.
  assert (H : List.length (CommitLog sample.freshMemory) <= MaxCommitLog)
    by (vm_compute; lia).
  split; [exact H | exact (@recordAll_keeps_latest _ sample.twoIterations H)].
Defined.

End MemoryFacts.
